(** * thaistock-app: signal scoring, targets, recommendation, patterns,
      mean reversion and the Fibonacci scanner

    A shallow embedding of the Python modules [indicators], [signals],
    [candle_analysis] and [scanner] (and of the market-hours test of
    [data_fetcher]), with the properties of the design document stated
    and proved against it, followed by further properties read off the
    code.

    Numbers.  Python floats are modelled as exact rationals ([Q]); where
    the source itself tests for or produces an undefined value (warm-up
    rows of an indicator column, [rolling(60)] on a short frame,
    [pd.isna]) the value is a [pyfloat], which adds [NaN] with Python's
    comparison rules (every comparison with [NaN] is false).  The OHLCV
    columns of a frame are finite numbers, as the data model requires.
    Rationale texts of signals are represented by the rule that emits
    them.

    Doubles.  Three functions decide by a comparison that rounding can
    tip: the zone test of the scanners, the 1% clustering test of the
    support and resistance search, and the zero-deviation guard of the
    mean-reversion analysis.  These are modelled on IEEE 754 binary64
    numbers, Rocq's primitive [float], in the modules whose names end
    in [Double]; what is proved of them holds of the numbers the code
    computes with. *)

From Stdlib Require Import Floats.
From Stdlib Require Import String DecimalString.
From Stdlib Require Import ZArith QArith Qround Qabs Qminmax Lqa Lia.
From Stdlib Require Import List Bool.
From Stdlib Require Import Sorting.Permutation Sorting.Sorted.
Import ListNotations.
Open Scope Q_scope.

(* A decimal literal in [float_scope] denotes the nearest double, as a
   literal of Python does. *)
#[local] Set Warnings "-inexact-float".

(* ================================================================== *)
(** * Python numbers *)
(* ================================================================== *)

Module PyNum.

(** Comparisons on finite floats. *)
Definition Qleb (x y : Q) : bool := Qle_bool x y.
Definition Qltb (x y : Q) : bool := negb (Qle_bool y x).
Definition Qgeb (x y : Q) : bool := Qleb y x.
Definition Qgtb (x y : Q) : bool := Qltb y x.
Definition Qeqb (x y : Q) : bool := Qeq_bool x y.

(** [min(a, b)] and [max(a, b)] of the Python builtins: the first
    argument is kept unless the second is strictly better. *)
Definition py_min (a b : Q) : Q := if Qltb b a then b else a.
Definition py_max (a b : Q) : Q := if Qgtb b a then b else a.

(** [round(x)] to the nearest integer, ties to even. *)
Definition round_half_even (q : Q) : Z :=
  let f := Qfloor q in
  let r := q - inject_Z f in
  if Qltb r (1 # 2) then f
  else if Qltb (1 # 2) r then (f + 1)%Z
  else if Z.even f then f else (f + 1)%Z.

Definition pow10 (ndigits : nat) : Q := inject_Z (10 ^ Z.of_nat ndigits).

(** [round(x, ndigits)], of the exact value.  Python rounds the double:
    where the exact value is at a tie, or the double is not, the two can
    differ by one unit in the last place kept. *)
Definition py_round (q : Q) (ndigits : nat) : Q :=
  inject_Z (round_half_even (q * pow10 ndigits)) / pow10 ndigits.

(** [int(x)]: truncation toward zero. *)
Definition py_int (q : Q) : Z :=
  if Qltb q 0 then Qceiling q else Qfloor q.

(** Floats that may be undefined. *)
Inductive pyfloat : Type :=
| NaN
| Fin (q : Q).

Definition flt (a b : pyfloat) : bool :=
  match a, b with Fin x, Fin y => Qltb x y | _, _ => false end.
Definition fle (a b : pyfloat) : bool :=
  match a, b with Fin x, Fin y => Qleb x y | _, _ => false end.
Definition fgt (a b : pyfloat) : bool := flt b a.
Definition fge (a b : pyfloat) : bool := fle b a.

Definition fadd (a b : pyfloat) : pyfloat :=
  match a, b with Fin x, Fin y => Fin (x + y) | _, _ => NaN end.
Definition fsub (a b : pyfloat) : pyfloat :=
  match a, b with Fin x, Fin y => Fin (x - y) | _, _ => NaN end.
Definition fmul (a b : pyfloat) : pyfloat :=
  match a, b with Fin x, Fin y => Fin (x * y) | _, _ => NaN end.
Definition fround (a : pyfloat) (ndigits : nat) : pyfloat :=
  match a with Fin x => Fin (py_round x ndigits) | NaN => NaN end.

(** Builtin [min]/[max] on possibly undefined floats. *)
Definition fmin (a b : pyfloat) : pyfloat := if flt b a then b else a.
Definition fmax (a b : pyfloat) : pyfloat := if fgt b a then b else a.

(** [min(a, b)] and [max(a, b)] with a finite first argument: an
    undefined second argument never wins the comparison. *)
Definition min_f (a : Q) (b : pyfloat) : Q :=
  match b with Fin y => py_min a y | NaN => a end.
Definition max_f (a : Q) (b : pyfloat) : Q :=
  match b with Fin y => py_max a y | NaN => a end.

Definition isna (a : pyfloat) : bool :=
  match a with NaN => true | Fin _ => false end.

(** Truth value of a float: only zero is false ([NaN] is true). *)
Definition truthy (a : pyfloat) : bool :=
  match a with NaN => true | Fin q => negb (Qeqb q 0) end.

(** [a or b]. *)
Definition py_or (a b : pyfloat) : pyfloat := if truthy a then a else b.

(** A cell of a row: [None] when the frame has no such column. *)
Definition cell : Type := option pyfloat.

(** [row.get(col, default)]. *)
Definition get (c : cell) (default : pyfloat) : pyfloat :=
  match c with Some v => v | None => default end.

(** Column maximum and minimum. *)
Definition maxQ (l : list Q) : Q :=
  match l with
  | [] => 0
  | x :: t => fold_left (fun m y => if Qltb m y then y else m) t x
  end.

Definition minQ (l : list Q) : Q :=
  match l with
  | [] => 0
  | x :: t => fold_left (fun m y => if Qltb y m then y else m) t x
  end.

(** A cell that holds a number, and the number it holds. *)
Definition is_num (c : cell) : bool :=
  match c with Some (Fin _) => true | _ => false end.
Definition num (c : cell) : Q :=
  match c with Some (Fin q) => q | _ => 0 end.
Definition is_positive (c : cell) : bool := is_num c && Qltb 0 (num c).

Definition sumQ (l : list Q) : Q := fold_right Qplus 0 l.
Definition meanQ (l : list Q) : Q := sumQ l / inject_Z (Z.of_nat (length l)).

End PyNum.

Import PyNum.

(* ================================================================== *)
(** * Frames *)
(* ================================================================== *)

(** One bar of an indicator frame.  The OHLCV columns are always there;
    an indicator column may be absent from the frame ([None]), undefined
    on this row ([Some NaN]) or a number. *)
Record row : Type := mkRow {
  Open : Q; High : Q; Low : Q; Close : Q; Volume : Q;
  EMA9 : cell; EMA21 : cell; EMA50 : cell; EMA200 : cell;
  RSI : cell; MACD : cell; MACD_signal : cell; MACD_hist : cell;
  StochRSI_k : cell; StochRSI_d : cell;
  Vol_ratio : cell; OBV : cell;
  BB_upper : cell; BB_lower : cell;
  ATR : cell; ADX : cell; DI_plus : cell; DI_minus : cell
}.

Definition frame : Type := list row.

(** [df.iloc[-k]] for [k >= 1]; [None] when the frame is too short. *)
Definition iloc_neg {A} (l : list A) (k : nat) : option A :=
  if (k <=? List.length l)%nat then nth_error l (List.length l - k) else None.

(** [l[-k:]]: the last [k] elements ([k >= 1]), all of them when the list
    is shorter. *)
Definition lastn {A} (k : nat) (l : list A) : list A :=
  skipn (List.length l - k) l.

Inductive SigType : Type := BUY | SELL | NEUTRAL.
Inductive Strength : Type := WEAK | MEDIUM | STRONG.

Definition SigType_eqb (a b : SigType) : bool :=
  match a, b with
  | BUY, BUY | SELL, SELL | NEUTRAL, NEUTRAL => true
  | _, _ => false
  end.

Definition Strength_eqb (a b : Strength) : bool :=
  match a, b with
  | WEAK, WEAK | MEDIUM, MEDIUM | STRONG, STRONG => true
  | _, _ => false
  end.

(** A stable sort, as Python's [sorted] is: [before x y] holds when [x]
    must come before [y]; elements neither of which must come before
    the other keep their order.  pandas' [sort_values] is modelled by
    the same sort, although it does not promise an order among ties. *)
Fixpoint insert_before {A} (before : A -> A -> bool) (x : A) (l : list A)
    : list A :=
  match l with
  | [] => [x]
  | y :: l' => if before x y then x :: l else y :: insert_before before x l'
  end.

Definition sort_before {A} (before : A -> A -> bool) (l : list A) : list A :=
  fold_left (fun acc x => insert_before before x acc) l [].

(* ================================================================== *)
(** * modules/indicators.py *)
(* ================================================================== *)

Module Indicators.

(** ** scipy's [argrelextrema(data, comparator, order)], default
    [mode='clip']: index [i] is kept when [data[i]] compares true with
    the entries [1..order] places to either side, indices beyond an end
    being replaced by that end. *)

Definition take_clip (data : list Q) (j : Z) : Q :=
  nth (Z.to_nat (Z.min (Z.max j 0) (Z.of_nat (List.length data) - 1))) data 0.

Definition is_relextremum (cmp : Q -> Q -> bool) (data : list Q)
    (order : nat) (i : nat) : bool :=
  forallb (fun shift =>
             cmp (nth i data 0) (take_clip data (Z.of_nat i + Z.of_nat shift))
             && cmp (nth i data 0) (take_clip data (Z.of_nat i - Z.of_nat shift)))
          (seq 1 order).

Definition argrelextrema (data : list Q) (cmp : Q -> Q -> bool)
    (order : nat) : list nat :=
  filter (is_relextremum cmp data order) (seq 0 (List.length data)).

(** ** [sorted(set(xs))]: ascending, numerically equal values once *)

Fixpoint insert_uniq (x : Q) (l : list Q) : list Q :=
  match l with
  | [] => [x]
  | y :: l' =>
      if Qltb x y then x :: l
      else if Qeqb x y then l
      else y :: insert_uniq x l'
  end.

Definition sorted_set (xs : list Q) : list Q :=
  fold_right insert_uniq [] xs.

(** ** [sorted(xs, key=...)]: ascending in the key *)

Definition sorted_by (key : Q -> Q) (xs : list Q) : list Q :=
  sort_before (fun x y => Qltb (key x) (key y)) xs.

(** ** [cluster_levels] *)

(** The 1% test, exact; [IndicatorsDouble.near] is the test on
    doubles. *)
Definition near (prev lv : Q) (threshold : Q) : bool :=
  Qleb (Qabs (lv - prev) / py_max prev (1 # 1000000000)) threshold.

(** One iteration of the loop over [levels[1:]], on the pair
    [(clustered, group)]. *)
Definition cluster_step (threshold : Q) (st : list Q * list Q) (lv : Q)
    : list Q * list Q :=
  let '(clustered, group) := st in
  if near (last group 0) lv threshold
  then (clustered, group ++ [lv])
  else (clustered ++ [meanQ group], [lv]).

Definition cluster_levels (levels : list Q) (threshold : Q) : list Q :=
  match levels with
  | [] => []
  | lv0 :: rest =>
      let '(clustered, group) :=
        fold_left (cluster_step threshold) rest ([], [lv0]) in
      clustered ++ [meanQ group]
  end.

(** What a clustering is: a group is a run of levels each within the
    threshold of the one before it, and a new group starts exactly where
    a level is not. *)
Inductive chained (threshold : Q) : list Q -> Prop :=
| chained_one a : chained threshold [a]
| chained_snoc g a :
    chained threshold g ->
    near (last g 0) a threshold = true ->
    chained threshold (g ++ [a]).

Inductive clustering (threshold : Q) : list (list Q) -> Prop :=
| clustering_one g : chained threshold g -> clustering threshold [g]
| clustering_snoc gs g g' :
    clustering threshold (gs ++ [g]) ->
    chained threshold g' ->
    near (last g 0) (hd 0 g') threshold = false ->
    clustering threshold ((gs ++ [g]) ++ [g']).

(** ** [find_support_resistance]

    [None] stands for the [IndexError] of [closes[-1]] on an empty
    frame, which the function does not catch.  For a window below 1
    [argrelextrema] raises [ValueError], which the function catches,
    returning two empty lists.  The arithmetic is exact here;
    [IndicatorsDouble.find_support_resistance] is the same function on
    doubles. *)
Definition find_support_resistance (closes : list Q) (window : nat)
    : option (list Q * list Q) :=
  match iloc_neg closes 1 with
  | None => None
  | Some current =>
      if (window <? 1)%nat then Some ([], []) else
      let local_min_idx := argrelextrema closes Qleb window in
      let local_max_idx := argrelextrema closes Qgeb window in
      let supports :=
        cluster_levels
          (sorted_set (map (fun i => nth i closes 0) local_min_idx)) 0.01 in
      let resistances :=
        cluster_levels
          (sorted_set (map (fun i => nth i closes 0) local_max_idx)) 0.01 in
      let supports :=
        sorted_by (fun x => Qabs (x - current))
                  (filter (fun s => Qltb s (current * 1.02)) supports) in
      let resistances :=
        sorted_by (fun x => Qabs (x - current))
                  (filter (fun r => Qgtb r (current * 0.98)) resistances) in
      Some (firstn 7 supports, firstn 7 resistances)
  end.

(** ** [detect_candlestick_patterns] *)

Inductive PatternName : Type :=
| Hammer | ShootingStar | BullishEngulfing | BearishEngulfing
| MorningStar | EveningStar | Doji.

Definition body (c : row) : Q := Qabs (Close c - Open c).
Definition upper_wick (c : row) : Q := High c - py_max (Close c) (Open c).
Definition lower_wick (c : row) : Q := py_min (Close c) (Open c) - Low c.
Definition full_range (c : row) : Q := py_max (High c - Low c) (1 # 1000000000).
Definition is_bull (c : row) : bool := Qgtb (Close c) (Open c).
Definition is_bear (c : row) : bool := Qltb (Close c) (Open c).

Definition detect_candlestick_patterns (df : frame)
    : list (PatternName * SigType) :=
  match iloc_neg df 3, iloc_neg df 2, iloc_neg df 1 with
  | Some c1, Some c2, Some c3 =>
      (if Qgtb (lower_wick c3) (body c3 * 2)
          && Qltb (upper_wick c3) (body c3 * 0.5) && is_bear c2
       then [(Hammer, BUY)] else [])
      ++ (if Qgtb (upper_wick c3) (body c3 * 2)
             && Qltb (lower_wick c3) (body c3 * 0.5) && is_bull c2
          then [(ShootingStar, SELL)] else [])
      ++ (if is_bear c2 && is_bull c3 && Qltb (Open c3) (Close c2)
             && Qgtb (Close c3) (Open c2)
          then [(BullishEngulfing, BUY)] else [])
      ++ (if is_bull c2 && is_bear c3 && Qgtb (Open c3) (Close c2)
             && Qltb (Close c3) (Open c2)
          then [(BearishEngulfing, SELL)] else [])
      ++ (if is_bear c1 && Qltb (body c2) (body c1 * 0.3) && is_bull c3
             && Qgtb (Close c3) ((Open c1 + Close c1) / 2)
          then [(MorningStar, BUY)] else [])
      ++ (if is_bull c1 && Qltb (body c2) (body c1 * 0.3) && is_bear c3
             && Qltb (Close c3) ((Open c1 + Close c1) / 2)
          then [(EveningStar, SELL)] else [])
      ++ (if Qltb (body c3) (full_range c3 * 0.1)
          then [(Doji, NEUTRAL)] else [])
  | _, _, _ => []
  end.

(** ** Indicator columns

    [_ema], [_atr] and [_rsi] on columns without undefined
    values, as the price columns of a frame are.  A column is the list
    of its values in row order; the columns passed together are those of
    one frame and have the same length. *)

(** [series.ewm(alpha=a, adjust=False).mean()] on a column without
    undefined values: the first value, then
    [(1 - a) * previous + a * value]. *)
Fixpoint ewm_from (alpha y : Q) (xs : list Q) : list Q :=
  match xs with
  | [] => []
  | x :: xs' =>
      let y' := (1 - alpha) * y + alpha * x in
      y' :: ewm_from alpha y' xs'
  end.

Definition ewm_mean (alpha : Q) (xs : list Q) : list Q :=
  match xs with
  | [] => []
  | x0 :: xs' => x0 :: ewm_from alpha x0 xs'
  end.

(** [min_periods=n]: a row is undefined until [n] values have been
    seen. *)
Definition with_min_periods (n : nat) (ys : list Q) : list pyfloat :=
  map (fun iy => if (n <=? S (fst iy))%nat then Fin (snd iy) else NaN)
      (combine (seq 0 (List.length ys)) ys).


(** The true range: the widest of high - low, |high - previous close|
    and |low - previous close|; the first row has no previous close,
    and [max(axis=1)] skips its two undefined entries. *)
Fixpoint true_range_from (prev_close : Q) (bars : list (Q * Q * Q))
    : list Q :=
  match bars with
  | [] => []
  | (h, l, c) :: rest =>
      maxQ [h - l; Qabs (h - prev_close); Qabs (l - prev_close)]
      :: true_range_from c rest
  end.

Definition true_range (high low close : list Q) : list Q :=
  match combine (combine high low) close with
  | [] => []
  | (h, l, c) :: rest => (h - l) :: true_range_from c rest
  end.

(** [_atr]: [com=length-1] is [alpha = 1 / length], for [length >= 1]. *)
Definition _atr (high low close : list Q) (length : nat) : list pyfloat :=
  with_min_periods length
    (ewm_mean (1 / inject_Z (Z.of_nat length)) (true_range high low close)).

(** [series.diff()] from the second row on. *)
Fixpoint diff_from (prev : Q) (xs : list Q) : list Q :=
  match xs with
  | [] => []
  | x :: xs' => (x - prev) :: diff_from x xs'
  end.

(** [clip(lower=lo)] and [clip(upper=hi)] *)
Definition clip_lower (lo d : Q) : Q := if Qltb d lo then lo else d.
Definition clip_upper (hi d : Q) : Q := if Qltb hi d then hi else d.

(** [ewm(alpha=a).mean()] with the default [adjust=True]: the running
    average weights the value [k] rows back by [(1 - a)^k].  pandas
    keeps the average so far and the sum of the weights behind it. *)
Fixpoint ewm_adjusted_from (alpha weighted old_wt : Q) (xs : list Q)
    : list Q :=
  match xs with
  | [] => []
  | cur :: xs' =>
      let old_wt := old_wt * (1 - alpha) in
      let weighted := (old_wt * weighted + cur) / (old_wt + 1) in
      weighted :: ewm_adjusted_from alpha weighted (old_wt + 1) xs'
  end.

Definition ewm_adjusted (alpha : Q) (xs : list Q) : list Q :=
  match xs with
  | [] => []
  | x0 :: xs' => x0 :: ewm_adjusted_from alpha x0 1 xs'
  end.

(** [100 - 100 / (1 + avg_gain / avg_loss.replace(0, nan))], exact: the
    value stays below 100, which in double precision it reaches once
    the quotient is large. *)
Definition rsi_value (avg_gain avg_loss : pyfloat) : pyfloat :=
  match avg_gain, avg_loss with
  | Fin g, Fin l =>
      if Qeqb l 0 then NaN else Fin (100 - 100 / (1 + g / l))
  | _, _ => NaN
  end.

(** [_rsi]: [com=length-1] is [alpha = 1 / length], for [length >= 1];
    the first row has no difference, so it is undefined and is not
    counted by [min_periods]. *)
Definition _rsi (series : list Q) (length : nat) : list pyfloat :=
  match series with
  | [] => []
  | x0 :: rest =>
      let delta := diff_from x0 rest in
      let gain := map (clip_lower 0) delta in
      let loss := map (fun d => - clip_upper 0 d) delta in
      let alpha := 1 / inject_Z (Z.of_nat length) in
      let avg_gain := with_min_periods length (ewm_adjusted alpha gain) in
      let avg_loss := with_min_periods length (ewm_adjusted alpha loss) in
      NaN :: map (fun gl => rsi_value (fst gl) (snd gl))
                 (combine avg_gain avg_loss)
  end.

End Indicators.

(* ================================================================== *)
(** * modules/signals.py *)
(* ================================================================== *)

Module Signals.

Import Indicators.

Inductive Regime : Type :=
| BULL_TREND | BEAR_TREND | SIDEWAYS | TRANSITION
| BULL_MOMENTUM | BEAR_MOMENTUM | UNKNOWN.

Definition Regime_eqb (a b : Regime) : bool :=
  match a, b with
  | BULL_TREND, BULL_TREND | BEAR_TREND, BEAR_TREND
  | SIDEWAYS, SIDEWAYS | TRANSITION, TRANSITION
  | BULL_MOMENTUM, BULL_MOMENTUM | BEAR_MOMENTUM, BEAR_MOMENTUM
  | UNKNOWN, UNKNOWN => true
  | _, _ => false
  end.

(** The fixed rationale of each scoring rule. *)
Inductive Rule : Type :=
| EmaAlignedUp | EmaAlignedDown | AboveEma50 | BelowEma50
| GoldenCross | DeathCross
| AboveEma200 | BelowEma200
| RsiOversold | RsiOverbought | RsiMiddle
| MacdCrossUp | MacdCrossDown | MacdPositive | MacdNegative
| StochCrossUp | StochCrossDown
| VolumeBreakout | VolumeBreakdown | VolumeLow
| ObvAccumulation | ObvDistribution
| BollingerLower | BollingerUpper
| Candle (p : PatternName)
| IntraEmaUp | IntraEmaDown | IntraHistUp | IntraHistDown | IntraMacdCross
| IntraRsiOversold | IntraRsiOverbought | IntraBbLower | IntraBbUpper
| IntraVolumeSpike | IntraGreenCandle | IntraRedCandle.

Record Signal : Type := mkSignal {
  sig_type : SigType;
  sig_strength : Strength;
  sig_reason : Rule
}.

(** ** [get_market_regime] *)

Definition f0 : pyfloat := Fin 0.

Definition get_market_regime (df : frame) : Regime :=
  match iloc_neg df 1 with
  | None => SIDEWAYS                       (* IndexError, caught *)
  | Some last =>
      let adx := py_or (get (ADX last) f0) f0 in
      let price := Fin (Close last) in
      let ema200 := py_or (get (EMA200 last) price) price in
      let di_plus := py_or (get (DI_plus last) f0) f0 in
      let di_minus := py_or (get (DI_minus last) f0) f0 in
      if fgt adx (Fin 25) then
        if fgt price ema200 && fgt di_plus di_minus then BULL_TREND
        else if flt price ema200 && fgt di_minus di_plus then BEAR_TREND
        else TRANSITION
      else SIDEWAYS
  end.

(** ** The scoring state and its monad

    The scorer threads [score] and [signals] through a sequence of
    [try: ... except: pass] blocks.  A computation returns [None] when
    it raised; the state reached so far is kept, as in Python. *)

Record ScoreState : Type := mkState {
  score : Z;
  signals : list Signal
}.

Definition M (A : Type) : Type := ScoreState -> option A * ScoreState.

Definition ret {A} (a : A) : M A := fun s => (Some a, s).

Definition bind {A B} (m : M A) (k : A -> M B) : M B :=
  fun s => match m s with
           | (Some a, s') => k a s'
           | (None, s') => (None, s')
           end.

Definition raise {A} : M A := fun s => (None, s).

(** [score += d] *)
Definition add_score (d : Z) : M unit :=
  fun s => (Some tt, mkState (score s + d) (signals s)).

(** [signals.append(...)] *)
Definition emit (t : SigType) (st : Strength) (r : Rule) : M unit :=
  fun s => (Some tt, mkState (score s) (signals s ++ [mkSignal t st r])).

(** [try: m  except: pass] *)
Definition try_pass (m : M unit) : M unit :=
  fun s => (Some tt, snd (m s)).

(** [df['col'].iloc[...]]: [KeyError] when the column is absent. *)
Definition column (c : cell) : M pyfloat :=
  match c with Some v => ret v | None => raise end.

Declare Scope score_scope.
Delimit Scope score_scope with score.
Notation "x <- m ;; k" := (bind m (fun x => k))
  (at level 61, m at next level, right associativity) : score_scope.
Notation "m ;; k" := (bind m (fun _ => k))
  (at level 61, right associativity) : score_scope.
Open Scope score_scope.

Definition skip : M unit := ret tt.

(** ** The rule blocks of [calculate_signal_score] *)

Definition rule_ema_alignment (last : row) : M unit :=
  let ema9 := py_or (get (EMA9 last) f0) f0 in
  let ema21 := py_or (get (EMA21 last) f0) f0 in
  let ema50 := py_or (get (EMA50 last) f0) f0 in
  let ema200 := py_or (get (EMA200 last) f0) f0 in
  let close := Fin (Close last) in
  if fgt ema9 ema21 && fgt ema21 ema50 && fgt ema50 ema200 && fgt close ema9
  then add_score 15 ;; emit BUY STRONG EmaAlignedUp
  else if flt ema9 ema21 && flt ema21 ema50 && flt ema50 ema200
          && flt close ema9
  then add_score (-15) ;; emit SELL STRONG EmaAlignedDown
  else if fgt close ema50
  then add_score 7 ;; emit BUY MEDIUM AboveEma50
  else if flt close ema50
  then add_score (-7) ;; emit SELL MEDIUM BelowEma50
  else skip.

Definition rule_ema_cross (last prev : row) : M unit :=
  let prev_ema9 := py_or (get (EMA9 prev) f0) f0 in
  let prev_ema21 := py_or (get (EMA21 prev) f0) f0 in
  let ema9 := py_or (get (EMA9 last) f0) f0 in
  let ema21 := py_or (get (EMA21 last) f0) f0 in
  if flt prev_ema9 prev_ema21 && fgt ema9 ema21
  then add_score 12 ;; emit BUY STRONG GoldenCross
  else if fgt prev_ema9 prev_ema21 && flt ema9 ema21
  then add_score (-12) ;; emit SELL STRONG DeathCross
  else skip.

Definition fdiv (a b : pyfloat) : pyfloat :=
  match a, b with Fin x, Fin y => Fin (x / y) | _, _ => NaN end.

Definition rule_price_vs_ema200 (last : row) : M unit :=
  let ema200 := py_or (get (EMA200 last) f0) (Fin (Close last)) in
  if fgt ema200 f0 then
    let diff_pct :=
      fmul (fdiv (fsub (Fin (Close last)) ema200) ema200) (Fin 100) in
    if fgt diff_pct (Fin 5)
    then add_score 8 ;; emit BUY MEDIUM AboveEma200
    else if flt diff_pct (Fin (-5))
    then add_score (-8) ;; emit SELL MEDIUM BelowEma200
    else skip
  else skip.

Definition rule_rsi (last : row) : M unit :=
  let rsi := py_or (get (RSI last) (Fin 50)) (Fin 50) in
  if flt rsi (Fin 30)
  then add_score 12 ;; emit BUY STRONG RsiOversold
  else if fgt rsi (Fin 70)
  then add_score (-12) ;; emit SELL STRONG RsiOverbought
  else if fle (Fin 40) rsi && fle rsi (Fin 60)
  then emit NEUTRAL WEAK RsiMiddle
  else skip.

Definition rule_macd (last prev : row) : M unit :=
  let macd := py_or (get (MACD last) f0) f0 in
  let macd_sig := py_or (get (MACD_signal last) f0) f0 in
  let p_macd := py_or (get (MACD prev) f0) f0 in
  let p_sig := py_or (get (MACD_signal prev) f0) f0 in
  if flt p_macd p_sig && fgt macd macd_sig
  then add_score 10 ;; emit BUY STRONG MacdCrossUp
  else if fgt p_macd p_sig && flt macd macd_sig
  then add_score (-10) ;; emit SELL STRONG MacdCrossDown
  else if fgt macd macd_sig && fgt macd f0
  then add_score 5 ;; emit BUY WEAK MacdPositive
  else if flt macd macd_sig && flt macd f0
  then add_score (-5) ;; emit SELL WEAK MacdNegative
  else skip.

Definition rule_stochrsi (last prev : row) : M unit :=
  let k := py_or (get (StochRSI_k last) (Fin 50)) (Fin 50) in
  let d := py_or (get (StochRSI_d last) (Fin 50)) (Fin 50) in
  let p_k := py_or (get (StochRSI_k prev) (Fin 50)) (Fin 50) in
  let p_d := py_or (get (StochRSI_d prev) (Fin 50)) (Fin 50) in
  if flt p_k p_d && fgt k d && flt k (Fin 30)
  then add_score 8 ;; emit BUY MEDIUM StochCrossUp
  else if fgt p_k p_d && flt k d && fgt k (Fin 70)
  then add_score (-8) ;; emit SELL MEDIUM StochCrossDown
  else skip.

Definition rule_volume (df : frame) (last prev : row) : M unit :=
  let vol_ratio := py_or (get (Vol_ratio last) (Fin 1)) (Fin 1) in
  let obv_now := py_or (get (OBV last) f0) f0 in
  obv_prev <- (if (10 <=? List.length df)%nat
               then match iloc_neg df 10 with
                    | Some r => column (OBV r)
                    | None => raise
                    end
               else ret obv_now) ;;
  (if fgt vol_ratio (Fin 2) && Qgtb (Close last) (Close prev)
   then add_score 10 ;; emit BUY STRONG VolumeBreakout
   else if fgt vol_ratio (Fin 2) && Qltb (Close last) (Close prev)
   then add_score (-10) ;; emit SELL STRONG VolumeBreakdown
   else if flt vol_ratio (Fin 0.5)
   then emit NEUTRAL WEAK VolumeLow
   else skip) ;;
  (if fgt obv_now obv_prev && Qgtb (Close last) (Close prev)
   then add_score 7 ;; emit BUY MEDIUM ObvAccumulation
   else if flt obv_now obv_prev && Qltb (Close last) (Close prev)
   then add_score (-7) ;; emit SELL MEDIUM ObvDistribution
   else skip).

Definition rule_bollinger (last : row) : M unit :=
  let bb_lower := py_or (get (BB_lower last) f0) f0 in
  let bb_upper := py_or (get (BB_upper last) f0) f0 in
  let close := Fin (Close last) in
  if fgt bb_lower f0 && fle close (fmul bb_lower (Fin 1.01))
  then add_score 5 ;; emit BUY MEDIUM BollingerLower
  else if fgt bb_upper f0 && fge close (fmul bb_upper (Fin 0.99))
  then add_score (-5) ;; emit SELL MEDIUM BollingerUpper
  else skip.

(** [for p in patterns: ...] *)
Fixpoint for_patterns (ps : list (PatternName * SigType)) : M unit :=
  match ps with
  | [] => skip
  | (name, ty) :: ps' =>
      (match ty with
       | BUY => add_score 5
       | SELL => add_score (-5)
       | NEUTRAL => skip
       end) ;;
      emit ty MEDIUM (Candle name) ;;
      for_patterns ps'
  end.

Definition rule_patterns (df : frame) : M unit :=
  for_patterns (detect_candlestick_patterns df).

(** ** [calculate_signal_score] *)

Definition clamp_score (s : Z) : Z := Z.max 0 (Z.min 100 s).

Definition score_rules (df : frame) (last prev : row) : M unit :=
  try_pass (rule_ema_alignment last) ;;
  try_pass (rule_ema_cross last prev) ;;
  try_pass (rule_price_vs_ema200 last) ;;
  try_pass (rule_rsi last) ;;
  try_pass (rule_macd last prev) ;;
  try_pass (rule_stochrsi last prev) ;;
  try_pass (rule_volume df last prev) ;;
  try_pass (rule_bollinger last) ;;
  try_pass (rule_patterns df).

(** The net change a block makes to the score, measured from zero, and
    the blocks of one evaluation in the order they run. *)
Definition contribution (m : M unit) : Z := score (snd (m (mkState 0 []))).

(** A block is additive when its effect on the score does not depend
    on the score it starts from. *)
Definition additive (m : M unit) : Prop :=
  forall s, score (snd (m s)) = (score s + contribution m)%Z.

Definition rule_blocks (df : frame) (last prev : row) : list (M unit) :=
  [rule_ema_alignment last; rule_ema_cross last prev;
   rule_price_vs_ema200 last; rule_rsi last; rule_macd last prev;
   rule_stochrsi last prev; rule_volume df last prev; rule_bollinger last;
   rule_patterns df].

Definition contributions (df : frame) : list Z :=
  if (List.length df <? 5)%nat then []
  else
    match iloc_neg df 1, iloc_neg df 2 with
    | Some last, Some prev => map contribution (rule_blocks df last prev)
    | _, _ => []
    end.

Definition sumZ (l : list Z) : Z := fold_right Z.add 0%Z l.

Definition calculate_signal_score (df : frame) : Z * list Signal * Regime :=
  let init := mkState 50 [] in
  let regime := get_market_regime df in
  if (List.length df <? 5)%nat then (score init, signals init, regime)
  else
    match iloc_neg df 1, iloc_neg df 2 with
    | Some last, Some prev =>
        let s := snd (score_rules df last prev init) in
        (clamp_score (score s), signals s, regime)
    | _, _ => (score init, signals init, regime)
    end.

Close Scope score_scope.

(** ** [calculate_price_targets] *)

(** [col.rolling(w).agg().iloc[-1]]: undefined on fewer than [w] rows. *)
Definition rolling_last (agg : list Q -> Q) (w : nat) (col : list Q)
    : pyfloat :=
  if (w <=? List.length col)%nat then Fin (agg (lastn w col)) else NaN.

Definition fabs (a : pyfloat) : pyfloat :=
  match a with Fin x => Fin (Qabs x) | NaN => NaN end.

Record Targets : Type := mkTargets {
  buy_low : Q;
  buy_high : Q;
  stop_loss : Q;
  targets : list Q;
  trailing_stop : Q;
  risk_amount_pct : Q;
  risk_reward : Q;
  fibonacci : list pyfloat;
  support_levels : list Q;
  resistance_levels : list Q
}.

(** [None] is the uncaught [IndexError] on an empty frame. *)
Definition calculate_price_targets (df : frame) (current_price : Q)
    : option Targets :=
  match find_support_resistance (map Close df) 10, iloc_neg df 1 with
  | Some (supports, resistances), Some last =>
      let atr :=
        match ATR last with
        | Some (Fin a) => a
        | _ => current_price * 0.02
        end in
      let period_high := rolling_last maxQ 60 (map High df) in
      let period_low := rolling_last minQ 60 (map Low df) in
      let fib_range := fsub period_high period_low in
      let fib r := fround (fadd period_low (fmul fib_range (Fin r))) 2 in
      let fib_618 := fib 0.618 in
      let nearest_sup :=
        match supports with
        | s :: _ => s
        | [] => current_price * 0.95
        end in
      let buy_low := py_round (min_f nearest_sup fib_618 * 0.99) 2 in
      let buy_high := py_round (max_f nearest_sup fib_618 * 1.01) 2 in
      let stop_loss := py_round (buy_low - atr * 1.5) 2 in
      let risk_amount := current_price - stop_loss in
      let risk_pct :=
        if Qgtb current_price 0 then risk_amount / current_price * 100
        else 5.0 in
      let tp1 := py_round (current_price + risk_amount * 2) 2 in
      let tp2 := py_round (current_price + risk_amount * 3) 2 in
      let tp3 :=
        match resistances with
        | r :: _ => py_round r 2
        | [] => py_round (current_price + risk_amount * 4) 2
        end in
      let risk_reward :=
        if Qgtb (tp1 - current_price) 0
        then risk_amount / (tp1 - current_price)
        else 0.5 in
      let trailing_stop := py_round (current_price - atr * 2) 2 in
      Some {| buy_low := buy_low;
              buy_high := buy_high;
              stop_loss := stop_loss;
              targets := [tp1; tp2; tp3];
              trailing_stop := trailing_stop;
              risk_amount_pct := py_round (Qabs risk_pct) 2;
              risk_reward := py_round risk_reward 3;
              fibonacci :=
                [fround period_low 2; fib 0.236; fib 0.382; fib 0.500;
                 fib 0.618; fib 0.786; fround period_high 2];
              support_levels := map (fun s => py_round s 2) supports;
              resistance_levels := map (fun r => py_round r 2) resistances |}
  | _, _ => None
  end.

(** ** [generate_recommendation] *)

Inductive Action : Type :=
| ActBUY | ActACCUMULATE | ActHOLD | ActREDUCE | ActSELL | ActWAIT.

Inductive Confidence : Type := ConfHIGH | ConfMEDIUM | ConfLOW.

(** The fixed texts that end up in [reasons] and [cautions]. *)
Inductive Note : Type :=
| NEmaAlignedUp | NMacdBullish | NAboveEma200 | NVolumeConfirm
| NRsiOversold | NNearBbLower | NUptrend | NMacdImproving | NBuyInParts
| NNeutralZone | NNoStrongTrend | NWaitDirection | NWatchVolume
| NRsiOverbought | NNearBbUpper | NEmaAlignedDown | NSellInParts
| NDowntrendConfirmed | NBelowEma200 | NStrongSell | NSetStopLoss
| NBelowEntryScore | NConflicting | NDoNotForce
| NRegime (r : Regime)
| NRiskRewardLow | NRiskRewardGood
| NRsiHigh | NRsiLow
| NLongerTimeframe.

Record Recommendation : Type := mkRec {
  action : Action;
  confidence : Confidence;
  reasons : list Note;
  cautions : list Note;
  entry_zone : option (pyfloat * pyfloat);
  rec_stop_loss : option pyfloat;
  rec_targets : list pyfloat;
  rec_score : Z;
  rec_regime : Regime;
  rec_rsi : pyfloat
}.

Definition _neutral_rec (price : Q) (score : Z) : Recommendation :=
  {| action := ActWAIT; confidence := ConfLOW;
     reasons := []; cautions := [NLongerTimeframe];
     entry_zone := None; rec_stop_loss := None; rec_targets := [];
     rec_score := score; rec_regime := UNKNOWN; rec_rsi := Fin 50 |}.

Definition count_signals (t : SigType) (st : Strength) (sigs : list Signal)
    : nat :=
  List.length
    (filter (fun s => SigType_eqb (sig_type s) t
                      && Strength_eqb (sig_strength s) st) sigs).

(** [[x] if b else []], for the conditional [append]s. *)
Definition when {A} (b : bool) (x : A) : list A := if b then [x] else [].

(** The indicator readings and derived conditions of the latest bar. *)
Record Conditions : Type := mkCond {
  c_close : pyfloat; c_rsi : pyfloat; c_atr : pyfloat; c_adx : pyfloat;
  buy_strong : nat; sell_strong : nat; sell_medium : nat;
  is_uptrend : bool; is_strong_trend : bool; above_ema200 : bool;
  ema_aligned_up : bool; ema_aligned_dn : bool;
  macd_bullish : bool; macd_improving : bool;
  rsi_oversold : bool; rsi_overbought : bool;
  near_bb_lower : bool; near_bb_upper : bool; vol_confirm : bool
}.

Definition conditions (last prev : row) (sigs : list Signal) : Conditions :=
  let close := Fin (Close last) in
  let rsi := py_or (get (RSI last) (Fin 50)) (Fin 50) in
  let macd := py_or (get (MACD last) f0) f0 in
  let macd_sig := py_or (get (MACD_signal last) f0) f0 in
  let macd_h := py_or (get (MACD_hist last) f0) f0 in
  let ema9 := py_or (get (EMA9 last) close) close in
  let ema21 := py_or (get (EMA21 last) close) close in
  let ema50 := py_or (get (EMA50 last) close) close in
  let ema200 := py_or (get (EMA200 last) close) close in
  let atr := py_or (get (ATR last) (fmul close (Fin 0.02)))
                   (fmul close (Fin 0.02)) in
  let bb_up := py_or (get (BB_upper last) (fmul close (Fin 1.02)))
                     (fmul close (Fin 1.02)) in
  let bb_lo := py_or (get (BB_lower last) (fmul close (Fin 0.98)))
                     (fmul close (Fin 0.98)) in
  let vol_r := py_or (get (Vol_ratio last) (Fin 1)) (Fin 1) in
  let adx := py_or (get (ADX last) f0) f0 in
  let prev_macd_h := py_or (get (MACD_hist prev) f0) f0 in
  {| c_close := close; c_rsi := rsi; c_atr := atr; c_adx := adx;
     buy_strong := count_signals BUY STRONG sigs;
     sell_strong := count_signals SELL STRONG sigs;
     sell_medium := count_signals SELL MEDIUM sigs;
     is_uptrend := fgt close ema50 && fgt ema50 f0;
     is_strong_trend := fgt adx (Fin 25);
     above_ema200 := if fgt ema200 f0 then fgt close ema200 else true;
     ema_aligned_up := fgt ema9 ema21 && fgt ema21 ema50;
     ema_aligned_dn := flt ema9 ema21 && flt ema21 ema50;
     macd_bullish := fgt macd macd_sig && fgt macd_h f0;
     macd_improving := fgt macd_h prev_macd_h;
     rsi_oversold := flt rsi (Fin 35);
     rsi_overbought := fgt rsi (Fin 70);
     near_bb_lower := fle close (fmul bb_lo (Fin 1.02));
     near_bb_upper := fge close (fmul bb_up (Fin 0.98));
     vol_confirm := fge vol_r (Fin 1.5) |}.

(** The guards of the five branches, in the order they are tried. *)
Definition guard_buy (c : Conditions) (score : Z) : bool :=
  (72 <=? score)%Z && ema_aligned_up c && macd_bullish c
  && above_ema200 c && negb (rsi_overbought c).

Definition guard_accumulate (c : Conditions) (score : Z) : bool :=
  (60 <=? score)%Z
  && (is_uptrend c || rsi_oversold c || near_bb_lower c)
  && (sell_strong c =? 0)%nat.

Definition guard_hold (c : Conditions) (score : Z) : bool :=
  (45 <=? score)%Z && (score <? 60)%Z
  && negb (rsi_overbought c) && negb (ema_aligned_dn c).

Definition guard_reduce (c : Conditions) (score : Z) : bool :=
  (40 <=? score)%Z && (score <? 55)%Z
  && (rsi_overbought c || near_bb_upper c || ema_aligned_dn c)
  && (1 <=? sell_medium c)%nat.

Definition guard_sell (c : Conditions) (score : Z) (regime : Regime) : bool :=
  (score <? 40)%Z && (1 <=? sell_strong c)%nat
  && (ema_aligned_dn c
      || (negb (above_ema200 c) && Regime_eqb regime BEAR_TREND)).

(** The [if]/[elif] chain: action, confidence, reasons, cautions. *)
Definition decide (c : Conditions) (score : Z) (regime : Regime)
    : Action * Confidence * list Note * list Note :=
  if guard_buy c score then
    (ActBUY,
     if (80 <=? score)%Z then ConfHIGH else ConfMEDIUM,
     when (ema_aligned_up c) NEmaAlignedUp
       ++ when (macd_bullish c) NMacdBullish
       ++ when (above_ema200 c) NAboveEma200
       ++ when (vol_confirm c) NVolumeConfirm,
     [])
  else if guard_accumulate c score then
    (ActACCUMULATE, ConfMEDIUM,
     when (rsi_oversold c) NRsiOversold
       ++ when (near_bb_lower c) NNearBbLower
       ++ when (is_uptrend c) NUptrend
       ++ when (macd_improving c) NMacdImproving,
     [NBuyInParts])
  else if guard_hold c score then
    (ActHOLD, ConfLOW,
     [NNeutralZone] ++ when (negb (is_strong_trend c)) NNoStrongTrend,
     [NWaitDirection; NWatchVolume])
  else if guard_reduce c score then
    (ActREDUCE, ConfMEDIUM,
     when (rsi_overbought c) NRsiOverbought
       ++ when (near_bb_upper c) NNearBbUpper
       ++ when (ema_aligned_dn c) NEmaAlignedDown,
     [NSellInParts])
  else if guard_sell c score regime then
    (ActSELL,
     if (score <? 30)%Z then ConfHIGH else ConfMEDIUM,
     when (ema_aligned_dn c) NDowntrendConfirmed
       ++ when (negb (above_ema200 c)) NBelowEma200
       ++ when (0 <? sell_strong c)%nat NStrongSell,
     [NSetStopLoss])
  else
    (ActWAIT, ConfLOW,
     [NBelowEntryScore]
       ++ when ((0 <? sell_strong c)%nat && (0 <? buy_strong c)%nat)
               NConflicting,
     [NDoNotForce]).

Definition regime_note (regime : Regime) : list Note :=
  match regime with
  | BULL_TREND | BEAR_TREND | SIDEWAYS | TRANSITION => [NRegime regime]
  | _ => []
  end.

(** The readings the first branch looks at are all there: the four
    averages and the close are positive numbers, MACD, its signal line,
    its histogram and RSI are numbers. *)
Definition readings_defined (last : row) : bool :=
  is_positive (EMA9 last) && is_positive (EMA21 last)
  && is_positive (EMA50 last) && is_positive (EMA200 last)
  && Qltb 0 (Close last)
  && is_num (MACD last) && is_num (MACD_signal last)
  && is_num (MACD_hist last) && is_num (RSI last).

(** [None] is the [ZeroDivisionError] of the risk percentage when the
    last close is zero. *)
Definition generate_recommendation (df : frame) (score : Z)
    (sigs : list Signal) (regime : Regime) (current_price : Q)
    : option Recommendation :=
  if (List.length df <? 5)%nat then Some (_neutral_rec current_price score)
  else
    match iloc_neg df 1, iloc_neg df 2 with
    | Some last, Some prev =>
        let c := conditions last prev sigs in
        let close := c_close c in
        let atr := c_atr c in
        let rsi := c_rsi c in
        let '(act, conf, reasons0, cautions0) := decide c score regime in
        let reasons1 := reasons0 ++ regime_note regime in
        let finish entry sl tps reasons2 cautions2 :=
          let cautions3 :=
            cautions2
            ++ (if fgt rsi (Fin 70)
                   && negb (match act with
                            | ActSELL | ActREDUCE => true | _ => false end)
                then [NRsiHigh]
                else if flt rsi (Fin 30)
                        && negb (match act with
                                 | ActBUY | ActACCUMULATE => true
                                 | _ => false end)
                then [NRsiLow]
                else []) in
          {| action := act; confidence := conf;
             reasons := firstn 5 reasons2; cautions := firstn 3 cautions3;
             entry_zone := entry; rec_stop_loss := sl; rec_targets := tps;
             rec_score := score; rec_regime := regime;
             rec_rsi := fround rsi 1 |} in
        match act with
        | ActBUY | ActACCUMULATE =>
            let entry_low := fround (fmul close (Fin 0.99)) 2 in
            let entry_high := fround (fmul close (Fin 1.005)) 2 in
            let sl := fround (fsub close (fmul atr (Fin 2))) 2 in
            let tp1 := fround (fadd close (fmul atr (Fin 2.5))) 2 in
            let tp2 := fround (fadd close (fmul atr (Fin 4))) 2 in
            if Qeqb (Close last) 0 then None
            else
              let risk_pct :=
                fmul (fdiv (fabs (fsub close sl)) close) (Fin 100) in
              let reward_pct :=
                fmul (fdiv (fabs (fsub tp1 close)) close) (Fin 100) in
              let rr := if fgt risk_pct f0 then fdiv reward_pct risk_pct
                        else f0 in
              if flt rr (Fin 1.5)
              then Some (finish (Some (entry_low, entry_high)) (Some sl)
                                [tp1; tp2] reasons1
                                (cautions0 ++ [NRiskRewardLow]))
              else Some (finish (Some (entry_low, entry_high)) (Some sl)
                                [tp1; tp2] (reasons1 ++ [NRiskRewardGood])
                                cautions0)
        | ActREDUCE | ActSELL =>
            let sl := fround (fadd close (fmul atr (Fin 1.5))) 2 in
            Some (finish None (Some sl) [] reasons1 cautions0)
        | _ => Some (finish None None [] reasons1 cautions0)
        end
    | _, _ => Some (_neutral_rec current_price score)
    end.

(** ** What the signals say about the score *)

(** What the rule behind a signal adds to the score.  The candlestick
    rule is the one whose points follow the signal's type. *)
Definition signal_points (s : Signal) : Z :=
  match sig_reason s with
  | EmaAlignedUp => 15 | EmaAlignedDown => -15
  | AboveEma50 => 7 | BelowEma50 => -7
  | GoldenCross => 12 | DeathCross => -12
  | AboveEma200 => 8 | BelowEma200 => -8
  | RsiOversold => 12 | RsiOverbought => -12 | RsiMiddle => 0
  | MacdCrossUp => 10 | MacdCrossDown => -10
  | MacdPositive => 5 | MacdNegative => -5
  | StochCrossUp => 8 | StochCrossDown => -8
  | VolumeBreakout => 10 | VolumeBreakdown => -10 | VolumeLow => 0
  | ObvAccumulation => 7 | ObvDistribution => -7
  | BollingerLower => 5 | BollingerUpper => -5
  | Candle _ =>
      match sig_type s with BUY => 5 | SELL => -5 | NEUTRAL => 0 end
  | _ => 0
  end%Z.

(** Points and type agree: positive for BUY, negative for SELL, none
    for NEUTRAL. *)
Definition points_match_type (s : Signal) : Prop :=
  match sig_type s with
  | BUY => (0 < signal_points s)%Z
  | SELL => (signal_points s < 0)%Z
  | NEUTRAL => signal_points s = 0%Z
  end.

(** A state whose signals account for its score. *)
Definition explained (s : ScoreState) : Prop :=
  score s = (50 + sumZ (map signal_points (signals s)))%Z
  /\ Forall points_match_type (signals s).

(** Prices quoted in whole cents. *)
Definition in_cents (x : Q) : Prop := exists z : Z, x == inject_Z z / 100.

(** ** [run_backtest]

    Dates are represented by bar positions.  Prices are assumed
    non-zero where the code divides by an entry price: numpy turns such
    a division into inf or nan instead of raising. *)

Inductive Strategy : Type :=
| EmaCrossover          (* "EMA Crossover (9/21)" *)
| RsiReversal           (* "RSI Oversold/Overbought" *)
| MacdCrossover         (* "MACD Crossover" *)
| BollingerBounce       (* "Bollinger Band Bounce" *)
| CombinedScore         (* "Combined Signal Score > 65" *)
| OtherStrategy.        (* any other string: no branch is taken *)

Record Trade : Type := mkTrade {
  entry_bar : nat;
  exit_bar : nat;
  entry_price : Q;        (* rounded to cents *)
  exit_price : Q;         (* rounded to cents *)
  pnl_pct : Q;            (* rounded to two places *)
  pnl_thb : Q;            (* rounded to two places *)
  is_win : bool           (* the label: unrounded pnl_pct > 0 *)
}.

Record BacktestState : Type := mkBacktest {
  equity : Q;
  holding : option (Q * nat);     (* entry price and entry bar *)
  trades : list Trade;
  equity_curve_y : list Q
}.

(** [(entry_signal, exit_signal)] at bar [i]. *)
Definition trade_signals (strategy : Strategy) (df : frame) (i : nat)
    (row prev : row) : bool * bool :=
  let close := Fin (Close row) in
  match strategy with
  | EmaCrossover =>
      let ema9_now := py_or (get (EMA9 row) f0) f0 in
      let ema21_now := py_or (get (EMA21 row) f0) f0 in
      let ema9_prev := py_or (get (EMA9 prev) f0) f0 in
      let ema21_prev := py_or (get (EMA21 prev) f0) f0 in
      (flt ema9_prev ema21_prev && fgt ema9_now ema21_now,
       fgt ema9_prev ema21_prev && flt ema9_now ema21_now)
  | RsiReversal =>
      let rsi_now := py_or (get (RSI row) (Fin 50)) (Fin 50) in
      let rsi_prev := py_or (get (RSI prev) (Fin 50)) (Fin 50) in
      (flt rsi_prev (Fin 30) && fge rsi_now (Fin 30),
       flt rsi_prev (Fin 70) && fge rsi_now (Fin 70))
  | MacdCrossover =>
      let macd_now := py_or (get (MACD row) f0) f0 in
      let sig_now := py_or (get (MACD_signal row) f0) f0 in
      let macd_prev := py_or (get (MACD prev) f0) f0 in
      let sig_prev := py_or (get (MACD_signal prev) f0) f0 in
      (flt macd_prev sig_prev && fgt macd_now sig_now,
       fgt macd_prev sig_prev && flt macd_now sig_now)
  | BollingerBounce =>
      let bb_lower := py_or (get (BB_lower row) f0) f0 in
      let bb_upper := py_or (get (BB_upper row) f0) f0 in
      (fgt bb_lower f0 && fle close (fmul bb_lower (Fin 1.005)),
       fgt bb_upper f0 && fge close (fmul bb_upper (Fin 0.995)))
  | CombinedScore =>
      let sc := fst (fst (calculate_signal_score (firstn (i + 1) df))) in
      ((65 <=? sc)%Z, (sc <=? 35)%Z)
  | OtherStrategy => (false, false)
  end.

(** The body of [for i in range(2, len(df))]. *)
Definition backtest_step (strategy : Strategy) (df : frame) (sl_pct : Q)
    (st : BacktestState) (i : nat) : BacktestState :=
  match nth_error df i, nth_error df (i - 1) with
  | Some row, Some prev =>
      let close := Close row in
      let '(entry_signal, exit_signal) :=
        trade_signals strategy df i row prev in
      let st' :=
        match holding st with
        | None =>
            if entry_signal
            then mkBacktest (equity st) (Some (close, i)) (trades st)
                            (equity_curve_y st)
            else st
        | Some (entry, entry_date) =>
            let sl_price := entry * (1 - sl_pct) in
            if exit_signal || Qleb close sl_price then
              let pnl_pct := (close - entry) / entry * 100 in
              let pnl_thb := equity st * (close - entry) / entry in
              mkBacktest (equity st + pnl_thb) None
                (trades st
                 ++ [mkTrade entry_date i (py_round entry 2)
                       (py_round close 2) (py_round pnl_pct 2)
                       (py_round pnl_thb 2) (Qgtb pnl_pct 0)])
                (equity_curve_y st)
            else st
        end in
      mkBacktest (equity st') (holding st') (trades st')
                 (equity_curve_y st' ++ [py_round (equity st') 2])
  | _, _ => st
  end.

Definition backtest_loop (strategy : Strategy) (df : frame)
    (capital sl_pct : Q) : BacktestState :=
  fold_left (backtest_step strategy df sl_pct)
            (seq 2 (List.length df - 2))
            (mkBacktest capital None [] [capital]).

(** [np.maximum.accumulate] *)
Fixpoint running_max (peak : Q) (xs : list Q) : list Q :=
  match xs with
  | [] => []
  | x :: xs' =>
      let peak' := if Qltb peak x then x else peak in
      peak' :: running_max peak' xs'
  end.

Definition drawdowns (eq : list Q) : list Q :=
  match eq with
  | [] => []
  | x0 :: rest =>
      map (fun ep => (fst ep - snd ep) / snd ep * 100)
          (combine eq (x0 :: running_max x0 rest))
  end.

Record BacktestResult : Type := mkResult {
  total_return : Q;
  win_rate : Q;
  max_drawdown : Q;
  total_trades : nat;
  equity_curve : list Q;
  trade_log : list Trade
}.

(** [None] is the [IndexError] of [df.index[0]] on an empty frame. *)
Definition run_backtest (df : frame) (strategy : Strategy)
    (capital sl_pct : Q) : option BacktestResult :=
  match df with
  | [] => None
  | _ :: _ =>
      let st := backtest_loop strategy df capital sl_pct in
      let '(total_return, win_rate, max_dd) :=
        match trades st with
        | [] => (0, 0, 0)
        | _ :: _ =>
            let wins :=
              List.length (filter (fun t => Qgtb (pnl_pct t) 0) (trades st)) in
            ((equity st - capital) / capital * 100,
             inject_Z (Z.of_nat wins)
             / inject_Z (Z.of_nat (List.length (trades st))) * 100,
             minQ (drawdowns (equity_curve_y st)))
        end in
      Some {| total_return := py_round total_return 2;
              win_rate := py_round win_rate 2;
              max_drawdown := py_round max_dd 2;
              total_trades := List.length (trades st);
              equity_curve := equity_curve_y st;
              trade_log := trades st |}
  end.

(** The close of bar [i]. *)
Definition close_at (df : frame) (i : nat) : Q :=
  match nth_error df i with Some r => Close r | None => 0 end.

(** What one trade multiplies the equity by, and the product over a
    trade log. *)
Definition growth (df : frame) (t : Trade) : Q :=
  close_at df (exit_bar t) / close_at df (entry_bar t).

Definition compound (df : frame) (ts : list Trade) : Q :=
  fold_right (fun t acc => growth df t * acc) 1 ts.

(** The state of a backtest after the bars before [k]. *)
Record backtest_inv (df : frame) (capital : Q) (k : nat)
    (st : BacktestState) : Prop := {
  inv_curve : List.length (equity_curve_y st) = (k - 1)%nat;
  inv_bars : Forall (fun t => (2 <= entry_bar t < exit_bar t)%nat
                              /\ (exit_bar t < k)%nat) (trades st);
  inv_order : StronglySorted (fun a b => (exit_bar a < entry_bar b)%nat)
                             (trades st);
  inv_count : (2 * List.length (trades st)
               + match holding st with Some _ => 1 | None => 0 end
               <= k - 2)%nat;
  inv_holding : forall p e, holding st = Some (p, e) ->
                  (2 <= e < k)%nat /\ p = close_at df e
                  /\ Forall (fun t => (exit_bar t < e)%nat) (trades st);
  inv_equity : Forall (fun r => 0 < Close r) df ->
               equity st == capital * compound df (trades st)
}.

End Signals.

(* ================================================================== *)
(** * modules/candle_analysis.py *)
(* ================================================================== *)

Module CandleAnalysis.

(** ** Candle geometry *)

Definition _body (c : row) : Q := Qabs (Close c - Open c).
Definition _upper_wick (c : row) : Q := High c - py_max (Close c) (Open c).
Definition _lower_wick (c : row) : Q := py_min (Close c) (Open c) - Low c.
Definition _range (c : row) : Q := py_max (High c - Low c) (1 # 1000000000).
Definition _is_bull (c : row) : bool := Qgtb (Close c) (Open c).
Definition _is_bear (c : row) : bool := Qltb (Close c) (Open c).
Definition _body_pct (c : row) : Q := _body c / _range c.

(** ** [detect_patterns_full] *)

Inductive PatternKind : Type :=
| LongGreenCandle | LongRedCandle | Hammer | ShootingStar | InvertedHammer
| BullishEngulfing | BearishEngulfing | MorningStar | EveningStar | Doji
| ThreeWhiteSoldiers | ThreeBlackCrows | LongUpperShadow
| TweezerTop | TweezerBottom.

Record Pattern : Type := mkPattern {
  pattern : PatternKind;
  ptype : SigType;
  strength : Strength;
  confidence : Z;
  bar_index : nat;
  price : Q
}.

(** [sorted(results, key=confidence, reverse=True)] *)
Definition sort_by_confidence (l : list Pattern) : list Pattern :=
  sort_before (fun p q => (confidence q <? confidence p)%Z) l.

(** [get_candle(i)]: [i = 0] is the latest bar. *)
Definition get_candle (df : frame) (i : nat) : option row :=
  iloc_neg df (S i).

Definition b2z (b : bool) (z : Z) : Z := if b then z else 0%Z.

(** [volume_column] tells whether the frame has a [Volume] column. *)
Definition detect_patterns_full (df : frame) (volume_column : bool)
    : list Pattern :=
  if (List.length df <? 3)%nat then []
  else
    match get_candle df 0, get_candle df 1, get_candle df 2 with
    | Some c0, Some c1, Some c2 =>
        let recent := if (20 <=? List.length df)%nat then lastn 20 df else df in
        let avg_body := meanQ (map _body recent) in
        let avg_range := meanQ (map _range recent) in
        let avg_vol :=
          if volume_column then meanQ (map Volume (lastn 20 df)) else 1 in
        let vol0 := if volume_column then Volume c0 else avg_vol in
        let idx := (List.length df - 1)%nat in
        let mk k t s conf p := mkPattern k t s conf idx p in
        let lw := _lower_wick c0 in
        let uw := _upper_wick c0 in
        let b := _body c0 in
        sort_by_confidence (
        (* 1. Long Green Candle *)
        (if _is_bull c0 && Qgtb (_body c0) (avg_body * 1.5)
            && Qgtb (_body_pct c0) 0.6
         then
           let conf := Z.min 100 (60 + py_int ((_body_pct c0 - 0.6) * 100)) in
           let conf := if Qgtb vol0 (avg_vol * 1.2)
                       then Z.min 100 (conf + 15) else conf in
           [mk LongGreenCandle BUY
               (if (75 <=? conf)%Z then STRONG else MEDIUM) conf (Close c0)]
         else [])
        (* 2. Long Red Candle *)
        ++ (if _is_bear c0 && Qgtb (_body c0) (avg_body * 1.5)
               && Qgtb (_body_pct c0) 0.6
            then
              let conf :=
                Z.min 100 (60 + py_int ((_body_pct c0 - 0.6) * 100)) in
              let conf := if Qgtb vol0 (avg_vol * 1.2)
                          then Z.min 100 (conf + 15) else conf in
              [mk LongRedCandle SELL
                  (if (75 <=? conf)%Z then STRONG else MEDIUM) conf (Close c0)]
            else [])
        (* 3. Hammer *)
        ++ (if Qgtb lw (b * 2.0) && Qltb uw (b * 0.5)
               && Qltb (_body_pct c0) 0.35
            then
              let prior_down := Qltb (Close c1) (Open c1) in
              let conf := (55 + b2z prior_down 20 + b2z (_is_bull c0) 10)%Z in
              [mk Hammer BUY (if prior_down then STRONG else MEDIUM)
                  (Z.min 100 conf) (Close c0)]
            else [])
        (* 4. Shooting Star *)
        ++ (if Qgtb uw (b * 2.0) && Qltb lw (b * 0.5)
               && Qltb (_body_pct c0) 0.35
            then
              let prior_up := Qgtb (Close c1) (Open c1) in
              let conf := (55 + b2z prior_up 20 + b2z (_is_bear c0) 10)%Z in
              [mk ShootingStar SELL (if prior_up then STRONG else MEDIUM)
                  (Z.min 100 conf) (High c0)]
            else [])
        (* 5. Inverted Hammer *)
        ++ (if Qgtb uw (b * 2.0) && Qltb lw (b * 0.5) && _is_bear c1
            then [mk InvertedHammer BUY WEAK 50%Z (Close c0)]
            else [])
        (* 6. Bullish Engulfing *)
        ++ (if _is_bear c1 && _is_bull c0
               && Qleb (Open c0) (Close c1) && Qgeb (Close c0) (Open c1)
            then
              let size_ratio := _body c0 / py_max (_body c1) (1 # 1000000000) in
              let conf := Z.min 100 (65 + py_int ((size_ratio - 1) * 20)) in
              let conf := if Qgtb vol0 (avg_vol * 1.3)
                          then Z.min 100 (conf + 10) else conf in
              [mk BullishEngulfing BUY STRONG conf (Close c0)]
            else [])
        (* 7. Bearish Engulfing *)
        ++ (if _is_bull c1 && _is_bear c0
               && Qgeb (Open c0) (Close c1) && Qleb (Close c0) (Open c1)
            then
              let size_ratio := _body c0 / py_max (_body c1) (1 # 1000000000) in
              let conf := Z.min 100 (65 + py_int ((size_ratio - 1) * 20)) in
              let conf := if Qgtb vol0 (avg_vol * 1.3)
                          then Z.min 100 (conf + 10) else conf in
              [mk BearishEngulfing SELL STRONG conf (Close c0)]
            else [])
        (* 8. Morning Star *)
        ++ (if _is_bear c2 && Qltb (_body c1) (_body c2 * 0.35)
               && _is_bull c0
               && Qgtb (Close c0) ((Open c2 + Close c2) / 2)
            then
              let conf := (75 + b2z (Qgtb vol0 avg_vol) 10)%Z in
              [mk MorningStar BUY STRONG (Z.min 100 conf) (Close c0)]
            else [])
        (* 9. Evening Star *)
        ++ (if _is_bull c2 && Qltb (_body c1) (_body c2 * 0.35)
               && _is_bear c0
               && Qltb (Close c0) ((Open c2 + Close c2) / 2)
            then
              let conf := (75 + b2z (Qgtb vol0 avg_vol) 10)%Z in
              [mk EveningStar SELL STRONG (Z.min 100 conf) (Close c0)]
            else [])
        (* 10. Doji *)
        ++ (if Qltb (_body_pct c0) 0.08
            then
              let after_up := _is_bull c1 && Qgtb (_body c1) avg_body in
              let after_down := _is_bear c1 && Qgtb (_body c1) avg_body in
              let sig_type :=
                if after_up then SELL else if after_down then BUY
                else NEUTRAL in
              let directional := negb (SigType_eqb sig_type NEUTRAL) in
              [mk Doji sig_type (if directional then MEDIUM else WEAK)
                  (if directional then 60 else 40)%Z (Close c0)]
            else [])
        (* 11. Three White Soldiers *)
        ++ (if _is_bull c0 && _is_bull c1 && _is_bull c2
               && Qgtb (_body c0) (avg_body * 0.8)
               && Qgtb (_body c1) (avg_body * 0.8)
               && Qgtb (Close c0) (Close c1) && Qgtb (Close c1) (Close c2)
            then [mk ThreeWhiteSoldiers BUY STRONG 82%Z (Close c0)]
            else [])
        (* 12. Three Black Crows *)
        ++ (if _is_bear c0 && _is_bear c1 && _is_bear c2
               && Qgtb (_body c0) (avg_body * 0.8)
               && Qgtb (_body c1) (avg_body * 0.8)
               && Qltb (Close c0) (Close c1) && Qltb (Close c1) (Close c2)
            then [mk ThreeBlackCrows SELL STRONG 82%Z (Close c0)]
            else [])
        (* 13. Long Upper Shadow *)
        ++ (if Qgtb uw (_body c0 * 2.5) && Qgtb uw (avg_range * 0.4)
               && (6 <=? List.length df)%nat
               && Qgtb (Close c0)
                       (meanQ (map Close (firstn 5 (lastn 6 df))))
            then [mk LongUpperShadow SELL MEDIUM 58%Z (High c0)]
            else [])
        (* 14. Tweezer Top *)
        ++ (if Qltb (Qabs (High c0 - High c1)
                     / py_max (High c1) (1 # 1000000000)) 0.003
               && _is_bull c1 && _is_bear c0
            then [mk TweezerTop SELL MEDIUM 65%Z (High c0)]
            else [])
        (* 15. Tweezer Bottom *)
        ++ (if Qltb (Qabs (Low c0 - Low c1)
                     / py_max (Low c1) (1 # 1000000000)) 0.003
               && _is_bear c1 && _is_bull c0
            then [mk TweezerBottom BUY MEDIUM 65%Z (Low c0)]
            else []))
    | _, _, _ => []
    end.

End CandleAnalysis.

(* ================================================================== *)
(** * modules/scanner.py *)
(* ================================================================== *)

Module Scanner.

(** ** Text helpers *)

(** [needle in hay] *)
Fixpoint contains (needle hay : string) : bool :=
  match hay with
  | EmptyString => String.prefix needle EmptyString
  | String _ rest => String.prefix needle hay || contains needle rest
  end.

Definition Z_to_string (z : Z) : string := NilZero.string_of_int (Z.to_int z).

(** [f"{q:.1f}"] *)
Definition format_1f (q : Q) : string :=
  let n := round_half_even (q * 10) in
  ((if (n <? 0)%Z then "-" else "")
   ++ Z_to_string (Z.abs n / 10) ++ "." ++ Z_to_string (Z.abs n mod 10))%string.

(** [x % m] on floats, [m > 0]. *)
Definition Qmod (x m : Q) : Q := x - m * inject_Z (Qfloor (x / m)).

(** ** Fibonacci levels and zones

    Exact here; [ScannerDouble] has the levels and the zone loop on
    doubles, where rounding moves the levels. *)

Definition fib_zones : list (Q * Q) :=
  [(0.0, 0.236); (0.236, 0.382); (0.382, 0.5);
   (0.5, 0.618); (0.618, 0.786); (0.786, 1.0)].

(** [fp(r)], with the enclosing [base], [direction], [fib_range]. *)
Definition fp (base direction fib_range : Q) (r : Q) : Q :=
  base + direction * fib_range * r.

(** The test [lo <= current <= hi] of one loop iteration. *)
Definition in_zone (fp : Q -> Q) (current : Q) (z : Q * Q) : bool :=
  let p0 := fp (fst z) in
  let p1 := fp (snd z) in
  let lo := py_min p0 p1 in
  let hi := py_max p0 p1 in
  Qleb lo current && Qleb current hi.

(** The loop with [break]: the first zone whose test succeeds. *)
Definition locate_zone (fp : Q -> Q) (current : Q) : option (Q * Q) :=
  find (in_zone fp current) fib_zones.

(** What a scan can report as its zone: none, or one of the six. *)
Definition valid_zone (z : option (Q * Q)) : Prop :=
  match z with Some z => In z fib_zones | None => True end.

Definition zone_ratio_of (z : Q * Q) : Q := (fst z + snd z) / 2.

Definition is_golden (zone_ratio : Q) : bool :=
  Qleb 0.382 zone_ratio && Qleb zone_ratio 0.618.

Definition out_of_range : string := "นอกช่วง".

(** [zone_name] as [_scan_one] builds it. *)
Definition zone_name_swing (zone : option (Q * Q)) : string :=
  match zone with
  | None => out_of_range
  | Some (r0, r1) =>
      if is_golden (zone_ratio_of (r0, r1))
      then (Z_to_string (py_int (r0 * 100)) ++ "."
            ++ Z_to_string (py_int (Qmod (r0 * 1000) 10)) ++ "–"
            ++ Z_to_string (py_int (r1 * 100)) ++ "."
            ++ Z_to_string (py_int (Qmod (r1 * 1000) 10)) ++ "% 🌟")%string
      else (format_1f (r0 * 100) ++ "–" ++ format_1f (r1 * 100) ++ "%")%string
  end.

(** [zone_name] as [_scan_intraday] builds it (after [strip()]). *)
Definition zone_name_intraday (zone : option (Q * Q)) : string :=
  match zone with
  | None => out_of_range
  | Some (r0, r1) =>
      (format_1f (r0 * 100) ++ "–" ++ format_1f (r1 * 100) ++ "%"
       ++ (if is_golden (zone_ratio_of (r0, r1)) then " 🌟" else ""))%string
  end.

(** ** Scan results *)

Inductive Grade : Type := GradeAplus | GradeA | GradeBplus | GradeB | GradeC.

Record ScanResult : Type := mkScan {
  symbol : string;
  price : Q;
  fib_score : Q;
  grade : Grade;
  zone : string;
  dist_nearest : Q;
  nearest_level : string;
  dist_golden : Q;
  signal_score : Z;
  regime : Signals.Regime;
  rsi : pyfloat;
  vol_ratio : pyfloat;
  buy_signals : nat;
  sell_signals : nat;
  stop_loss : Q;
  tp1 : Q;
  tp2 : Q;
  risk_pct : Q;
  risk_reward : Q;
  is_uptrend : bool;
  change_5d : Q;
  swing_high : Q;
  swing_low : Q;
  golden_price : Q;
  vwap : option Q;            (* intraday only *)
  vs_vwap_pct : option Q      (* intraday only *)
}.

(** Division of Python floats: [None] is [ZeroDivisionError]. *)
Definition pydiv (a b : Q) : option Q :=
  if Qeqb b 0 then None else Some (a / b).

Notation "x <-? m ; k" :=
  (match m with Some x => k | None => None end)
  (at level 61, m at next level, right associativity).

(** [min(d, key=...)] over the three key levels: the first of the
    smallest. *)
Definition nearest_key (fp : Q -> Q) (current : Q) : string * Q :=
  fold_left
    (fun best lv =>
       if Qltb (Qabs (snd lv - current)) (Qabs (snd best - current))
       then lv else best)
    [("50.0%"%string, fp 0.500); ("61.8%"%string, fp 0.618)]
    ("38.2%"%string, fp 0.382).

Definition zone_points (zone : option (Q * Q)) : Q :=
  match zone with
  | None => 0
  | Some z =>
      let zone_ratio := zone_ratio_of z in
      if is_golden zone_ratio then 35
      else if Qleb 0.236 zone_ratio && Qleb zone_ratio 0.786 then 18
      else 0
  end.

Definition volume_points (vol_ratio : pyfloat) : Q :=
  if fge vol_ratio (Fin 2.0) then 10
  else if fge vol_ratio (Fin 1.5) then 7
  else if fge vol_ratio (Fin 1.0) then 4
  else 0.

Definition grade_of (fib_score : Q) : Grade :=
  if Qgeb fib_score 75 then GradeAplus
  else if Qgeb fib_score 65 then GradeA
  else if Qgeb fib_score 55 then GradeBplus
  else if Qgeb fib_score 45 then GradeB
  else GradeC.

Definition count_type (t : SigType) (sigs : list Signals.Signal) : nat :=
  List.length (filter (fun s => SigType_eqb (Signals.sig_type s) t) sigs).

(** [tp_candidates] *)
Definition tp_candidates (fp : Q -> Q) (is_uptrend : bool) (current : Q)
    (up_margin down_margin : Q) (ratios : list Q) : list Q :=
  flat_map
    (fun r =>
       let tp := fp r in
       if is_uptrend && Qgtb tp (current * up_margin) then [py_round tp 2]
       else if negb is_uptrend && Qltb tp (current * down_margin)
       then [py_round tp 2]
       else [])
    ratios.

(** ** [_scan_one]

    [df] is the frame [add_all_indicators] returned for the fetched
    history; the fetch itself is the data provider's.  [None] is the
    function's [None], whether returned or produced by its
    [except Exception]. The loop over [[rsi, atr, vol_ratio]] that
    means to replace undefined values rebinds only its loop variable,
    so the three values are used as read. *)

Definition swing_stop_loss (is_uptrend : bool) (fp : Q -> Q) (current : Q)
    (atr : pyfloat) : Q :=
  if is_uptrend then
    let sl_fib := fp 0.786 in
    let sl_atr := fsub (Fin current) (fmul atr (Fin 1.5)) in
    let stop_loss := py_round (py_max (min_f sl_fib sl_atr) (current * 0.85)) 2 in
    py_min stop_loss (current * 0.98)
  else
    let sl_fib := fp 0.786 in
    let sl_atr := fadd (Fin current) (fmul atr (Fin 1.5)) in
    let stop_loss := py_round (py_min (max_f sl_fib sl_atr) (current * 1.15)) 2 in
    py_max stop_loss (current * 1.02).

Definition swing_trend (df : frame) (last : row) : option bool :=
  match EMA50 last with
  | Some ema_now =>
      if (10 <=? List.length df)%nat then
        r <-? iloc_neg df 10 ;
        ema_prev <-? EMA50 r ;
        Some (fge ema_now ema_prev)
      else
        let mid := (List.length df / 2)%nat in
        Some (Qgeb (meanQ (skipn mid (map Close df)))
                   (meanQ (firstn mid (map Close df))))
  | None =>
      let mid := (List.length df / 2)%nat in
      Some (Qgeb (meanQ (skipn mid (map Close df)))
                 (meanQ (firstn mid (map Close df))))
  end.

Definition _scan_one (sym : string) (df : frame) : option ScanResult :=
  if (List.length df <? 15)%nat then None
  else
    last <-? iloc_neg df 1 ;
    let current := Close last in
    if Qleb current 0 then None
    else
      let swing_high := maxQ (map High df) in
      let swing_low := minQ (map Low df) in
      let fib_range := swing_high - swing_low in
      if Qleb fib_range 0 then None
      else
        is_uptrend <-? swing_trend df last ;
        let base := if is_uptrend then swing_low else swing_high in
        let direction := if is_uptrend then 1 else -1 in
        let fp := fp base direction fib_range in
        let zone := locate_zone fp current in
        let zone_name := zone_name_swing zone in
        let '(nearest_level, nearest_price) := nearest_key fp current in
        d1 <-? pydiv (current - nearest_price) nearest_price ;
        let dist_nearest := Qabs (d1 * 100) in
        d2 <-? pydiv (current - fp 0.618) (fp 0.618) ;
        let dist_to_golden := Qabs (d2 * 100) in
        let '(score, signals, regime) := Signals.calculate_signal_score df in
        let rsi := match RSI last with Some v => v | None => Fin 50.0 end in
        let atr :=
          match ATR last with Some v => v | None => Fin (current * 0.02) end in
        let vol_ratio :=
          match Vol_ratio last with Some v => v | None => Fin 1.0 end in
        let stop_loss := swing_stop_loss is_uptrend fp current atr in
        let risk_pct := Qabs ((current - stop_loss) / current * 100) in
        let risk_pct := py_max risk_pct 0.1 in
        let tps :=
          tp_candidates fp is_uptrend current 1.005 0.995
            [0.236; 0.382; 0.5; 0.618; 0.786; 1.0; 1.272; 1.618] in
        let tp1 :=
          match tps with
          | t :: _ => t
          | [] => py_round (current * (if is_uptrend then 1.05 else 0.95)) 2
          end in
        let tp2 :=
          match tps with
          | _ :: t :: _ => t
          | _ => py_round (current * (if is_uptrend then 1.10 else 0.90)) 2
          end in
        let profit_pct := Qabs (tp1 - current) / current * 100 in
        let rr := profit_pct / risk_pct in
        let fib_score :=
          zone_points zone
          + py_max 0.0 (30.0 - dist_nearest * 3.0)
          + (inject_Z score / 100.0) * 20.0
          + volume_points vol_ratio
          + (if fle (Fin 30) rsi && fle rsi (Fin 60) then 5
             else if flt rsi (Fin 30) then 4
             else if fle rsi (Fin 70) then 2
             else 0) in
        let fib_score := py_min 100.0 (py_round fib_score 1) in
        let price_5d :=
          match iloc_neg df 6 with Some r => Close r | None => current end in
        let change_5d :=
          if Qgtb price_5d 0 then (current - price_5d) / price_5d * 100
          else 0.0 in
        Some {| symbol := sym;
                price := py_round current 2;
                fib_score := fib_score;
                grade := grade_of fib_score;
                zone := zone_name;
                dist_nearest := py_round dist_nearest 1;
                nearest_level := nearest_level;
                dist_golden := py_round dist_to_golden 1;
                signal_score := score;
                regime := regime;
                rsi := fround rsi 1;
                vol_ratio := fround vol_ratio 2;
                buy_signals := count_type BUY signals;
                sell_signals := count_type SELL signals;
                stop_loss := stop_loss;
                tp1 := tp1;
                tp2 := tp2;
                risk_pct := py_round risk_pct 1;
                risk_reward := py_round rr 2;
                is_uptrend := is_uptrend;
                change_5d := py_round change_5d 2;
                swing_high := py_round swing_high 2;
                swing_low := py_round swing_low 2;
                golden_price := py_round (fp 0.618) 2;
                vwap := None;
                vs_vwap_pct := None |}.

(** ** [_intraday_signal_score]

    [None] is the [KeyError] of a missing indicator column, which the
    caller's [except Exception] turns into its own [None]. *)

(** [float(row[col]) if not pd.isna(row[col]) else default] *)
Definition value_or (c : cell) (default : Q) : option Q :=
  match c with
  | None => None
  | Some NaN => Some default
  | Some (Fin q) => Some q
  end.

Definition intraday_regime (score : Z) : Signals.Regime :=
  if (65 <=? score)%Z then Signals.BULL_MOMENTUM
  else if (score <=? 35)%Z then Signals.BEAR_MOMENTUM
  else Signals.SIDEWAYS.

Section IntradayRules.
Import Signals.
Open Scope score_scope.

Definition intraday_rules (last prev : row) (ema9 ema21 : pyfloat)
    (rsi macd msig mhist vol_r bb_up bb_lo prev_hist : Q) : M unit :=
  let close := Close last in
  (if fgt ema9 ema21 && fgt (Fin close) ema9
   then add_score 12 ;; emit BUY MEDIUM IntraEmaUp
   else if flt ema9 ema21 && flt (Fin close) ema9
   then add_score (-12) ;; emit SELL MEDIUM IntraEmaDown
   else skip) ;;
  (if Qgtb mhist 0 && Qgtb mhist prev_hist
   then add_score 10 ;; emit BUY MEDIUM IntraHistUp
   else if Qltb mhist 0 && Qltb mhist prev_hist
   then add_score (-10) ;; emit SELL MEDIUM IntraHistDown
   else skip) ;;
  (if Qgtb macd msig
      && fle (get (MACD prev) (Fin macd)) (get (MACD_signal prev) (Fin msig))
   then add_score 8 ;; emit BUY STRONG IntraMacdCross
   else skip) ;;
  (if Qltb rsi 30
   then add_score 15 ;; emit BUY STRONG IntraRsiOversold
   else if Qgtb rsi 70
   then add_score (-15) ;; emit SELL STRONG IntraRsiOverbought
   else if Qleb 40 rsi && Qleb rsi 60
   then add_score 5
   else skip) ;;
  (if Qleb close (bb_lo * 1.005)
   then add_score 10 ;; emit BUY MEDIUM IntraBbLower
   else if Qgeb close (bb_up * 0.995)
   then add_score (-10) ;; emit SELL MEDIUM IntraBbUpper
   else skip) ;;
  (if Qgeb vol_r 2.0
   then add_score 10 ;;
        emit (if Qgeb close (Open last) then BUY else SELL) STRONG
             IntraVolumeSpike
   else if Qgeb vol_r 1.5
   then add_score 5
   else skip) ;;
  (let candle_body := close - Open last in
   let candle_size := High last - Low last in
   if Qgtb candle_size 0 && Qgtb (Qabs candle_body / candle_size) 0.6
   then if Qgtb candle_body 0
        then add_score 5 ;; emit BUY WEAK IntraGreenCandle
        else add_score (-5) ;; emit SELL WEAK IntraRedCandle
   else skip).

End IntradayRules.

Definition _intraday_signal_score (df : frame)
    : option (Z * list Signals.Signal * Signals.Regime) :=
  if (List.length df <? 5)%nat then Some (50%Z, [], Signals.SIDEWAYS)
  else
    last <-? iloc_neg df 1 ;
    prev <-? iloc_neg df 2 ;
    let close := Close last in
    ema9 <-? EMA9 last ;
    ema21 <-? EMA21 last ;
    rsi <-? value_or (RSI last) 50 ;
    macd <-? value_or (MACD last) 0 ;
    msig <-? value_or (MACD_signal last) 0 ;
    mhist <-? value_or (MACD_hist last) 0 ;
    vol_r <-? value_or (Vol_ratio last) 1.0 ;
    bb_up <-? value_or (BB_upper last) (close * 1.02) ;
    bb_lo <-? value_or (BB_lower last) (close * 0.98) ;
    prev_hist <-? value_or (MACD_hist prev) 0 ;
    let s :=
      snd (intraday_rules last prev ema9 ema21 rsi macd msig mhist vol_r
                          bb_up bb_lo prev_hist (Signals.mkState 50 [])) in
    let score := Signals.clamp_score (Signals.score s) in
    Some (score, Signals.signals s, intraday_regime score).

(** ** [_scan_intraday]

    [df] is the frame [_add_intraday_indicators] returned. *)

Definition intraday_stop_loss (is_uptrend : bool) (current atr : Q) : Q :=
  if is_uptrend then
    let stop_loss := py_round (py_max (current - atr * 1.0) (current * 0.97)) 2 in
    py_min stop_loss (current * 0.99)
  else
    let stop_loss := py_round (py_min (current + atr * 1.0) (current * 1.03)) 2 in
    py_max stop_loss (current * 1.01).

Definition intraday_trend (df : frame) (last : row) : option bool :=
  let fallback :=
    let closes := map Close df in
    let older := firstn (List.length (lastn 20 closes) - 10) (lastn 20 closes) in
    match older with
    | [] => Some false                     (* mean of nothing is undefined *)
    | _ => Some (Qgeb (meanQ (lastn 10 closes)) (meanQ older))
    end in
  match EMA21 last with
  | Some ema_now =>
      if (5 <=? List.length df)%nat then
        r <-? iloc_neg df 5 ;
        ema_prev <-? EMA21 r ;
        Some (fge ema_now ema_prev)
      else fallback
  | None => fallback
  end.

Definition _scan_intraday (sym : string) (df : frame) : option ScanResult :=
  if (List.length df <? 10)%nat then None
  else
    last <-? iloc_neg df 1 ;
    let current := Close last in
    if Qleb current 0 then None
    else
      let lookback := Nat.min (List.length df) 40 in
      let df_fib := lastn lookback df in
      let swing_high := maxQ (map High df_fib) in
      let swing_low := minQ (map Low df_fib) in
      let fib_range := swing_high - swing_low in
      if Qltb fib_range (current * 0.001) then None
      else
        is_uptrend <-? intraday_trend df last ;
        let base := if is_uptrend then swing_low else swing_high in
        let direction := if is_uptrend then 1 else -1 in
        let fp := fp base direction fib_range in
        let zone := locate_zone fp current in
        let zone_name := zone_name_intraday zone in
        let '(nearest_level, nearest_price) := nearest_key fp current in
        d1 <-? pydiv (current - nearest_price) nearest_price ;
        let dist_nearest := Qabs (d1 * 100) in
        d2 <-? pydiv (current - fp 0.618) (fp 0.618) ;
        let dist_golden := Qabs (d2 * 100) in
        scored <-? _intraday_signal_score df ;
        let '(score, signals, regime) := scored in
        let defined c default :=
          match c with Some (Fin q) => q | _ => default end in
        let rsi := defined (RSI last) 50.0 in
        let atr := defined (ATR last) (current * 0.01) in
        let vol_ratio := defined (Vol_ratio last) 1.0 in
        let stop_loss := intraday_stop_loss is_uptrend current atr in
        let risk_pct :=
          py_max (Qabs ((current - stop_loss) / current * 100)) 0.1 in
        let tps :=
          tp_candidates fp is_uptrend current 1.002 0.998
            [0.236; 0.382; 0.5; 0.618; 0.786; 1.0] in
        let tp1 :=
          match tps with
          | t :: _ => t
          | [] => py_round (current * (if is_uptrend then 1.02 else 0.98)) 2
          end in
        let tp2 :=
          match tps with
          | _ :: t :: _ => t
          | _ => py_round (current * (if is_uptrend then 1.04 else 0.96)) 2
          end in
        let rr := Qabs (tp1 - current) / current * 100 / risk_pct in
        let fib_score :=
          zone_points zone
          + py_max 0.0 (30.0 - dist_nearest * 3.0)
          + (inject_Z score / 100.0) * 20.0
          + volume_points (Fin vol_ratio)
          + (if Qleb 30 rsi && Qleb rsi 60 then 5
             else if Qltb rsi 30 then 4
             else 0) in
        let fib_score := py_min 100.0 (py_round fib_score 1) in
        bar <-? pydiv (current - Open last) (Open last) ;
        let bar_change := bar * 100 in
        let volume_sum := sumQ (map Volume df_fib) in
        let vwap :=
          if Qgtb volume_sum 0
          then sumQ (map (fun r => Close r * Volume r) df_fib) / volume_sum
          else current in
        v <-? pydiv (current - vwap) vwap ;
        let vs_vwap := v * 100 in
        Some {| symbol := sym;
                price := py_round current 2;
                fib_score := fib_score;
                grade := grade_of fib_score;
                zone := zone_name;
                dist_nearest := py_round dist_nearest 1;
                nearest_level := nearest_level;
                dist_golden := py_round dist_golden 1;
                signal_score := score;
                regime := regime;
                rsi := Fin (py_round rsi 1);
                vol_ratio := Fin (py_round vol_ratio 2);
                buy_signals := count_type BUY signals;
                sell_signals := count_type SELL signals;
                stop_loss := stop_loss;
                tp1 := tp1;
                tp2 := tp2;
                risk_pct := py_round risk_pct 2;
                risk_reward := py_round rr 2;
                is_uptrend := is_uptrend;
                change_5d := py_round bar_change 2;
                swing_high := py_round swing_high 2;
                swing_low := py_round swing_low 2;
                golden_price := py_round (fp 0.618) 2;
                vwap := Some (py_round vwap 2);
                vs_vwap_pct := Some (py_round vs_vwap 2) |}.

(** ** [run_fibonacci_scan]

    The worker pool is represented by what the main thread sees of it:
    [completed] lists the futures in the order [as_completed] yields
    them, each with the symbol it was submitted for and what its
    [result()] gives.  The progress callback is represented by the log
    of its invocations. *)

Inductive Outcome : Type :=
| Returned (r : option ScanResult)
| Raised.

Record ProgressCall : Type := mkCall {
  completed_count : nat;
  total_count : nat;
  call_label : string
}.

Record LoopState (R : Type) : Type := mkLoop {
  done : nat;
  collected : R;
  calls : list ProgressCall
}.
Arguments mkLoop {R}.
Arguments done {R}.
Arguments collected {R}.
Arguments calls {R}.

(** One iteration of [for future in as_completed(future_map)]. *)
Definition scan_iteration (total : nat) (progress_callback : bool)
    (st : LoopState (list ScanResult)) (fut : string * Outcome)
    : LoopState (list ScanResult) :=
  let done' := S (done st) in
  let sym := fst fut in
  let calls' :=
    if progress_callback then calls st ++ [mkCall done' total sym]
    else calls st in
  match snd fut with
  | Returned (Some result) => mkLoop done' (collected st ++ [result]) calls'
  | Returned None => mkLoop done' (collected st) calls'
  | Raised => mkLoop done' (collected st) calls'
  end.

Definition run_fibonacci_scan (symbols : list string)
    (min_fib_score min_rr : Q) (progress_callback : bool)
    (completed : list (string * Outcome))
    : list ScanResult * list ProgressCall :=
  let total := List.length symbols in
  let st :=
    fold_left (scan_iteration total progress_callback) completed
              (mkLoop 0%nat [] []) in
  let rows := filter (fun r => Qgeb (fib_score r) min_fib_score) (collected st) in
  let rows := filter (fun r => Qgeb (risk_reward r) min_rr) rows in
  (sort_before (fun a b => Qgtb (fib_score a) (fib_score b)) rows, calls st).

(** [run_daytrade_scan] runs the same loop over [_scan_intraday] tasks. *)
Definition run_daytrade_scan := run_fibonacci_scan.

(** ** [run_multi_timeframe_scan] *)

(** Python dictionaries, in insertion order. *)
Definition dict (V : Type) : Type := list (string * V).

Fixpoint dict_get {V} (k : string) (d : dict V) : option V :=
  match d with
  | [] => None
  | (k', v) :: d' => if String.eqb k k' then Some v else dict_get k d'
  end.

Fixpoint dict_set {V} (k : string) (v : V) (d : dict V) : dict V :=
  match d with
  | [] => [(k, v)]
  | (k', v') :: d' =>
      if String.eqb k k' then (k, v) :: d' else (k', v') :: dict_set k v d'
  end.

Definition task_label (sym p : string) : string :=
  (sym ++ " (" ++ p ++ ")")%string.

Definition mtf_iteration (total : nat) (progress_callback : bool)
    (st : LoopState (dict (dict ScanResult)))
    (fut : (string * string) * Outcome)
    : LoopState (dict (dict ScanResult)) :=
  let done' := S (done st) in
  let '(sym, p) := fst fut in
  let calls' :=
    if progress_callback
    then calls st ++ [mkCall done' total (task_label sym p)]
    else calls st in
  match snd fut with
  | Returned (Some result) =>
      let raw := collected st in
      let inner := match dict_get sym raw with Some d => d | None => [] end in
      mkLoop done' (dict_set sym (dict_set p result inner) raw) calls'
  | Returned None => mkLoop done' (collected st) calls'
  | Raised => mkLoop done' (collected st) calls'
  end.

Record MtfRow : Type := mkMtf {
  primary : ScanResult;       (* the copied row; its grade is [mtf_grade] *)
  mtf_grade : Grade;
  mtf_score : Q;
  confluence : string;
  passed_tfs : nat;
  n_periods : nat;
  score_3mo : option Q;
  score_6mo : option Q;
  score_1y : option Q;
  zone_3mo : string;
  zone_6mo : string;
  zone_1y : string
}.

(** The substring test behind [all_in_golden]. *)
Definition golden_label (z : string) : bool :=
  contains "38" z || contains "50" z || contains "61" z || contains "🌟" z.

Definition confluence_bonus (n_periods : nat) (all_in_golden : bool) : Q :=
  if (3 <=? n_periods)%nat && all_in_golden then 15
  else if (2 <=? n_periods)%nat && all_in_golden then 10
  else if (2 <=? n_periods)%nat then 5
  else 0.

Definition confluence_label (passed : nat) : string :=
  if (passed =? 3)%nat then "🟢🟢🟢 ทั้ง 3 Timeframe"
  else if (passed =? 2)%nat then "🟢🟢⚪ 2 จาก 3 Timeframe"
  else if (passed =? 1)%nat then "🟢⚪⚪ 1 Timeframe"
  else "⚪⚪⚪ ไม่ผ่าน".

Definition mtf_grade_of (mtf_score : Q) : Grade :=
  if Qgeb mtf_score 80 then GradeAplus
  else if Qgeb mtf_score 70 then GradeA
  else if Qgeb mtf_score 58 then GradeBplus
  else if Qgeb mtf_score 45 then GradeB
  else GradeC.

(** The body of [for sym, period_results in raw.items()]; [None] is
    [continue]. *)
Definition merge_symbol (min_fib_score : Q) (period_results : dict ScanResult)
    : option MtfRow :=
  match period_results with
  | [] => None
  | (_, first) :: _ =>
      let n_periods := List.length period_results in
      let primary :=
        match dict_get "6mo" period_results with
        | Some r => r
        | None => first
        end in
      let tf_scores := map (fun pr => (fst pr, fib_score (snd pr))) period_results in
      let tf_zones := map (fun pr => (fst pr, zone (snd pr))) period_results in
      let avg_fib :=
        sumQ (map snd tf_scores) / inject_Z (Z.of_nat n_periods) in
      let all_in_golden := forallb golden_label (map snd tf_zones) in
      let bonus := confluence_bonus n_periods all_in_golden in
      let mtf_score := py_min 100 (py_round (avg_fib + bonus) 1) in
      let passed :=
        List.length (filter (fun s => Qgeb s min_fib_score) (map snd tf_scores)) in
      let zone_or_dash p :=
        match dict_get p tf_zones with Some z => z | None => "—"%string end in
      Some {| primary := primary;
              mtf_grade := mtf_grade_of mtf_score;
              mtf_score := mtf_score;
              confluence := confluence_label passed;
              passed_tfs := passed;
              n_periods := n_periods;
              score_3mo := dict_get "3mo" tf_scores;
              score_6mo := dict_get "6mo" tf_scores;
              score_1y := dict_get "1y" tf_scores;
              zone_3mo := zone_or_dash "3mo"%string;
              zone_6mo := zone_or_dash "6mo"%string;
              zone_1y := zone_or_dash "1y"%string |}
  end.

Definition mtf_tasks (symbols periods : list string) : list (string * string) :=
  flat_map (fun sym => map (fun p => (sym, p)) periods) symbols.

Definition run_multi_timeframe_scan (symbols periods : list string)
    (min_fib_score min_rr : Q) (progress_callback : bool)
    (completed : list ((string * string) * Outcome))
    : list MtfRow * list ProgressCall :=
  let tasks := mtf_tasks symbols periods in
  let total := List.length tasks in
  let st :=
    fold_left (mtf_iteration total progress_callback) completed
              (mkLoop 0%nat [] []) in
  let merged :=
    flat_map (fun kv => match merge_symbol min_fib_score (snd kv) with
                        | Some row => [row]
                        | None => []
                        end) (collected st) in
  let rows := filter (fun r => Qgeb (mtf_score r) min_fib_score) merged in
  let rows := filter (fun r => Qgeb (risk_reward (primary r)) min_rr) rows in
  (sort_before
     (fun a b => (passed_tfs b <? passed_tfs a)%nat
                 || ((passed_tfs a =? passed_tfs b)%nat
                     && Qgtb (mtf_score a) (mtf_score b)))
     rows,
   calls st).

(** ** What the scans collect *)

(** The rows the completed tasks returned, in completion order. *)
Definition successes {K} (completed : list (K * Outcome)) : list ScanResult :=
  flat_map (fun fut => match snd fut with
                       | Returned (Some r) => [r]
                       | _ => []
                       end) completed.

(** Every stored result carries the symbol it is stored under, and no
    symbol is stored twice. *)
Definition store_ok (raw : dict (dict ScanResult)) : Prop :=
  NoDup (map fst raw)
  /\ Forall (fun kv => Forall (fun pr => symbol (snd pr) = fst kv) (snd kv)) raw.

(** A task's row names the symbol the task was submitted for, as the
    rows of [_scan_one] do. *)
Definition carries_own_symbol (fut : (string * string) * Outcome) : Prop :=
  match snd fut with
  | Returned (Some r) => symbol r = fst (fst fut)
  | _ => True
  end.

End Scanner.

(* ================================================================== *)
(** * modules/data_fetcher.py *)
(* ================================================================== *)

Module DataFetcher.

(** ** [is_market_open]

    [now] is the Bangkok wall-clock time [datetime.now(tz_bkk)] gives:
    [weekday] counts from Monday = 0. *)
Record Clock : Type := mkClock {
  weekday : nat;
  hour : nat;
  minute : nat
}.

(** [(a, b) <= (c, d)] on tuples of integers. *)
Definition pair_leb (x y : nat * nat) : bool :=
  (fst x <? fst y)%nat || ((fst x =? fst y)%nat && (snd x <=? snd y)%nat).

Definition is_market_open (now : Clock) : bool :=
  if (5 <=? weekday now)%nat then false
  else
    let hm := (hour now, minute now) in
    let morning := pair_leb (10, 0)%nat hm && pair_leb hm (12, 30)%nat in
    let afternoon := pair_leb (14, 30)%nat hm && pair_leb hm (17, 0)%nat in
    morning || afternoon.

End DataFetcher.

(* ================================================================== *)
(** * Example frames *)
(* ================================================================== *)

Module Scenarios.

(** A bar without indicator columns. *)
Definition bar (o h l c v : Q) : row :=
  mkRow o h l c v None None None None None None None None None None None
        None None None None None None None.

Definition with_EMA9 (v : Q) (r : row) : row :=
  mkRow (Open r) (High r) (Low r) (Close r) (Volume r) (Some (Fin v))
    (EMA21 r) (EMA50 r) (EMA200 r) (RSI r) (MACD r) (MACD_signal r)
    (MACD_hist r) (StochRSI_k r) (StochRSI_d r) (Vol_ratio r) (OBV r)
    (BB_upper r) (BB_lower r) (ATR r) (ADX r) (DI_plus r) (DI_minus r).

Definition with_EMA21 (v : Q) (r : row) : row :=
  mkRow (Open r) (High r) (Low r) (Close r) (Volume r) (EMA9 r) (Some (Fin
    v)) (EMA50 r) (EMA200 r) (RSI r) (MACD r) (MACD_signal r) (MACD_hist
    r) (StochRSI_k r) (StochRSI_d r) (Vol_ratio r) (OBV r) (BB_upper r)
    (BB_lower r) (ATR r) (ADX r) (DI_plus r) (DI_minus r).

Definition with_EMA50 (v : Q) (r : row) : row :=
  mkRow (Open r) (High r) (Low r) (Close r) (Volume r) (EMA9 r) (EMA21 r)
    (Some (Fin v)) (EMA200 r) (RSI r) (MACD r) (MACD_signal r) (MACD_hist
    r) (StochRSI_k r) (StochRSI_d r) (Vol_ratio r) (OBV r) (BB_upper r)
    (BB_lower r) (ATR r) (ADX r) (DI_plus r) (DI_minus r).

Definition with_EMA200 (v : Q) (r : row) : row :=
  mkRow (Open r) (High r) (Low r) (Close r) (Volume r) (EMA9 r) (EMA21 r)
    (EMA50 r) (Some (Fin v)) (RSI r) (MACD r) (MACD_signal r) (MACD_hist
    r) (StochRSI_k r) (StochRSI_d r) (Vol_ratio r) (OBV r) (BB_upper r)
    (BB_lower r) (ATR r) (ADX r) (DI_plus r) (DI_minus r).

Definition with_RSI (v : Q) (r : row) : row :=
  mkRow (Open r) (High r) (Low r) (Close r) (Volume r) (EMA9 r) (EMA21 r)
    (EMA50 r) (EMA200 r) (Some (Fin v)) (MACD r) (MACD_signal r)
    (MACD_hist r) (StochRSI_k r) (StochRSI_d r) (Vol_ratio r) (OBV r)
    (BB_upper r) (BB_lower r) (ATR r) (ADX r) (DI_plus r) (DI_minus r).

Definition with_MACD (v : Q) (r : row) : row :=
  mkRow (Open r) (High r) (Low r) (Close r) (Volume r) (EMA9 r) (EMA21 r)
    (EMA50 r) (EMA200 r) (RSI r) (Some (Fin v)) (MACD_signal r) (MACD_hist
    r) (StochRSI_k r) (StochRSI_d r) (Vol_ratio r) (OBV r) (BB_upper r)
    (BB_lower r) (ATR r) (ADX r) (DI_plus r) (DI_minus r).

Definition with_MACD_signal (v : Q) (r : row) : row :=
  mkRow (Open r) (High r) (Low r) (Close r) (Volume r) (EMA9 r) (EMA21 r)
    (EMA50 r) (EMA200 r) (RSI r) (MACD r) (Some (Fin v)) (MACD_hist r)
    (StochRSI_k r) (StochRSI_d r) (Vol_ratio r) (OBV r) (BB_upper r)
    (BB_lower r) (ATR r) (ADX r) (DI_plus r) (DI_minus r).

Definition with_MACD_hist (v : Q) (r : row) : row :=
  mkRow (Open r) (High r) (Low r) (Close r) (Volume r) (EMA9 r) (EMA21 r)
    (EMA50 r) (EMA200 r) (RSI r) (MACD r) (MACD_signal r) (Some (Fin v))
    (StochRSI_k r) (StochRSI_d r) (Vol_ratio r) (OBV r) (BB_upper r)
    (BB_lower r) (ATR r) (ADX r) (DI_plus r) (DI_minus r).

Definition with_Vol_ratio (v : Q) (r : row) : row :=
  mkRow (Open r) (High r) (Low r) (Close r) (Volume r) (EMA9 r) (EMA21 r)
    (EMA50 r) (EMA200 r) (RSI r) (MACD r) (MACD_signal r) (MACD_hist r)
    (StochRSI_k r) (StochRSI_d r) (Some (Fin v)) (OBV r) (BB_upper r)
    (BB_lower r) (ATR r) (ADX r) (DI_plus r) (DI_minus r).

Definition with_BB_upper (v : Q) (r : row) : row :=
  mkRow (Open r) (High r) (Low r) (Close r) (Volume r) (EMA9 r) (EMA21 r)
    (EMA50 r) (EMA200 r) (RSI r) (MACD r) (MACD_signal r) (MACD_hist r)
    (StochRSI_k r) (StochRSI_d r) (Vol_ratio r) (OBV r) (Some (Fin v))
    (BB_lower r) (ATR r) (ADX r) (DI_plus r) (DI_minus r).

Definition with_BB_lower (v : Q) (r : row) : row :=
  mkRow (Open r) (High r) (Low r) (Close r) (Volume r) (EMA9 r) (EMA21 r)
    (EMA50 r) (EMA200 r) (RSI r) (MACD r) (MACD_signal r) (MACD_hist r)
    (StochRSI_k r) (StochRSI_d r) (Vol_ratio r) (OBV r) (BB_upper r) (Some
    (Fin v)) (ATR r) (ADX r) (DI_plus r) (DI_minus r).

Definition with_ATR (v : Q) (r : row) : row :=
  mkRow (Open r) (High r) (Low r) (Close r) (Volume r) (EMA9 r) (EMA21 r)
    (EMA50 r) (EMA200 r) (RSI r) (MACD r) (MACD_signal r) (MACD_hist r)
    (StochRSI_k r) (StochRSI_d r) (Vol_ratio r) (OBV r) (BB_upper r)
    (BB_lower r) (Some (Fin v)) (ADX r) (DI_plus r) (DI_minus r).

(** [n] bars whose prices are given by the bar number. *)
Definition bars (n : nat) (f : Q -> row) : frame :=
  map (fun i => f (inject_Z (Z.of_nat i))) (seq 0 n).

(** Eleven falling bars, 110 down to 100, under a falling EMA50. *)
Definition falling_frame : frame :=
  bars 11 (fun i =>
    with_ATR 2 (with_EMA50 (115 - 0.5 * i)
      (bar (110.5 - i) (111 - i) (109 - i) (110 - i) 1000))).

(** Fifteen bars creeping up a tenth of a cent a day, hardly any range. *)
Definition slow_rise_frame : frame :=
  bars 15 (fun i =>
    let c := 10 + 0.001 * i in
    with_ATR 0.001 (with_EMA50 (9.9 + 0.001 * i) (bar c c c c 1000))).

(** Sixty rising bars, one of which has a long upper wick. *)
Definition wick_frame : frame :=
  bars 60 (fun i =>
    let c := 10 + 0.005 * i in
    with_ATR 0.05 (with_EMA50 (9.8 + 0.005 * i)
      (bar c (if Qeqb i 30 then 12 else c) c c 1000))).

(** Five bars ending on aligned averages and a rising MACD. *)
Definition aligned_bar : row :=
  with_EMA9 108 (with_EMA21 105 (with_EMA50 100 (with_EMA200 90
    (with_MACD 2 (with_MACD_signal 1 (with_MACD_hist 1 (with_RSI 60
      (bar 109 111 108 110 1000)))))))).

Definition buy_frame : frame :=
  [bar 100 101 99 100 1000; bar 102 103 101 102 1000;
   bar 104 105 103 104 1000; bar 106 108 105 107 1000; aligned_bar].

(** Fifteen intraday bars with the lightweight indicator set. *)
Definition intraday_frame : frame :=
  bars 15 (fun i =>
    let c := 10 + 0.01 * i in
    with_EMA9 (c - 0.01) (with_EMA21 (c - 0.02) (with_RSI 55
      (with_MACD 0.01 (with_MACD_signal 0.005 (with_MACD_hist 0.005
        (with_Vol_ratio 1.2 (with_BB_upper (c + 0.1) (with_BB_lower (c - 0.1)
          (with_ATR 0.02 (bar (c - 0.005) (c + 0.01) (c - 0.01) c 1000))))))))))).

(** Closes rising from 50 to 100. *)
Definition rising_closes : list Q :=
  [50; 55; 60; 65; 70; 75; 80; 85; 90; 95; 98; 100].

(** Three bars ending on a doji after a bar that closed where it
    opened, and three
    ending on a full-bodied green candle on heavy volume. *)
Definition doji_frame : frame :=
  [bar 10 10.2 9.8 10.05 1000; bar 10.05 10.3 9.9 10.05 1000;
   bar 10.1 10.6 9.6 10.11 1000].

Definition marubozu_frame : frame :=
  [bar 10 10.1 9.9 10.05 1000; bar 10.05 10.15 9.95 10.1 1000;
   bar 10.1 12.1 10.1 12.1 5000].

(** A scan row with the given symbol, Fib score, zone label and
    risk/reward. *)
Definition sample_result (sym : string) (score : Q) (zone_name : string)
    (rr : Q) : Scanner.ScanResult :=
  Scanner.mkScan sym 10 score (Scanner.grade_of score) zone_name 0 "50.0%" 0
    50 Signals.SIDEWAYS (Fin 50) (Fin 1) 0 0 9.5 10.5 11 5 rr true 0 11 9 10
    None None.

(** Five symbols: two fetches fail, three succeed with scores 80, 50
    and 30; the futures complete out of submission order. *)
Definition five_symbols : list string := ["PTT"; "AOT"; "SCB"; "CPALL"; "BBL"]%string.

Definition five_completed : list (string * Scanner.Outcome) :=
  [("SCB", Scanner.Returned (Some (sample_result "SCB" 50 "61.8–78.6%" 2)));
   ("PTT", Scanner.Returned None);
   ("BBL", Scanner.Returned (Some (sample_result "BBL" 80 "50.0–61.8% 🌟" 2)));
   ("CPALL", Scanner.Raised);
   ("AOT", Scanner.Returned (Some (sample_result "AOT" 30 "0.0–23.6%" 2)))]%string.

(** One symbol over three periods, completing out of order. *)
Definition mtf_completed : list ((string * string) * Scanner.Outcome) :=
  [(("PTT", "1y"),
    Scanner.Returned (Some (sample_result "PTT" 30 "0.0–23.6%" 2)));
   (("PTT", "3mo"),
    Scanner.Returned (Some (sample_result "PTT" 70 "38.2–50.0% 🌟" 2)));
   (("PTT", "6mo"),
    Scanner.Returned (Some (sample_result "PTT" 60 "50.0–61.8% 🌟" 2)))]%string.



(** The five bars of [buy_frame] with an ATR of 2 on the last one. *)
Definition entry_frame : frame :=
  [bar 100 101 99 100 1000; bar 102 103 101 102 1000;
   bar 104 105 103 104 1000; bar 106 108 105 107 1000;
   with_ATR 2 aligned_bar].

(** One bar of a strong up-trend: ADX 30, +DI above -DI, the close
    above EMA200. *)
Definition trend_frame : frame :=
  [mkRow 109 111 108 110 1000 None None None (Some (Fin 90)) None None None
         None None None None None None None None (Some (Fin 30))
         (Some (Fin 25)) (Some (Fin 15))].

(** Six bars for the Bollinger strategy: the close touches the lower
    band on the third bar and the upper band on the fourth, touches the
    lower band again on the fifth and falls ten per cent on the sixth. *)
Definition backtest_frame : frame :=
  [bar 100 101 99 100 1000; bar 100 101 99 100 1000;
   with_BB_lower 100 (with_BB_upper 120 (bar 100 101 99 100 1000));
   with_BB_lower 90 (with_BB_upper 110 (bar 100 111 99 110 1000));
   with_BB_lower 100 (with_BB_upper 120 (bar 110 111 99 100 1000));
   with_BB_lower 80 (with_BB_upper 120 (bar 100 101 89 90 1000))].

(** A falling bar followed by a small-bodied bar with a long upper
    wick and no lower wick. *)
Definition inverted_hammer_frame : frame :=
  [bar 10.4 10.7 10.3 10.6 1000; bar 10.5 10.6 10.1 10.2 1000;
   bar 10 11 10 10.1 1000].

End Scenarios.

(* ================================================================== *)
(** * Double precision *)
(* ================================================================== *)

(** Python's [float] is the IEEE 754 binary64 number, and so is Rocq's
    primitive [float]: the operations below are the ones the code
    runs. *)

Module Double.
Local Open Scope float_scope.

(** Not NaN: a NaN is the one value that differs from itself. *)
Definition is_num (x : float) : bool := (x =? x).

(** Python's [min(a, b)] and [max(a, b)]: the first argument unless the
    second is strictly smaller (larger). *)
Definition py_min (a b : float) : float := if b <? a then b else a.
Definition py_max (a b : float) : float := if a <? b then b else a.

(** The comparison of two doubles, as the specification of the
    primitive operations gives it. *)
Definition spec_compare (x y : float) : option comparison :=
  SFcompare (Prim2SF x) (Prim2SF y).

End Double.

Module DoubleNumpy.
Import Double.
Local Open Scope float_scope.

(** [float(n)] for a count [n]. *)
Definition of_nat (n : nat) : float := of_uint63 (Uint63.of_Z (Z.of_nat n)).

(** numpy's sum of a float64 array ([np.add.reduce]): pairwise
    summation.  Fewer than 8 values are added left to right; up to 128
    are added in eight lanes that are combined at the end, the values
    left over being added one by one; longer arrays are split in two. *)
Fixpoint add_lanes (fuel : nat) (r l : list float) : list float * list float :=
  match fuel with
  | O => (r, l)
  | S fuel' =>
      if (8 <=? List.length l)%nat
      then add_lanes fuel'
             (map (fun p => fst p + snd p) (combine r (firstn 8 l)))
             (skipn 8 l)
      else (r, l)
  end.

Definition block_sum (l : list float) : float :=
  let '(r, rest) := add_lanes (List.length l) (firstn 8 l) (skipn 8 l) in
  let r_ i := nth i r 0 in
  fold_left add rest
    (((r_ 0%nat + r_ 1%nat) + (r_ 2%nat + r_ 3%nat))
     + ((r_ 4%nat + r_ 5%nat) + (r_ 6%nat + r_ 7%nat))).

Fixpoint pairwise_sum (fuel : nat) (l : list float) : float :=
  let n := List.length l in
  if (n <? 8)%nat then fold_left add l 0
  else if (n <=? 128)%nat then block_sum l
  else
    match fuel with
    | O => 0
    | S fuel' =>
        let n2 := (n / 2 - (n / 2) mod 8)%nat in
        pairwise_sum fuel' (firstn n2 l) + pairwise_sum fuel' (skipn n2 l)
    end.

Definition np_sum (l : list float) : float := pairwise_sum (List.length l) l.

(** [np.mean]; of no values it is [nan] (0/0). *)
Definition np_mean (l : list float) : float := np_sum l / of_nat (List.length l).

End DoubleNumpy.

Module IndicatorsDouble.
Import Double DoubleNumpy.
Local Open Scope float_scope.

(** ** scipy's [argrelextrema(data, comparator, order)], [mode='clip'] *)

Definition take_clip (data : list float) (j : Z) : float :=
  nth (Z.to_nat (Z.min (Z.max j 0) (Z.of_nat (List.length data) - 1))) data 0.

Definition is_relextremum (cmp : float -> float -> bool) (data : list float)
    (order : nat) (i : nat) : bool :=
  forallb (fun shift =>
             cmp (nth i data 0) (take_clip data (Z.of_nat i + Z.of_nat shift))
             && cmp (nth i data 0) (take_clip data (Z.of_nat i - Z.of_nat shift)))
          (seq 1 order).

Definition argrelextrema (data : list float) (cmp : float -> float -> bool)
    (order : nat) : list nat :=
  filter (is_relextremum cmp data order) (seq 0 (List.length data)).

(** [np.less_equal] and [np.greater_equal] *)
Definition less_equal (a b : float) : bool := a <=? b.
Definition greater_equal (a b : float) : bool := b <=? a.

(** ** [sorted(set(xs))]: ascending, equal values once *)

Fixpoint insert_uniq (x : float) (l : list float) : list float :=
  match l with
  | [] => [x]
  | y :: l' =>
      if x <? y then x :: l
      else if x =? y then l
      else y :: insert_uniq x l'
  end.

Definition sorted_set (xs : list float) : list float :=
  fold_right insert_uniq [] xs.

(** ** [sorted(xs, key=...)]: ascending in the key *)

Definition sorted_by (key : float -> float) (xs : list float) : list float :=
  sort_before (fun x y => key x <? key y) xs.

(** ** [cluster_levels] *)

(** [abs(lv - group[-1]) / max(group[-1], 1e-9) <= threshold] *)
Definition near (prev lv : float) (threshold : float) : bool :=
  abs (lv - prev) / py_max prev 1e-9 <=? threshold.

(** One iteration of the loop over [levels[1:]], on the pair
    [(clustered, group)]. *)
Definition cluster_step (threshold : float) (st : list float * list float)
    (lv : float) : list float * list float :=
  let '(clustered, group) := st in
  if near (last group 0) lv threshold
  then (clustered, group ++ [lv])
  else (clustered ++ [np_mean group], [lv]).

Definition cluster_levels (levels : list float) (threshold : float)
    : list float :=
  match levels with
  | [] => []
  | lv0 :: rest =>
      let '(clustered, group) :=
        fold_left (cluster_step threshold) rest ([], [lv0]) in
      clustered ++ [np_mean group]
  end.

(** What a clustering is: a group is a run of levels each within the
    threshold of the one before it, and a new group starts exactly where
    a level is not. *)
Inductive chained (threshold : float) : list float -> Prop :=
| chained_one a : chained threshold [a]
| chained_snoc g a :
    chained threshold g ->
    near (last g 0) a threshold = true ->
    chained threshold (g ++ [a]).

Inductive clustering (threshold : float) : list (list float) -> Prop :=
| clustering_one g : chained threshold g -> clustering threshold [g]
| clustering_snoc gs g g' :
    clustering threshold (gs ++ [g]) ->
    chained threshold g' ->
    near (last g 0) (hd 0 g') threshold = false ->
    clustering threshold ((gs ++ [g]) ++ [g']).

(** ** [find_support_resistance]

    [closes] is the column [df['Close'].values].  [None] stands for the
    [IndexError] of [closes[-1]] on an empty frame, which the function
    does not catch.  For a window below 1 [argrelextrema] raises
    [ValueError], which the function catches, returning two empty
    lists. *)
Definition find_support_resistance (closes : list float) (window : Z)
    : option (list float * list float) :=
  match iloc_neg closes 1 with
  | None => None
  | Some current =>
      if (window <? 1)%Z then Some ([], [])
      else
        let order := Z.to_nat window in
        let local_min_idx := argrelextrema closes less_equal order in
        let local_max_idx := argrelextrema closes greater_equal order in
        let supports :=
          cluster_levels
            (sorted_set (map (fun i => nth i closes 0) local_min_idx)) 0.01 in
        let resistances :=
          cluster_levels
            (sorted_set (map (fun i => nth i closes 0) local_max_idx)) 0.01 in
        let supports :=
          sorted_by (fun x => abs (x - current))
                    (filter (fun s => s <? current * 1.02) supports) in
        let resistances :=
          sorted_by (fun x => abs (x - current))
                    (filter (fun r => current * 0.98 <? r) resistances) in
        Some (firstn 7 supports, firstn 7 resistances)
  end.

(** What one of the two returned lists is, given the comparison that
    selects the extrema and the test that keeps a cluster: the first
    seven, by distance to the current price, of the kept averages of a
    clustering of the distinct extremum levels.  The order by distance
    is that of numbers: it is stated for distances none of which is
    NaN. *)
Definition nearest_levels (closes : list float) (order : nat) (current : float)
    (cmp : float -> float -> bool) (keep : float -> bool) (out : list float)
    : Prop :=
  let levels :=
    sorted_set (map (fun i => nth i closes 0) (argrelextrema closes cmp order)) in
  let distance x := abs (x - current) in
  exists (gs : list (list float)) (all : list float),
    StronglySorted (fun a b => (a <? b) = true) levels
    /\ concat gs = levels
    /\ (levels <> [] -> clustering 0.01 gs)
    /\ Permutation all (filter keep (map np_mean gs))
    /\ (Forall (fun x => is_num (distance x) = true) all ->
        StronglySorted (fun a b => (distance a <=? distance b) = true) all)
    /\ out = firstn 7 all.

End IndicatorsDouble.

Module CandleAnalysisDouble.
Import Double DoubleNumpy.
Local Open Scope float_scope.

(** ** [analyze_bell_curve]

    The function is modelled on the column [df['Close']], whose length
    is [len(df)], with the numbers as the code has them: doubles.  Of
    the returned dict the entries [current], [mean], [std], [regime],
    [direction] and [window] are modelled, with the internal [z_score]
    and [rev_prob] from which the entries [z_score] and
    [reversion_prob] are rounded.  The percentile, the return
    statistics, the Bollinger position and the three series kept for
    plotting are left out; computing them cannot raise, except for
    [closes.rolling(n)], which raises [ValueError] for a negative
    [n]. *)

Inductive BellRegime : Type :=
| STRETCHED_EXTREME | STRETCHED_HIGH | STRETCHED | NORMAL | COMPRESSED.

Inductive Direction : Type := RevertUp | RevertDown.

Record BellCurveStats : Type := mkBell {
  bc_current : float;
  bc_mean : float;
  bc_std : float;
  bc_z_score : float;          (* before [round(z_score, 3)] *)
  bc_regime : BellRegime;
  bc_rev_prob : float;         (* the entry is [round(rev_prob * 100, 1)] *)
  bc_direction : Direction;
  bc_window : Z
}.

Inductive BellResult : Type :=
| RaisesIndexError               (* [recent.iloc[-1]] on an empty series *)
| RaisesValueError               (* [closes.rolling(n)] for a negative [n] *)
| Empty                          (* {} *)
| Stats (s : BellCurveStats).

(** [Series.dropna()] *)
Definition dropna (xs : list float) : list float := filter is_num xs.

(** [closes.iloc[-n:]] for any integer [n]. *)
Definition iloc_tail (closes : list float) (n : Z) : list float :=
  if (0 <? n)%Z then lastn (Z.to_nat n) closes
  else skipn (Z.to_nat (- n)) closes.

(** pandas' [Series.mean()] and [Series.std()] (sample standard
    deviation, [ddof=1]) of a series without missing values: the
    deviations are taken from [sum / count], and fewer than two values
    have no standard deviation.  The sum is numpy's [np_sum]; with the
    optional bottleneck package pandas adds the values left to right
    instead, which is [seq_sum]. *)
Definition seq_sum (xs : list float) : float := fold_left add xs 0.

Definition mean_with (sum : list float -> float) (xs : list float) : float :=
  sum xs / of_nat (List.length xs).

Definition std_with (sum : list float -> float) (xs : list float) : float :=
  if (List.length xs <=? 1)%nat then nan
  else
    let avg := sum xs / of_nat (List.length xs) in
    sqrt (sum (map (fun x => (avg - x) * (avg - x)) xs)
          / of_nat (List.length xs - 1)).

Definition mean : list float -> float := mean_with np_sum.
Definition std : list float -> float := std_with np_sum.

(** The lookup table on [abs(z_score)]. *)
Definition reversion_table (abs_z : float) : float * BellRegime :=
  if 2.5 <? abs_z then (0.85, STRETCHED_EXTREME)
  else if 2.0 <? abs_z then (0.75, STRETCHED_HIGH)
  else if 1.5 <? abs_z then (0.62, STRETCHED)
  else if 1.0 <? abs_z then (0.48, NORMAL)
  else (0.35, COMPRESSED).

Definition analyze_bell_curve (close_column : list float) (window : Z)
    : BellResult :=
  if (List.length close_column <? 20)%nat then Empty
  else
    let closes := dropna close_column in
    let n := Z.min window (Z.of_nat (List.length closes)) in
    let recent := iloc_tail closes n in
    match iloc_neg recent 1 with
    | None => RaisesIndexError
    | Some current =>
        let mean := mean recent in
        let std := std recent in
        if std =? 0 then Empty
        else
          let z_score := (current - mean) / std in
          let '(rev_prob, regime) := reversion_table (abs z_score) in
          if (n <? 0)%Z then RaisesValueError
          else
            Stats {| bc_current := current; bc_mean := mean; bc_std := std;
                     bc_z_score := z_score; bc_regime := regime;
                     bc_rev_prob := rev_prob;
                     bc_direction :=
                       if z_score <? 0 then RevertUp else RevertDown;
                     bc_window := n |}
    end.

End CandleAnalysisDouble.

Module ScannerDouble.
Import Double.
Local Open Scope float_scope.

(** The ratios of the seven Fibonacci lines and the six zones between
    them, in the order the loop visits them. *)
Definition fib_ratios : list float :=
  [0.0; 0.236; 0.382; 0.5; 0.618; 0.786; 1.0].

Definition fib_zones : list (float * float) :=
  [(0.0, 0.236); (0.236, 0.382); (0.382, 0.5);
   (0.5, 0.618); (0.618, 0.786); (0.786, 1.0)].

(** [fp(r)], with the enclosing [base], [direction], [fib_range]. *)
Definition fp (base direction fib_range : float) (r : float) : float :=
  base + direction * fib_range * r.

(** [fp] as a scan sets it up from the swing and the trend. *)
Definition swing_fp (swing_low swing_high : float) (is_uptrend : bool)
    : float -> float :=
  fp (if is_uptrend then swing_low else swing_high)
     (if is_uptrend then 1 else -1)
     (swing_high - swing_low).

(** The test [lo <= current <= hi] of one loop iteration. *)
Definition in_zone (fp : float -> float) (current : float)
    (z : float * float) : bool :=
  let p0 := fp (fst z) in
  let p1 := fp (snd z) in
  let lo := py_min p0 p1 in
  let hi := py_max p0 p1 in
  (lo <=? current) && (current <=? hi).

(** The loop with [break]: the first zone whose test succeeds. *)
Definition locate_zone (fp : float -> float) (current : float)
    : option (float * float) :=
  find (in_zone fp current) fib_zones.

(** [c] lies between [a] and [b], whichever of the two is larger. *)
Definition between (a c b : float) : bool :=
  ((a <=? c) && (c <=? b)) || ((b <=? c) && (c <=? a)).

(** The levels follow the direction of the scan: ascending in an
    uptrend, descending in a downtrend. *)
Definition ordered (is_uptrend : bool) (levels : list float) : Prop :=
  StronglySorted
    (fun a b => (if is_uptrend then a <=? b else b <=? a) = true) levels.

End ScannerDouble.

Module DoubleScenarios.
Local Open Scope float_scope.

(** Twenty bars that all close at 10.1. *)
Definition flat_closes : list float := repeat 10.1 20.

(** Closes rising from 50 to 100. *)
Definition rising_closes : list float :=
  [50; 55; 60; 65; 70; 75; 80; 85; 90; 95; 98; 100].

(** Two dips, to 30.00 and to 30.30, in a series that ends at 31.5. *)
Definition two_dips : list float :=
  [32; 31; 30.00; 31; 32; 31; 30.30; 31; 31.5].

End DoubleScenarios.

(* ================================================================== *)
(** * Properties *)
(* ================================================================== *)

Module PyNumFacts.

(** ** Reflection of the comparisons *)

Lemma Qleb_le x y : Qleb x y = true <-> x <= y.
Proof. apply Qle_bool_iff. Qed.

Lemma Qltb_lt x y : Qltb x y = true <-> x < y.
Proof.
  unfold Qltb. rewrite negb_true_iff, <- not_true_iff_false, Qle_bool_iff.
  split; [apply Qnot_le_lt | apply Qlt_not_le].
Qed.

Lemma Qleb_gt x y : Qleb x y = false <-> y < x.
Proof.
  unfold Qleb. rewrite <- not_true_iff_false, Qle_bool_iff.
  split; [apply Qnot_le_lt | apply Qlt_not_le].
Qed.

Lemma Qltb_ge x y : Qltb x y = false <-> y <= x.
Proof.
  unfold Qltb. rewrite negb_false_iff. apply Qle_bool_iff.
Qed.

Lemma Qgtb_lt x y : Qgtb x y = true <-> y < x.
Proof. apply Qltb_lt. Qed.

Lemma Qgeb_le x y : Qgeb x y = true <-> y <= x.
Proof. apply Qleb_le. Qed.

Lemma Qgtb_le x y : Qgtb x y = false <-> x <= y.
Proof. apply Qltb_ge. Qed.

Lemma Qgeb_lt x y : Qgeb x y = false <-> x < y.
Proof. apply Qleb_gt. Qed.

Lemma Qeqb_eq x y : Qeqb x y = true <-> x == y.
Proof. apply Qeq_bool_iff. Qed.

Lemma Qeqb_neq x y : Qeqb x y = false <-> ~ x == y.
Proof.
  unfold Qeqb. rewrite <- not_true_iff_false, Qeq_bool_iff. tauto.
Qed.

(** Turn every boolean comparison in the context and goal into its
    proposition, so that [lra] can use it. *)
Ltac qprop :=
  repeat match goal with
  | H : Qleb _ _ = true |- _ => apply Qleb_le in H
  | H : Qleb _ _ = false |- _ => apply Qleb_gt in H
  | H : Qltb _ _ = true |- _ => apply Qltb_lt in H
  | H : Qltb _ _ = false |- _ => apply Qltb_ge in H
  | H : Qgtb _ _ = true |- _ => apply Qgtb_lt in H
  | H : Qgtb _ _ = false |- _ => apply Qgtb_le in H
  | H : Qgeb _ _ = true |- _ => apply Qgeb_le in H
  | H : Qgeb _ _ = false |- _ => apply Qgeb_lt in H
  | H : Qeqb _ _ = true |- _ => apply Qeqb_eq in H
  | H : Qeqb _ _ = false |- _ => apply Qeqb_neq in H
  | |- Qleb _ _ = true => apply Qleb_le
  | |- Qleb _ _ = false => apply Qleb_gt
  | |- Qltb _ _ = true => apply Qltb_lt
  | |- Qltb _ _ = false => apply Qltb_ge
  | |- Qgtb _ _ = true => apply Qgtb_lt
  | |- Qgtb _ _ = false => apply Qgtb_le
  | |- Qgeb _ _ = true => apply Qgeb_le
  | |- Qgeb _ _ = false => apply Qgeb_lt
  | |- Qeqb _ _ = true => apply Qeqb_eq
  | |- Qeqb _ _ = false => apply Qeqb_neq
  end.

(** Case split on a boolean comparison, keeping its meaning. *)
Ltac qcase b :=
  let E := fresh "E" in destruct b eqn:E; qprop.

(** ** [min] and [max] *)

Lemma py_min_le_l a b : py_min a b <= a.
Proof. unfold py_min. qcase (Qltb b a); lra. Qed.

Lemma py_min_le_r a b : py_min a b <= b.
Proof. unfold py_min. qcase (Qltb b a); lra. Qed.

Lemma py_max_ge_l a b : a <= py_max a b.
Proof. unfold py_max. qcase (Qgtb b a); lra. Qed.

Lemma py_max_ge_r a b : b <= py_max a b.
Proof. unfold py_max. qcase (Qgtb b a); lra. Qed.

Lemma py_min_glb a b c : c <= a -> c <= b -> c <= py_min a b.
Proof. unfold py_min. qcase (Qltb b a); lra. Qed.

Lemma py_max_lub a b c : a <= c -> b <= c -> py_max a b <= c.
Proof. unfold py_max. qcase (Qgtb b a); lra. Qed.

(** ** Rounding *)

Lemma round_half_even_lower q : q - (1 # 2) <= inject_Z (round_half_even q).
Proof.
  unfold round_half_even.
  pose proof (Qfloor_le q) as Hl. pose proof (Qlt_floor q) as Hu.
  rewrite inject_Z_plus in Hu. change (inject_Z 1) with 1 in Hu.
  qcase (Qltb (q - inject_Z (Qfloor q)) (1 # 2)); [lra|].
  qcase (Qltb (1 # 2) (q - inject_Z (Qfloor q))).
  - rewrite inject_Z_plus. change (inject_Z 1) with 1. lra.
  - destruct (Z.even (Qfloor q)); [lra|].
    rewrite inject_Z_plus. change (inject_Z 1) with 1. lra.
Qed.

Lemma round_half_even_upper q : inject_Z (round_half_even q) <= q + (1 # 2).
Proof.
  unfold round_half_even.
  pose proof (Qfloor_le q) as Hl. pose proof (Qlt_floor q) as Hu.
  rewrite inject_Z_plus in Hu. change (inject_Z 1) with 1 in Hu.
  qcase (Qltb (q - inject_Z (Qfloor q)) (1 # 2)); [lra|].
  qcase (Qltb (1 # 2) (q - inject_Z (Qfloor q))).
  - rewrite inject_Z_plus. change (inject_Z 1) with 1. lra.
  - destruct (Z.even (Qfloor q)); [lra|].
    rewrite inject_Z_plus. change (inject_Z 1) with 1. lra.
Qed.

Lemma inject_Z_lt_le_succ (a b : Z) :
  inject_Z a < inject_Z b + 1 -> (a <= b)%Z.
Proof.
  intros H. change 1 with (inject_Z 1) in H.
  rewrite <- inject_Z_plus, <- Zlt_Qlt in H. lia.
Qed.

(** Rounding never crosses an integer: an integer below (above) the
    argument stays below (above) the result. *)
Lemma round_half_even_ge_int q (z : Z) :
  inject_Z z <= q -> (z <= round_half_even q)%Z.
Proof.
  intros H. apply Qfloor_resp_le in H. rewrite Qfloor_Z in H.
  unfold round_half_even.
  destruct (Qltb _ _); [lia|]. destruct (Qltb _ _); [lia|].
  destruct (Z.even _); lia.
Qed.

Lemma round_half_even_le_int q (z : Z) :
  q <= inject_Z z -> (round_half_even q <= z)%Z.
Proof.
  intros H. unfold round_half_even.
  pose proof (Qfloor_le q) as Hl.
  assert (Hf : (Qfloor q <= z)%Z) by (rewrite Zle_Qle; lra).
  qcase (Qltb (q - inject_Z (Qfloor q)) (1 # 2)); [lia|].
  assert (Hlt : (Qfloor q < z)%Z).
  { rewrite Zlt_Qlt. lra. }
  destruct (Qltb _ _); [lia|]. destruct (Z.even _); lia.
Qed.

Lemma round_half_even_mono x y :
  x <= y -> (round_half_even x <= round_half_even y)%Z.
Proof.
  intros H.
  destruct (Z_le_gt_dec (round_half_even x) (round_half_even y)) as [|G];
    [assumption|exfalso].
  (* an integer strictly between would separate them *)
  pose proof (round_half_even_upper x) as Ux.
  pose proof (round_half_even_lower y) as Ly.
  set (a := round_half_even x) in *. set (b := round_half_even y) in *.
  assert (Hab : (b + 1 <= a)%Z) by lia.
  rewrite Zle_Qle, inject_Z_plus in Hab. change (inject_Z 1) with 1 in Hab.
  (* so x = y + ... forces both to be the same tie, rounded alike *)
  assert (Hx : x == inject_Z b + (1 # 2)) by lra.
  assert (Hy : y == inject_Z b + (1 # 2)) by lra.
  assert (Hxy : x == y) by lra.
  assert (Heq : round_half_even x = round_half_even y).
  { unfold round_half_even. rewrite (Qfloor_comp _ _ Hxy).
    assert (Hr : x - inject_Z (Qfloor y) == y - inject_Z (Qfloor y)) by lra.
    unfold Qltb. rewrite !(Qleb_comp _ _ (reflexivity _) _ _ Hr).
    rewrite (Qleb_comp _ _ Hr _ _ (reflexivity (1 # 2))). reflexivity. }
  fold a b in Heq. lia.
Qed.

Lemma pow10_pos n : 0 < pow10 n.
Proof.
  unfold pow10. change 0 with (inject_Z 0). rewrite <- Zlt_Qlt.
  apply Z.pow_pos_nonneg; lia.
Qed.

Lemma py_round_mono n x y : x <= y -> py_round x n <= py_round y n.
Proof.
  intros H. unfold py_round. pose proof (pow10_pos n) as Hp.
  apply Qmult_le_compat_r.
  - rewrite <- Zle_Qle. apply round_half_even_mono.
    apply Qmult_le_compat_r; lra.
  - apply Qlt_le_weak, Qinv_lt_0_compat, Hp.
Qed.

Lemma round_half_even_comp x y : x == y -> round_half_even x = round_half_even y.
Proof.
  intros Hxy. unfold round_half_even. rewrite (Qfloor_comp _ _ Hxy).
  assert (Hr : x - inject_Z (Qfloor y) == y - inject_Z (Qfloor y)) by lra.
  unfold Qltb. rewrite !(Qleb_comp _ _ (reflexivity _) _ _ Hr).
  rewrite (Qleb_comp _ _ Hr _ _ (reflexivity (1 # 2))). reflexivity.
Qed.

Lemma round_half_even_Z z : round_half_even (inject_Z z) = z.
Proof.
  unfold round_half_even. rewrite Qfloor_Z.
  assert (E : Qltb (inject_Z z - inject_Z z) (1 # 2) = true) by (qprop; lra).
  rewrite E. reflexivity.
Qed.

Lemma py_round_idem n x : py_round (py_round x n) n = py_round x n.
Proof.
  assert (E : round_half_even (py_round x n * pow10 n)
              = round_half_even (x * pow10 n)).
  { transitivity (round_half_even (inject_Z (round_half_even (x * pow10 n)))).
    - apply round_half_even_comp. unfold py_round.
      pose proof (pow10_pos n). field. lra.
    - apply round_half_even_Z. }
  unfold py_round at 1. rewrite E. reflexivity.
Qed.

Lemma py_round2_upper x : py_round x 2 <= x + 0.005.
Proof.
  unfold py_round. pose proof (round_half_even_upper (x * pow10 2)) as H.
  change (pow10 2) with 100 in *.
  apply Qle_shift_div_r; lra.
Qed.

Lemma py_round2_lower x : x - 0.005 <= py_round x 2.
Proof.
  unfold py_round. pose proof (round_half_even_lower (x * pow10 2)) as H.
  change (pow10 2) with 100 in *.
  apply Qle_shift_div_l; lra.
Qed.

Lemma py_round2_strict x y : x + 0.01 < y -> py_round x 2 < py_round y 2.
Proof.
  intros H. pose proof (py_round2_upper x). pose proof (py_round2_lower y). lra.
Qed.

Lemma py_int_ge (z : Z) (q : Q) : (z <= 0)%Z -> inject_Z z <= q -> (z <= py_int q)%Z.
Proof.
  intros Hz Hq. unfold py_int. qcase (Qltb q 0).
  - pose proof (Qle_ceiling q) as Hc.
    apply Qfloor_resp_le in Hq. rewrite Qfloor_Z in Hq.
    pose proof (Qle_floor_ceiling q) as Hfc. rewrite <- Zle_Qle in Hfc. lia.
  - apply Qfloor_resp_le in Hq. rewrite Qfloor_Z in Hq. exact Hq.
Qed.

(** ** Sorting *)

Lemma insert_before_perm {A} (before : A -> A -> bool) x l :
  Permutation (insert_before before x l) (x :: l).
Proof.
  induction l as [|y l IH]; cbn; [reflexivity|].
  destruct (before x y); [reflexivity|].
  rewrite IH. apply perm_swap.
Qed.

Lemma sort_before_perm {A} (before : A -> A -> bool) l :
  Permutation (sort_before before l) l.
Proof.
  unfold sort_before.
  enough (H : forall acc,
             Permutation (fold_left (fun a x => insert_before before x a) l acc)
                         (acc ++ l)) by apply (H []).
  induction l as [|x l IH]; intros acc; cbn [fold_left].
  - rewrite app_nil_r. reflexivity.
  - rewrite IH, insert_before_perm. apply Permutation_middle.
Qed.

End PyNumFacts.

Module IndicatorsFacts.
Import Indicators PyNumFacts.

(** ** Clustering *)

Lemma chained_nonempty th g : chained th g -> g <> [].
Proof. intros H; inversion H; subst; [discriminate | now destruct g0]. Qed.

Lemma chained_hd_app th g a : chained th g -> hd 0 (g ++ [a]) = hd 0 g.
Proof. intros H. apply chained_nonempty in H. destruct g; [contradiction | reflexivity]. Qed.

Lemma clustering_last_chained th gs g : clustering th (gs ++ [g]) -> chained th g.
Proof.
  intros H. inversion H as [g0 Hc E | gs0 g0 g' Hcl Hc Hn E].
  - change [g0] with ([] ++ [g0]) in E.
    apply app_inj_tail in E as [_ ->]. assumption.
  - apply app_inj_tail in E as [_ ->]. assumption.
Qed.

Lemma clustering_extend th gs g lv :
  clustering th (gs ++ [g]) -> near (last g 0) lv th = true ->
  clustering th (gs ++ [g ++ [lv]]).
Proof.
  intros H Hn. inversion H as [g0 Hc E | gs0 g0 g' Hcl Hc Hf E].
  - change [g0] with ([] ++ [g0]) in E.
    apply app_inj_tail in E as [<- ->].
    cbn. apply clustering_one. apply chained_snoc; assumption.
  - apply app_inj_tail in E as [<- ->].
    apply clustering_snoc; [assumption | apply chained_snoc; assumption |].
    rewrite (chained_hd_app th g lv Hc). assumption.
Qed.

Lemma cluster_loop_spec th rest :
  forall gs g clustered,
    clustered = map meanQ gs ->
    clustering th (gs ++ [g]) ->
    exists gs' g',
      fold_left (cluster_step th) rest (clustered, g) = (map meanQ gs', g')
      /\ clustering th (gs' ++ [g'])
      /\ concat (gs' ++ [g']) = concat (gs ++ [g]) ++ rest.
Proof.
  induction rest as [|lv rest IH]; intros gs g clustered -> Hcl.
  - exists gs, g. cbn. rewrite app_nil_r. auto.
  - cbn [fold_left]. unfold cluster_step at 2.
    destruct (near (last g 0) lv th) eqn:En.
    + destruct (IH gs (g ++ [lv]) (map meanQ gs) eq_refl
                  (clustering_extend th gs g lv Hcl En)) as (gs' & g' & F & C & K).
      exists gs', g'. repeat split; auto.
      rewrite K, !concat_app. cbn. rewrite !app_nil_r, <- !app_assoc. reflexivity.
    + assert (Hcl' : clustering th ((gs ++ [g]) ++ [[lv]])).
      { apply clustering_snoc; [assumption | apply chained_one | exact En]. }
      destruct (IH (gs ++ [g]) [lv] (map meanQ gs ++ [meanQ g])
                  ltac:(rewrite map_app; reflexivity) Hcl') as (gs' & g' & F & C & K).
      exists gs', g'. repeat split; auto.
      rewrite K, !concat_app. cbn. rewrite !app_nil_r, <- !app_assoc. reflexivity.
Qed.

(** The clusters returned are the averages of a clustering of the
    levels, in order. *)
Lemma cluster_levels_spec levels th :
  levels <> [] ->
  exists gs, cluster_levels levels th = map meanQ gs
             /\ clustering th gs /\ concat gs = levels.
Proof.
  destruct levels as [|lv0 rest]; [contradiction|]. intros _.
  unfold cluster_levels.
  destruct (cluster_loop_spec th rest [] [lv0] [] eq_refl
              (clustering_one th [lv0] (chained_one th lv0))) as (gs' & g' & F & C & K).
  rewrite F. exists (gs' ++ [g']). rewrite map_app. cbn. auto.
Qed.

Lemma cluster_levels_nil th : cluster_levels [] th = [].
Proof. reflexivity. Qed.

(** ** Sorting by a key *)

Section SortedBy.
Variable key : Q -> Q.
Let le_key (a b : Q) : Prop := key a <= key b.
Let before (x y : Q) : bool := Qltb (key x) (key y).

Lemma insert_before_sorted x l :
  StronglySorted le_key l -> StronglySorted le_key (insert_before before x l).
Proof.
  induction l as [|y l IH]; intros Hs; cbn.
  - repeat constructor.
  - inversion Hs as [|? ? Hs' Hall]; subst. unfold before at 1.
    qcase (Qltb (key x) (key y)).
    + constructor; [assumption|]. constructor.
      * unfold le_key; lra.
      * eapply Forall_impl; [|exact Hall]. unfold le_key. intros a Ha. lra.
    + constructor; [apply IH; assumption|].
      rewrite (insert_before_perm before x l). constructor; [exact E | assumption].
Qed.

Lemma sorted_by_sorted xs : StronglySorted le_key (sorted_by key xs).
Proof.
  unfold sorted_by, sort_before. fold before.
  enough (H : forall acc,
             StronglySorted le_key acc ->
             StronglySorted le_key
               (fold_left (fun a x => insert_before before x a) xs acc))
    by (apply H; constructor).
  induction xs as [|x xs IH]; intros acc Hs; cbn [fold_left]; [exact Hs|].
  apply IH, insert_before_sorted, Hs.
Qed.

Lemma sorted_by_perm xs : Permutation (sorted_by key xs) xs.
Proof. apply sort_before_perm. Qed.

End SortedBy.

(** ** Distinct sorted levels *)

Lemma insert_uniq_incl x l : incl (insert_uniq x l) (x :: l).
Proof.
  induction l as [|y l IH]; cbn; [apply incl_refl|].
  destruct (Qltb x y); [apply incl_refl|].
  destruct (Qeqb x y); [apply incl_tl, incl_refl|].
  intros a [<-|Ha]; [right; left; reflexivity|].
  apply IH in Ha as [<-|Ha]; [left | right; right]; auto.
Qed.

Lemma insert_uniq_sorted x l :
  StronglySorted Qlt l -> StronglySorted Qlt (insert_uniq x l).
Proof.
  induction l as [|y l IH]; intros Hs; cbn.
  - repeat constructor.
  - inversion Hs as [|? ? Hs' Hall]; subst.
    qcase (Qltb x y).
    + constructor; [assumption|]. constructor; [assumption|].
      eapply Forall_impl; [|exact Hall]. intros a Ha. cbv beta in Ha. lra.
    + qcase (Qeqb x y); [assumption|].
      constructor; [apply IH; assumption|].
      apply Forall_forall. intros a Ha.
      apply insert_uniq_incl in Ha as [<-|Ha].
      * lra.
      * rewrite Forall_forall in Hall. apply Hall, Ha.
Qed.

Lemma sorted_set_sorted xs : StronglySorted Qlt (sorted_set xs).
Proof.
  induction xs as [|x xs IH]; cbn; [constructor | apply insert_uniq_sorted, IH].
Qed.

Lemma sorted_set_incl xs : incl (sorted_set xs) xs.
Proof.
  induction xs as [|x xs IH]; cbn; [apply incl_refl|].
  intros a Ha. apply insert_uniq_incl in Ha as [<-|Ha]; [left | right]; auto.
Qed.

(** ** Averages *)

Lemma sumQ_nonneg l : Forall (fun x => 0 <= x) l -> 0 <= sumQ l.
Proof.
  induction 1 as [|x l Hx Hl IH]; unfold sumQ in *; cbn [fold_right]; lra.
Qed.

Lemma meanQ_nonneg l : Forall (fun x => 0 <= x) l -> 0 <= meanQ l.
Proof.
  intros H. unfold meanQ. destruct l as [|x l]; [apply Qle_bool_iff; reflexivity|].
  apply Qle_shift_div_l.
  - change 0 with (inject_Z 0). rewrite <- Zlt_Qlt. cbn [List.length]. lia.
  - pose proof (sumQ_nonneg _ H). lra.
Qed.

Lemma cluster_levels_nonneg levels th :
  Forall (fun x => 0 <= x) levels ->
  Forall (fun x => 0 <= x) (cluster_levels levels th).
Proof.
  intros H. destruct levels as [|lv0 rest] eqn:E; [constructor|].
  destruct (cluster_levels_spec (lv0 :: rest) th ltac:(discriminate))
    as (gs & -> & _ & K).
  rewrite <- K in H. clear K.
  induction gs as [|g gs IH]; cbn; [constructor|].
  cbn in H. apply Forall_app in H as [Hg Hgs].
  constructor; [apply meanQ_nonneg, Hg | apply IH, Hgs].
Qed.

(** ** Support and resistance *)

Lemma In_firstn {A} (x : A) n l : In x (firstn n l) -> In x l.
Proof.
  revert l. induction n as [|n IH]; intros [|a l]; cbn; try tauto.
  intros [->|H]; [left; reflexivity | right; apply IH, H].
Qed.

(** On closes rising from 50 to 100 the only support returned is 50,
    half the current price: the support test has no lower bound. *)
Lemma support_far_below_price :
  exists supports resistances s,
    find_support_resistance Scenarios.rising_closes 10
    = Some (supports, resistances)
    /\ iloc_neg Scenarios.rising_closes 1 = Some 100
    /\ In s supports
    /\ ~ (100 * 0.98 <= s <= 100 * 1.02).
Proof.
  eexists _, _, _. split; [vm_compute; reflexivity|].
  split; [reflexivity|]. split; [left; reflexivity|].
  intros [H _]. vm_compute in H. apply H. reflexivity.
Qed.

(** ** Levels of non-negative prices *)

Lemma nth_nonneg (l : list Q) i : Forall (fun x => 0 <= x) l -> 0 <= nth i l 0.
Proof.
  intros H. destruct (nth_in_or_default i l 0) as [Hi| ->]; [|lra].
  rewrite Forall_forall in H. apply H, Hi.
Qed.

Lemma nearest_nonneg closes idx keep (key : Q -> Q) :
  Forall (fun x => 0 <= x) closes ->
  Forall (fun x => 0 <= x)
    (firstn 7 (sorted_by key
                 (filter keep
                    (cluster_levels
                       (sorted_set (map (fun i => nth i closes 0) idx)) 0.01)))).
Proof.
  intros H. apply Forall_forall. intros x Hx.
  apply In_firstn in Hx.
  apply (Permutation_in _ (sorted_by_perm key _)) in Hx.
  apply filter_In in Hx as [Hx _].
  revert x Hx. apply Forall_forall. apply cluster_levels_nonneg.
  apply Forall_forall. intros y Hy. apply sorted_set_incl in Hy.
  apply in_map_iff in Hy as (i & <- & _). apply nth_nonneg, H.
Qed.

Lemma find_support_resistance_nonneg closes window supports resistances :
  Forall (fun x => 0 <= x) closes ->
  find_support_resistance closes window = Some (supports, resistances) ->
  Forall (fun x => 0 <= x) supports /\ Forall (fun x => 0 <= x) resistances.
Proof.
  intros H. unfold find_support_resistance.
  destruct (iloc_neg closes 1); [|discriminate].
  destruct (window <? 1)%nat.
  - intros E. injection E as <- <-. split; constructor.
  - intros E. injection E as <- <-. split; apply nearest_nonneg, H.
Qed.

End IndicatorsFacts.

Module SignalsFacts.
Import Indicators Signals PyNumFacts.
Open Scope Z_scope.

(** ** The scorer *)

Ltac run_block :=
  repeat first
    [ progress unfold bind, add_score, emit, skip, ret, raise, column
    | progress cbn [fst snd score signals]
    | match goal with
      | |- context [if ?b then _ else _] => destruct b
      | |- context [match ?x with Some _ => _ | None => _ end] => destruct x
      end ];
  try lia.

Lemma additive_ema_alignment last : additive (rule_ema_alignment last).
Proof. intros s. unfold contribution, rule_ema_alignment. run_block. Qed.

Lemma additive_ema_cross last prev : additive (rule_ema_cross last prev).
Proof. intros s. unfold contribution, rule_ema_cross. run_block. Qed.

Lemma additive_price_vs_ema200 last : additive (rule_price_vs_ema200 last).
Proof. intros s. unfold contribution, rule_price_vs_ema200. run_block. Qed.

Lemma additive_rsi last : additive (rule_rsi last).
Proof. intros s. unfold contribution, rule_rsi. run_block. Qed.

Lemma additive_macd last prev : additive (rule_macd last prev).
Proof. intros s. unfold contribution, rule_macd. run_block. Qed.

Lemma additive_stochrsi last prev : additive (rule_stochrsi last prev).
Proof. intros s. unfold contribution, rule_stochrsi. run_block. Qed.

Lemma additive_volume df last prev : additive (rule_volume df last prev).
Proof. intros s. unfold contribution, rule_volume. run_block. Qed.

Lemma additive_bollinger last : additive (rule_bollinger last).
Proof. intros s. unfold contribution, rule_bollinger. run_block. Qed.

Lemma for_patterns_shift ps s s' :
  score (snd (for_patterns ps s)) - score s
  = score (snd (for_patterns ps s')) - score s'.
Proof.
  revert s s'. induction ps as [|[name ty] ps IH]; intros s s'.
  - cbn. lia.
  - cbn [for_patterns]. destruct ty; unfold bind, add_score, emit, skip, ret;
      cbn [fst snd score signals];
      match goal with
      | |- score (snd (for_patterns ps ?a)) - _
           = score (snd (for_patterns ps ?b)) - _ =>
          specialize (IH a b); cbn [score] in IH; lia
      end.
Qed.

Lemma additive_patterns df : additive (rule_patterns df).
Proof.
  intros s. unfold contribution, rule_patterns.
  pose proof (for_patterns_shift (detect_candlestick_patterns df) s
                                 (mkState 0 [])) as H.
  cbn [score] in H. lia.
Qed.

Lemma additive_try_pass m : additive m -> additive (try_pass m).
Proof.
  intros H s. unfold contribution, try_pass. cbn [snd].
  rewrite (H s). reflexivity.
Qed.

Lemma contribution_try_pass m : contribution (try_pass m) = contribution m.
Proof. reflexivity. Qed.

Lemma rule_blocks_additive df last prev :
  Forall additive (rule_blocks df last prev).
Proof.
  unfold rule_blocks.
  repeat constructor;
    auto using additive_ema_alignment, additive_ema_cross,
      additive_price_vs_ema200, additive_rsi, additive_macd,
      additive_stochrsi, additive_volume, additive_bollinger,
      additive_patterns.
Qed.

(** Running the blocks one after the other, each under its own
    [try]/[except], adds up their contributions. *)
Lemma score_rules_sum df last prev s :
  score (snd (score_rules df last prev s))
  = score s + sumZ (map contribution (rule_blocks df last prev)).
Proof.
  unfold score_rules, rule_blocks, bind, try_pass. cbn [fst snd map sumZ fold_right].
  rewrite additive_patterns, additive_bollinger, additive_volume,
    additive_stochrsi, additive_macd, additive_rsi, additive_price_vs_ema200,
    additive_ema_cross, additive_ema_alignment.
  lia.
Qed.

Lemma clamp_score_range z : 0 <= clamp_score z <= 100.
Proof. unfold clamp_score. lia. Qed.

(** ** The recommendation engine *)

Open Scope Q_scope.

Lemma fgt_or_zero a b :
  fgt (py_or (Fin a) f0) (py_or (Fin b) f0) = true <-> b < a.
Proof.
  unfold py_or, truthy, f0, fgt, flt.
  qcase (Qeqb a 0); qcase (Qeqb b 0); cbn [negb];
    rewrite Qltb_lt; split; intros; lra.
Qed.

Lemma fgt_or_zero_0 a : fgt (py_or (Fin a) f0) f0 = true <-> 0 < a.
Proof.
  unfold py_or, truthy, f0, fgt, flt.
  qcase (Qeqb a 0); cbn [negb]; rewrite Qltb_lt; split; intros; lra.
Qed.

Lemma py_or_positive a d : 0 < a -> py_or (Fin a) d = Fin a.
Proof.
  intros H. unfold py_or, truthy. qcase (Qeqb a 0); [lra | reflexivity].
Qed.

Lemma rsi_not_overbought r :
  fgt (py_or (Fin r) (Fin 50)) (Fin 70) = false <-> r <= 70.
Proof.
  unfold py_or, truthy, fgt, flt.
  qcase (Qeqb r 0); cbn [negb]; rewrite Qltb_ge; split; intros; lra.
Qed.

Lemma is_positive_inv c :
  is_positive c = true -> exists q, c = Some (Fin q) /\ num c = q /\ 0 < q.
Proof.
  unfold is_positive. destruct c as [[|q]|]; cbn; try discriminate.
  intros H. qprop. eauto.
Qed.

Lemma is_num_inv c : is_num c = true -> exists q, c = Some (Fin q) /\ num c = q.
Proof. destruct c as [[|q]|]; cbn; try discriminate. eauto. Qed.

(** The first guard, read off the frame. *)
Lemma guard_buy_readings last prev sigs score :
  readings_defined last = true ->
  guard_buy (conditions last prev sigs) score = true
  <-> ((72 <= score)%Z
       /\ num (EMA21 last) < num (EMA9 last)
       /\ num (EMA50 last) < num (EMA21 last)
       /\ num (MACD_signal last) < num (MACD last)
       /\ 0 < num (MACD_hist last)
       /\ num (EMA200 last) < Close last
       /\ num (RSI last) <= 70).
Proof.
  unfold readings_defined. rewrite !andb_true_iff.
  intros [[[[[[[[H9 H21] H50] H200] Hc] Hm] Hs] Hh] Hr].
  apply is_positive_inv in H9 as (e9 & E9 & N9 & P9).
  apply is_positive_inv in H21 as (e21 & E21 & N21 & P21).
  apply is_positive_inv in H50 as (e50 & E50 & N50 & P50).
  apply is_positive_inv in H200 as (e200 & E200 & N200 & P200).
  apply is_num_inv in Hm as (m & Em & Nm).
  apply is_num_inv in Hs as (ms & Es & Ns).
  apply is_num_inv in Hh as (mh & Eh & Nh).
  apply is_num_inv in Hr as (r & Er & Nr).
  rewrite N9, N21, N50, N200, Nm, Ns, Nh, Nr.
  unfold guard_buy, conditions.
  cbn [ema_aligned_up macd_bullish above_ema200 rsi_overbought].
  rewrite E9, E21, E50, E200, Em, Es, Eh, Er. cbn [get].
  rewrite (py_or_positive e9), (py_or_positive e21), (py_or_positive e50),
    (py_or_positive e200) by assumption.
  rewrite !andb_true_iff, negb_true_iff, Z.leb_le.
  rewrite fgt_or_zero, fgt_or_zero_0, rsi_not_overbought.
  assert (G : fgt (Fin e200) f0 = true) by (cbn; qprop; lra).
  rewrite G. cbn [fgt flt]. rewrite !Qltb_lt. tauto.
Qed.

(** What [decide] selects is what the function returns. *)
Lemma generate_recommendation_decides df score sigs regime cp last prev r :
  (List.length df <? 5)%nat = false ->
  iloc_neg df 1 = Some last ->
  iloc_neg df 2 = Some prev ->
  generate_recommendation df score sigs regime cp = Some r ->
  (action r, confidence r)
  = fst (fst (decide (conditions last prev sigs) score regime)).
Proof.
  intros Hl H1 H2. unfold generate_recommendation. rewrite Hl, H1, H2.
  destruct (decide (conditions last prev sigs) score regime)
    as [[[act conf] rs] cs].
  cbn [fst].
  destruct act;
    repeat match goal with
           | |- context [if ?b then _ else _] => destruct b
           end;
    intros H; inversion H; reflexivity.
Qed.

Lemma generate_recommendation_returns df score sigs regime cp last prev :
  (List.length df <? 5)%nat = false ->
  iloc_neg df 1 = Some last ->
  iloc_neg df 2 = Some prev ->
  0 < Close last ->
  exists r, generate_recommendation df score sigs regime cp = Some r.
Proof.
  intros Hl H1 H2 Hc. unfold generate_recommendation. rewrite Hl, H1, H2.
  destruct (decide (conditions last prev sigs) score regime)
    as [[[act conf] rs] cs].
  assert (E : Qeqb (Close last) 0 = false) by (qprop; lra).
  rewrite E.
  destruct act;
    repeat match goal with
           | |- context [if ?b then _ else _] => destruct b
           end; eauto.
Qed.

(** C5. On a frame of five bars or more whose latest readings are
    defined, the engine returns a recommendation chosen by the first
    guard that holds, tried in the order BUY, ACCUMULATE, HOLD, REDUCE,
    SELL. The action is BUY exactly when score >= 72, EMA9 > EMA21 >
    EMA50, MACD > signal, histogram > 0, close > EMA200 and RSI <= 70;
    its confidence is then HIGH for score >= 80 and MEDIUM otherwise.
    When no guard holds the action is WAIT. *)
Theorem recommendation_decision_table
    (df : frame) (score : Z) (sigs : list Signal) (regime : Regime)
    (cp : Q) (last prev : row) :
  (5 <= List.length df)%nat ->
  iloc_neg df 1 = Some last ->
  iloc_neg df 2 = Some prev ->
  readings_defined last = true ->
  exists r,
    generate_recommendation df score sigs regime cp = Some r
    /\ (action r = ActBUY
        <-> ((72 <= score)%Z
             /\ num (EMA21 last) < num (EMA9 last)
             /\ num (EMA50 last) < num (EMA21 last)
             /\ num (MACD_signal last) < num (MACD last)
             /\ 0 < num (MACD_hist last)
             /\ num (EMA200 last) < Close last
             /\ num (RSI last) <= 70))
    /\ (action r = ActBUY ->
        confidence r = if (80 <=? score)%Z then ConfHIGH else ConfMEDIUM)
    /\ (let c := conditions last prev sigs in
        action r =
          if guard_buy c score then ActBUY
          else if guard_accumulate c score then ActACCUMULATE
          else if guard_hold c score then ActHOLD
          else if guard_reduce c score then ActREDUCE
          else if guard_sell c score regime then ActSELL
          else ActWAIT).
Proof.
  intros Hlen H1 H2 Hdef.
  assert (Hl : (List.length df <? 5)%nat = false) by (apply Nat.ltb_ge; lia).
  assert (Hc : 0 < Close last).
  { unfold readings_defined in Hdef. rewrite !andb_true_iff in Hdef.
    destruct Hdef as [[[[[_ Hc] _] _] _] _]. qprop. exact Hc. }
  destruct (generate_recommendation_returns df score sigs regime cp last prev
              Hl H1 H2 Hc) as [r Hr].
  exists r. split; [exact Hr|].
  pose proof (generate_recommendation_decides _ _ _ _ _ _ _ _ Hl H1 H2 Hr) as D.
  pose proof (guard_buy_readings last prev sigs score Hdef) as G.
  unfold decide in D. cbn zeta.
  destruct (guard_buy (conditions last prev sigs) score) eqn:Eb.
  - cbn [fst] in D. injection D as Ha Hcf.
    split; [|split].
    + split; intros _; [apply G; reflexivity | exact Ha].
    + intros _. exact Hcf.
    + exact Ha.
  - assert (NB : action r <> ActBUY).
    { repeat match type of D with
             | context [if ?b then _ else _] => destruct b
             end; cbn [fst] in D; injection D as Ha _;
        rewrite Ha; discriminate. }
    split; [|split].
    + split; [intros A; contradiction|].
      intros A. apply G in A. discriminate.
    + intros A; contradiction.
    + repeat match type of D with
             | context [if ?b then _ else _] => destruct b
             end; cbn [fst] in D; injection D as Ha _; exact Ha.
Qed.

Lemma recommendation_decision_table_witness :
  exists r,
    generate_recommendation Scenarios.buy_frame 85 [] BULL_TREND 110 = Some r
    /\ action r = ActBUY
    /\ confidence r = ConfHIGH.
Proof.
  destruct (recommendation_decision_table Scenarios.buy_frame 85 []
              BULL_TREND 110 Scenarios.aligned_bar
              (Scenarios.bar 106 108 105 107 1000))
    as (r & Hr & Hbuy & Hconf & _).
  - cbn; lia.
  - reflexivity.
  - reflexivity.
  - vm_compute; reflexivity.
  - assert (A : action r = ActBUY).
    { apply Hbuy. vm_compute. repeat split; discriminate. }
    exists r. split; [exact Hr|]. split; [exact A|]. exact (Hconf A).
Defined.

(** ** The target calculator *)

Lemma buy_zone_ordered sup fib :
  0 <= sup -> min_f sup fib * 0.99 <= max_f sup fib * 1.01.
Proof.
  intros H. destruct fib as [|y]; cbn [min_f max_f]; [lra|].
  unfold py_min, py_max. qcase (Qltb y sup); qcase (Qgtb y sup); lra.
Qed.

(** How the levels of a Targets object hang together. *)
Lemma calculate_price_targets_levels df current_price t last :
  calculate_price_targets df current_price = Some t ->
  iloc_neg df 1 = Some last ->
  0 <= current_price ->
  Forall (fun r => 0 <= Close r) df ->
  (forall a, ATR last = Some (Fin a) -> 0 <= a) ->
  exists nearest fib atr,
    0 <= nearest /\ 0 <= atr
    /\ buy_low t = py_round (min_f nearest fib * 0.99) 2
    /\ buy_high t = py_round (max_f nearest fib * 1.01) 2
    /\ stop_loss t = py_round (buy_low t - atr * 1.5) 2
    /\ nth 0 (targets t) 0
       = py_round (current_price + (current_price - stop_loss t) * 2) 2
    /\ nth 1 (targets t) 0
       = py_round (current_price + (current_price - stop_loss t) * 3) 2.
Proof.
  intros Ht Hl Hcp Hpos Hatr. unfold calculate_price_targets in Ht.
  rewrite Hl in Ht.
  destruct (find_support_resistance (map Close df) 10) as [[sup res]|] eqn:Ef;
    [|discriminate].
  assert (Hcl : Forall (fun x => 0 <= x) (map Close df))
    by (apply Forall_map; exact Hpos).
  destruct (IndicatorsFacts.find_support_resistance_nonneg _ _ _ _ Hcl Ef)
    as [Hsup _].
  injection Ht as <-. cbn [stop_loss buy_low buy_high targets nth].
  eexists _, _, _. split; [|split; [|repeat split]].
  - destruct sup as [|s sup']; [|inversion Hsup; eassumption]. lra.
  - destruct (ATR last) as [[|a]|]; try lra. apply Hatr. reflexivity.
Qed.

Lemma stop_loss_below_buy_zone df current_price t last :
  calculate_price_targets df current_price = Some t ->
  iloc_neg df 1 = Some last ->
  0 <= current_price ->
  Forall (fun r => 0 <= Close r) df ->
  (forall a, ATR last = Some (Fin a) -> 0 <= a) ->
  stop_loss t <= buy_low t.
Proof.
  intros Ht Hl Hcp Hpos Hatr.
  destruct (calculate_price_targets_levels _ _ _ _ Ht Hl Hcp Hpos Hatr)
    as (nearest & fib & atr & Hn & Ha & Hbl & _ & Hsl & _).
  assert (Hb : py_round (buy_low t) 2 = buy_low t)
    by (rewrite Hbl; apply py_round_idem).
  rewrite Hsl. rewrite <- Hb at 2. apply py_round_mono. lra.
Qed.

(** C4 (as amended). For non-negative prices and a non-negative ATR, a
    Targets object has stop_loss <= buy_zone.low <= buy_zone.high; when
    the stop-loss is not above the current price, targets[0] <=
    targets[1], strictly once the risk exceeds one cent. *)
Theorem targets_ordering (df : frame) (current_price : Q) (t : Targets)
    (last : row) :
  calculate_price_targets df current_price = Some t ->
  iloc_neg df 1 = Some last ->
  0 <= current_price ->
  Forall (fun r => 0 <= Close r) df ->
  (forall a, ATR last = Some (Fin a) -> 0 <= a) ->
  stop_loss t <= buy_low t
  /\ buy_low t <= buy_high t
  /\ (stop_loss t <= current_price ->
      nth 0 (targets t) 0 <= nth 1 (targets t) 0)
  /\ (0.01 < current_price - stop_loss t ->
      nth 0 (targets t) 0 < nth 1 (targets t) 0).
Proof.
  intros Ht Hl Hcp Hpos Hatr.
  split; [eapply stop_loss_below_buy_zone; eassumption|].
  destruct (calculate_price_targets_levels _ _ _ _ Ht Hl Hcp Hpos Hatr)
    as (nearest & fib & atr & Hn & Ha & Hbl & Hbh & Hsl & H0 & H1).
  rewrite Hbl, Hbh, H0, H1. repeat split.
  - apply py_round_mono, buy_zone_ordered, Hn.
  - intros Hs. apply py_round_mono. lra.
  - intros Hs. apply py_round2_strict. lra.
Qed.

(** A rising market in which the claimed strict ordering breaks: on
    bars that creep up with hardly any range the stop-loss rounds to the
    buy-zone low itself, and one long upper wick in the window lifts
    the buy zone above the first target. *)
Lemma targets_ordering_fails_in_uptrend :
  (exists t last,
     calculate_price_targets Scenarios.slow_rise_frame 10.014 = Some t
     /\ iloc_neg Scenarios.slow_rise_frame 1 = Some last
     /\ Close last == 10.014
     /\ Scanner.swing_trend Scenarios.slow_rise_frame last = Some true
     /\ ~ stop_loss t < buy_low t)
  /\ (exists t last,
        calculate_price_targets Scenarios.wick_frame 10.295 = Some t
        /\ iloc_neg Scenarios.wick_frame 1 = Some last
        /\ Close last == 10.295
        /\ Scanner.swing_trend Scenarios.wick_frame last = Some true
        /\ ~ buy_high t < nth 0 (targets t) 0).
Proof.
  split; eexists; eexists;
    (split; [vm_compute; reflexivity|]);
    (split; [vm_compute; reflexivity|]);
    (split; [vm_compute; reflexivity|]);
    (split; [vm_compute; reflexivity|]);
    intros H; vm_compute in H; discriminate H.
Qed.

Lemma targets_ordering_witness :
  exists t,
    calculate_price_targets Scenarios.falling_frame 100 = Some t
    /\ (stop_loss t <= buy_low t
        /\ buy_low t <= buy_high t
        /\ (stop_loss t <= 100 -> nth 0 (targets t) 0 <= nth 1 (targets t) 0)
        /\ (0.01 < 100 - stop_loss t ->
            nth 0 (targets t) 0 < nth 1 (targets t) 0)).
Proof.
  eexists. split; [vm_compute; reflexivity|].
  eapply (targets_ordering Scenarios.falling_frame 100).
  - vm_compute; reflexivity.
  - vm_compute; reflexivity.
  - apply Qle_bool_iff; reflexivity.
  - apply Forall_forall. intros r Hr. apply Qle_bool_iff.
    revert r Hr. apply forallb_forall. vm_compute; reflexivity.
  - intros a Ha. vm_compute in Ha. injection Ha as <-.
    apply Qle_bool_iff; reflexivity.
Defined.

End SignalsFacts.

Module CandleAnalysisFacts.
Import CandleAnalysis PyNumFacts.

(** ** Pattern confidence *)

Lemma sort_by_confidence_perm l : Permutation (sort_by_confidence l) l.
Proof. apply sort_before_perm. Qed.

Lemma Forall_if {A} (P : A -> Prop) (b : bool) (x : A) :
  (b = true -> P x) -> Forall P (if b then [x] else []).
Proof. destruct b; intros H; constructor; auto. Qed.

Lemma body_nonneg c : 0 <= _body c.
Proof. apply Qabs_nonneg. Qed.

Lemma floor_eps_pos x : 0 < py_max x (1 # 1000000000).
Proof.
  pose proof (py_max_ge_r x (1 # 1000000000)).
  assert (0 < 1 # 1000000000) by reflexivity. lra.
Qed.

(** The confidence of the two "long candle" rules. *)
Lemma long_candle_confidence (bp : Q) (boost : bool) :
  0.6 < bp ->
  let conf := Z.min 100 (60 + py_int ((bp - 0.6) * 100)) in
  (40 <= (if boost then Z.min 100 (conf + 15) else conf) <= 100)%Z.
Proof.
  intros H. assert (0 <= py_int ((bp - 0.6) * 100))%Z.
  { apply py_int_ge; [lia|]. change (inject_Z 0) with 0. lra. }
  cbv zeta. destruct boost; lia.
Qed.

(** The confidence of the two engulfing rules. *)
Lemma engulfing_confidence (b0 b1 : Q) (boost : bool) :
  0 <= b0 ->
  let size_ratio := b0 / py_max b1 (1 # 1000000000) in
  let conf := Z.min 100 (65 + py_int ((size_ratio - 1) * 20)) in
  (40 <= (if boost then Z.min 100 (conf + 10) else conf) <= 100)%Z.
Proof.
  intros H. cbv zeta.
  assert (0 <= b0 / py_max b1 (1 # 1000000000)).
  { apply Qle_shift_div_l; [apply floor_eps_pos | lra]. }
  assert (-20 <= py_int ((b0 / py_max b1 (1 # 1000000000) - 1) * 20))%Z.
  { apply py_int_ge; [lia|]. change (inject_Z (-20)) with (-20). lra. }
  destruct boost; lia.
Qed.

(** C10. Every pattern the detector returns has a confidence between 40
    and 100. *)
Theorem detect_patterns_full_confidence (df : frame) (volume_column : bool) :
  Forall (fun p => (40 <= confidence p <= 100)%Z)
         (detect_patterns_full df volume_column).
Proof.
  unfold detect_patterns_full.
  destruct (List.length df <? 3)%nat; [constructor|].
  destruct (get_candle df 0) as [c0|]; [|constructor].
  destruct (get_candle df 1) as [c1|]; [|constructor].
  destruct (get_candle df 2) as [c2|]; [|constructor].
  cbv zeta. rewrite sort_by_confidence_perm.
  repeat (apply Forall_app; split);
    apply Forall_if; intros Hc; cbn [confidence];
    repeat (apply andb_prop in Hc; destruct Hc as [Hc ?]); qprop.
  - apply long_candle_confidence; assumption.
  - apply long_candle_confidence; assumption.
  - unfold b2z. destruct (Qltb _ _), (_is_bull c0); lia.
  - unfold b2z. destruct (Qgtb _ _), (_is_bear c0); lia.
  - lia.
  - apply engulfing_confidence, body_nonneg.
  - apply engulfing_confidence, body_nonneg.
  - unfold b2z. destruct (Qgtb _ _); lia.
  - unfold b2z. destruct (Qgtb _ _); lia.
  - destruct (negb _); lia.
  - lia.
  - lia.
  - lia.
  - lia.
  - lia.
Qed.

(** Both ends of the range occur: a neutral doji has confidence 40, a
    long green candle that fills its range on heavy volume has 100. *)
Example doji_confidence_40 :
  map confidence (detect_patterns_full Scenarios.doji_frame true) = [40%Z].
Proof. vm_compute; reflexivity. Qed.

Example long_green_confidence_100 :
  In 100%Z (map confidence (detect_patterns_full Scenarios.marubozu_frame true)).
Proof. vm_compute. auto. Qed.

Lemma iloc_neg_last {A} (l : list A) :
  l <> [] -> exists x, iloc_neg l 1 = Some x.
Proof.
  intros Hn. unfold iloc_neg. destruct l as [|a l]; [contradiction|].
  cbn [List.length]. replace (1 <=? S (List.length l))%nat with true
    by (symmetry; apply Nat.leb_le; lia).
  destruct (nth_error (a :: l) (S (List.length l) - 1)) eqn:En; [eauto|].
  apply nth_error_None in En. cbn [List.length] in En. lia.
Qed.

End CandleAnalysisFacts.

Module ScannerFacts.
Import Scanner PyNumFacts.

(** ** Fibonacci zones *)

(** The price interval of a zone: measured up from the swing low in an
    uptrend, down from the swing high in a downtrend. *)
Lemma in_zone_spec (up : bool) (low high c r0 r1 : Q) :
  low < high -> r0 <= r1 ->
  in_zone (fp (if up then low else high) (if up then 1 else -1) (high - low))
          c (r0, r1) = true
  <-> (if up
       then low + (high - low) * r0 <= c <= low + (high - low) * r1
       else high - (high - low) * r1 <= c <= high - (high - low) * r0).
Proof.
  intros Hr H01.
  assert (Hm : (high - low) * r0 <= (high - low) * r1).
  { apply Qmult_le_l; lra. }
  unfold in_zone, fp, py_min, py_max. cbn [fst snd].
  rewrite andb_true_iff, !Qleb_le.
  destruct up.
  - qcase (Qltb (low + 1 * (high - low) * r1) (low + 1 * (high - low) * r0));
      qcase (Qgtb (low + 1 * (high - low) * r1) (low + 1 * (high - low) * r0));
      split; intros; lra.
  - qcase (Qltb (high + -1 * (high - low) * r1) (high + -1 * (high - low) * r0));
      qcase (Qgtb (high + -1 * (high - low) * r1) (high + -1 * (high - low) * r0));
      split; intros; lra.
Qed.

Lemma find_some_first {A} (p : A -> bool) (l : list A) (z : A) :
  find p l = Some z ->
  exists i, nth_error l i = Some z /\ p z = true
            /\ forall j z', (j < i)%nat -> nth_error l j = Some z' -> p z' = false.
Proof.
  induction l as [|a l IH]; cbn [find]; [discriminate|].
  destruct (p a) eqn:Ea.
  - intros H; injection H as E; subst a. exists 0%nat. repeat split; auto.
    intros j z' Hj; lia.
  - intros H. destruct (IH H) as (i & Hi & Hp & Hb).
    exists (S i). repeat split; auto.
    intros [|j] z' Hj Hn; cbn in Hn.
    + injection Hn as E; subst a. exact Ea.
    + apply (Hb j); [lia | exact Hn].
Qed.

Lemma find_none_all {A} (p : A -> bool) (l : list A) :
  find p l = None -> forall i z, nth_error l i = Some z -> p z = false.
Proof.
  induction l as [|a l IH]; cbn [find]; intros H [|i] z Hn; cbn in Hn;
    try discriminate.
  - injection Hn as E; subst a. destruct (p z); [discriminate | reflexivity].
  - destruct (p a); [discriminate|]. eapply IH; eauto.
Qed.

(** For the zone [(r0, r1)] of the table and the direction [u], record
    whether the scan finds the price in it and what that means. *)
Ltac zone_fact u low high c r0 r1 Hr :=
  let Z := fresh "Z" in
  let E := fresh "E" in
  let X := fresh "X" in
  assert (Z := in_zone_spec u low high c r0 r1 Hr ltac:(lra));
  cbv iota in Z;
  match type of Z with
  | ?b = true <-> ?P =>
      destruct b eqn:E;
      [ assert P by (apply Z; reflexivity)
      | assert (~ P) by (intros X; apply Z in X; discriminate X) ];
      clear Z
  end.

(** The scan stopped at zone [k]: no lower zone holds the price, and a
    higher one does only next door, on the shared boundary. *)
Ltac zone_found u low high c Hr k :=
  exists k; eexists;
  split; [reflexivity|];
  split; [unfold locate_zone, fib_zones; cbn [find];
          repeat match goal with
                 | H : in_zone _ _ _ = _ |- _ => rewrite H
                 end;
          reflexivity|];
  split; [assumption|];
  let j := fresh "j" in
  let z' := fresh "z'" in
  let Hn := fresh "Hn" in
  let Hz := fresh "Hz" in
  intros j z' Hn Hz; unfold fib_zones in Hn;
  do 6 (destruct j as [|j];
        [ cbn in Hn; injection Hn as Hn; subst z';
          apply (in_zone_spec u low high c) in Hz; [|assumption|lra];
          cbv iota in Hz;
          first [ solve [ split;
                          [ lia
                          | let N := fresh in
                            intros N;
                            first [ congruence
                                  | split; [lia | unfold fp; cbn [snd]; lra] ] ] ]
                | solve [ exfalso; lra ] ]
        | cbn in Hn ]);
  destruct j; discriminate Hn.

Ltac zone_scan u low high c Hr :=
  cbv iota;
  zone_fact u low high c 0.0 0.236 Hr; [zone_found u low high c Hr 0%nat|];
  zone_fact u low high c 0.236 0.382 Hr; [zone_found u low high c Hr 1%nat|];
  zone_fact u low high c 0.382 0.5 Hr; [zone_found u low high c Hr 2%nat|];
  zone_fact u low high c 0.5 0.618 Hr; [zone_found u low high c Hr 3%nat|];
  zone_fact u low high c 0.618 0.786 Hr; [zone_found u low high c Hr 4%nat|];
  zone_fact u low high c 0.786 1.0 Hr; [zone_found u low high c Hr 5%nat|];
  exfalso; lra.

(** In exact arithmetic, with a nonzero range and the current price
    between swing low and swing high, the zone scan finds a zone; it is
    the lowest-numbered zone that contains the price; and any other zone
    that contains the price is the next one, the price then lying
    exactly on the boundary the two share.  On doubles the levels are
    rounded: see [ScannerDoubleFacts]. *)
Lemma fib_zone_first_match_exact (up : bool) (low high c : Q) :
  low < high -> low <= c <= high ->
  let f := fp (if up then low else high) (if up then 1 else -1) (high - low) in
  exists i z,
    nth_error fib_zones i = Some z
    /\ locate_zone f c = Some z
    /\ in_zone f c z = true
    /\ forall j z',
         nth_error fib_zones j = Some z' -> in_zone f c z' = true ->
         (i <= j)%nat /\ (j <> i -> j = S i /\ c == f (snd z)).
Proof.
  intros Hr Hc f. subst f.
  destruct up; [zone_scan true low high c Hr | zone_scan false low high c Hr].
Qed.

(** ** Stop-loss side *)

Lemma swing_stop_loss_side (up : bool) (f : Q -> Q) (current : Q) (atr : pyfloat) :
  0 < current ->
  if up then swing_stop_loss up f current atr < current
  else current < swing_stop_loss up f current atr.
Proof.
  intros Hc. unfold swing_stop_loss. destruct up.
  - match goal with |- py_min ?a ?b < _ => pose proof (py_min_le_r a b) end. lra.
  - match goal with |- _ < py_max ?a ?b => pose proof (py_max_ge_r a b) end. lra.
Qed.

Lemma intraday_stop_loss_side (up : bool) (current atr : Q) :
  0 < current ->
  if up then intraday_stop_loss up current atr < current
  else current < intraday_stop_loss up current atr.
Proof.
  intros Hc. unfold intraday_stop_loss. destruct up.
  - match goal with |- py_min ?a ?b < _ => pose proof (py_min_le_r a b) end. lra.
  - match goal with |- _ < py_max ?a ?b => pose proof (py_max_ge_r a b) end. lra.
Qed.

(** Follow one successful run of a scan task through its early exits. *)
Ltac pass x := destruct x eqn:?; cbv beta iota; try discriminate.

Lemma scan_one_stop_loss sym df r :
  _scan_one sym df = Some r ->
  exists last,
    iloc_neg df 1 = Some last
    /\ 0 < Close last
    /\ (if is_uptrend r then stop_loss r < Close last
        else Close last < stop_loss r).
Proof.
  unfold _scan_one. cbv zeta.
  pass (List.length df <? 15)%nat.
  pass (iloc_neg df 1).
  pass (Qleb (Close r0) 0).
  pass (Qleb (maxQ (map High df) - minQ (map Low df)) 0).
  pass (swing_trend df r0).
  pass (nearest_key
          (fp (if b then minQ (map Low df) else maxQ (map High df))
              (if b then 1 else -1) (maxQ (map High df) - minQ (map Low df)))
          (Close r0)).
  pass (pydiv (Close r0 - q) q).
  match goal with |- context [pydiv ?a ?b] => pass (pydiv a b) end.
  pass (Signals.calculate_signal_score df). pass p.
  intros H. injection H as <-. cbn [is_uptrend stop_loss].
  exists r0. qprop. repeat split; auto.
  apply swing_stop_loss_side. assumption.
Qed.

Lemma scan_intraday_stop_loss sym df r :
  _scan_intraday sym df = Some r ->
  exists last,
    iloc_neg df 1 = Some last
    /\ 0 < Close last
    /\ (if is_uptrend r then stop_loss r < Close last
        else Close last < stop_loss r).
Proof.
  unfold _scan_intraday. cbv zeta.
  pass (List.length df <? 10)%nat.
  pass (iloc_neg df 1).
  pass (Qleb (Close r0) 0).
  match goal with |- context [Qltb ?a (Close r0 * 0.001)] =>
    pass (Qltb a (Close r0 * 0.001)) end.
  pass (intraday_trend df r0).
  match goal with |- context [nearest_key ?a ?b] => pass (nearest_key a b) end.
  pass (pydiv (Close r0 - q) q).
  match goal with |- context [pydiv ?a ?b] => pass (pydiv a b) end.
  pass (_intraday_signal_score df). pass p. pass p0.
  match goal with |- context [pydiv ?a ?b] => pass (pydiv a b) end.
  match goal with |- context [pydiv ?a ?b] => pass (pydiv a b) end.
  intros H. injection H as <-. cbn [is_uptrend stop_loss].
  exists r0. qprop. repeat split; auto.
  apply intraday_stop_loss_side. assumption.
Qed.


(** C3 (as amended). A scan result, swing or intraday, has its
    stop-loss strictly below the latest close when the detected trend is
    up and strictly above it when the trend is down. The target
    calculator detects no trend: for non-negative prices and ATR its
    stop-loss is at or below its buy-zone low. *)
Theorem stop_loss_side_of_price :
  (forall sym df r,
     _scan_one sym df = Some r ->
     exists last,
       iloc_neg df 1 = Some last /\ 0 < Close last
       /\ (if is_uptrend r then stop_loss r < Close last
           else Close last < stop_loss r))
  /\ (forall sym df r,
        _scan_intraday sym df = Some r ->
        exists last,
          iloc_neg df 1 = Some last /\ 0 < Close last
          /\ (if is_uptrend r then stop_loss r < Close last
              else Close last < stop_loss r))
  /\ (forall df current_price t last,
        Signals.calculate_price_targets df current_price = Some t ->
        iloc_neg df 1 = Some last ->
        0 <= current_price ->
        Forall (fun r => 0 <= Close r) df ->
        (forall a, ATR last = Some (Fin a) -> 0 <= a) ->
        Signals.stop_loss t <= Signals.buy_low t).
Proof.
  split; [exact scan_one_stop_loss|].
  split; [exact scan_intraday_stop_loss|].
  exact SignalsFacts.stop_loss_below_buy_zone.
Qed.

(** In a falling market (falling closes under a falling EMA50) the
    target calculator still puts the stop-loss below the price. *)
Lemma target_stop_loss_below_price_in_downtrend :
  exists t last,
    Signals.calculate_price_targets Scenarios.falling_frame 100 = Some t
    /\ iloc_neg Scenarios.falling_frame 1 = Some last
    /\ Close last == 100
    /\ swing_trend Scenarios.falling_frame last = Some false
    /\ ~ 100 < Signals.stop_loss t.
Proof.
  eexists; eexists;
    (split; [vm_compute; reflexivity|]);
    (split; [vm_compute; reflexivity|]);
    (split; [vm_compute; reflexivity|]);
    (split; [vm_compute; reflexivity|]);
    intros H; vm_compute in H; discriminate H.
Qed.

Lemma stop_loss_side_of_price_witness :
  (exists r last,
     _scan_one "PTT" Scenarios.slow_rise_frame = Some r
     /\ iloc_neg Scenarios.slow_rise_frame 1 = Some last
     /\ (if is_uptrend r then stop_loss r < Close last
         else Close last < stop_loss r))
  /\ (exists r last,
        _scan_intraday "PTT" Scenarios.intraday_frame = Some r
        /\ iloc_neg Scenarios.intraday_frame 1 = Some last
        /\ (if is_uptrend r then stop_loss r < Close last
            else Close last < stop_loss r))
  /\ (exists t,
        Signals.calculate_price_targets Scenarios.falling_frame 100 = Some t
        /\ Signals.stop_loss t <= Signals.buy_low t).
Proof.
  destruct stop_loss_side_of_price as (A & B & C).
  split; [|split].
  - assert (E : exists r, _scan_one "PTT" Scenarios.slow_rise_frame = Some r)
      by (eexists; vm_compute; reflexivity).
    destruct E as [r E]. destruct (A _ _ _ E) as (last & Hl & _ & Hs).
    exists r, last. auto.
  - assert (E : exists r,
               _scan_intraday "PTT" Scenarios.intraday_frame = Some r)
      by (eexists; vm_compute; reflexivity).
    destruct E as [r E]. destruct (B _ _ _ E) as (last & Hl & _ & Hs).
    exists r, last. auto.
  - eexists. split; [vm_compute; reflexivity|].
    eapply (C Scenarios.falling_frame 100).
    + vm_compute; reflexivity.
    + vm_compute; reflexivity.
    + apply Qle_bool_iff; reflexivity.
    + apply Forall_forall. intros r Hr. apply Qle_bool_iff.
      revert r Hr. apply forallb_forall. vm_compute; reflexivity.
    + intros a Ha. vm_compute in Ha. injection Ha as <-.
      apply Qle_bool_iff; reflexivity.
Defined.

(** In exact arithmetic, on the 23.6% line of a 10-to-20 uptrend swing
    the scan answers the first zone, although the second holds the
    price as well. *)
Example boundary_goes_to_lower_zone :
  locate_zone (fp 10 1 (20 - 10)) 12.36 = Some (0.0, 0.236)
  /\ in_zone (fp 10 1 (20 - 10)) 12.36 (0.236, 0.382) = true.
Proof. split; vm_compute; reflexivity. Qed.

(** ** Progress reporting *)

(** What a run of the completion loop adds to the callback log, for any
    accumulator and any way of folding a result in. *)
Section ProgressLoop.
Context {R T : Type}.
Variable total : nat.
Variable label : T -> string.
Variable step : LoopState R -> T * Outcome -> LoopState R.
Hypothesis step_done : forall st fut, done (step st fut) = S (done st).
Hypothesis step_calls : forall st fut,
  calls (step st fut) = calls st ++ [mkCall (S (done st)) total (label (fst fut))].

Lemma loop_calls (completed : list (T * Outcome)) : forall st,
  let st' := fold_left step completed st in
  done st' = (done st + List.length completed)%nat
  /\ map completed_count (calls st')
     = map completed_count (calls st)
       ++ seq (S (done st)) (List.length completed)
  /\ map total_count (calls st')
     = map total_count (calls st) ++ repeat total (List.length completed)
  /\ map call_label (calls st')
     = map call_label (calls st) ++ map (fun fut => label (fst fut)) completed.
Proof.
  induction completed as [|fut completed IH]; intros st; cbn [fold_left].
  - cbn. rewrite !app_nil_r. repeat split; lia.
  - destruct (IH (step st fut)) as (D & C & T' & L).
    cbv zeta. rewrite D, C, T', L, step_done, step_calls, !map_app.
    cbn [map List.length seq repeat completed_count total_count call_label].
    rewrite <- !app_assoc. cbn [app]. repeat split. lia.
Qed.

End ProgressLoop.

Lemma scan_iteration_done total st fut :
  done (scan_iteration total true st fut) = S (done st).
Proof. unfold scan_iteration. destruct (snd fut) as [[r|]|]; reflexivity. Qed.

Lemma scan_iteration_calls total st fut :
  calls (scan_iteration total true st fut)
  = calls st ++ [mkCall (S (done st)) total (fst fut)].
Proof. unfold scan_iteration. destruct (snd fut) as [[r|]|]; reflexivity. Qed.

Lemma mtf_iteration_done total st fut :
  done (mtf_iteration total true st fut) = S (done st).
Proof.
  unfold mtf_iteration. destruct (fst fut) as [sym p].
  destruct (snd fut) as [[r|]|]; reflexivity.
Qed.

Lemma mtf_iteration_calls total st fut :
  calls (mtf_iteration total true st fut)
  = calls st
    ++ [mkCall (S (done st)) total (task_label (fst (fst fut)) (snd (fst fut)))].
Proof.
  unfold mtf_iteration. destruct (fst fut) as [sym p].
  destruct (snd fut) as [[r|]|]; reflexivity.
Qed.

Lemma mtf_tasks_length symbols periods :
  List.length (mtf_tasks symbols periods)
  = (List.length symbols * List.length periods)%nat.
Proof.
  unfold mtf_tasks. induction symbols as [|s symbols IH]; cbn; [reflexivity|].
  rewrite length_app, length_map, IH. reflexivity.
Qed.

(** C7. Whatever the order in which the tasks complete and whatever
    each of them yields (a row, nothing, or an exception), a provided
    progress callback is called once per submitted task: the k-th call
    carries k, the number of submitted tasks, and the label of the task
    that completed k-th. *)
Theorem progress_callback_once_per_task :
  (forall (symbols : list string) (min_fib_score min_rr : Q)
          (completed : list (string * Outcome)),
      Permutation (map fst completed) symbols ->
      let n := List.length symbols in
      let log := snd (run_fibonacci_scan symbols min_fib_score min_rr true
                                         completed) in
      List.length log = n
      /\ map completed_count log = seq 1 n
      /\ map total_count log = repeat n n
      /\ map call_label log = map fst completed)
  /\ (forall (symbols periods : list string) (min_fib_score min_rr : Q)
             (completed : list ((string * string) * Outcome)),
        Permutation (map fst completed) (mtf_tasks symbols periods) ->
        let n := (List.length symbols * List.length periods)%nat in
        let log := snd (run_multi_timeframe_scan symbols periods min_fib_score
                                                 min_rr true completed) in
        List.length log = n
        /\ map completed_count log = seq 1 n
        /\ map total_count log = repeat n n
        /\ map call_label log
           = map (fun fut => task_label (fst (fst fut)) (snd (fst fut)))
                 completed).
Proof.
  split.
  - intros symbols a b completed Hp. cbv zeta.
    unfold run_fibonacci_scan. cbn [snd].
    assert (Hn : List.length completed = List.length symbols).
    { rewrite <- (Permutation_length Hp), length_map. reflexivity. }
    destruct (loop_calls (List.length symbols) (fun s => s)
                (scan_iteration (List.length symbols) true)
                (scan_iteration_done _) (scan_iteration_calls _)
                completed (mkLoop 0%nat [] [])) as (_ & C & T & L).
    cbn [calls done map app] in C, T, L. rewrite Hn in C, T.
    repeat split; auto.
    rewrite <- (length_map completed_count), C, length_seq. reflexivity.
  - intros symbols periods a b completed Hp. cbv zeta.
    unfold run_multi_timeframe_scan. cbn [snd].
    rewrite mtf_tasks_length.
    assert (Hn : List.length completed
                 = (List.length symbols * List.length periods)%nat).
    { rewrite <- mtf_tasks_length, <- (Permutation_length Hp), length_map.
      reflexivity. }
    destruct (loop_calls (List.length symbols * List.length periods)
                (fun t => task_label (fst t) (snd t))
                (mtf_iteration (List.length symbols * List.length periods) true)
                (mtf_iteration_done _) (mtf_iteration_calls _)
                completed (mkLoop 0%nat [] [])) as (_ & C & T & L).
    cbn [calls done map app] in C, T, L. rewrite Hn in C, T.
    repeat split; auto.
    rewrite <- (length_map completed_count), C, length_seq. reflexivity.
Qed.

(** Five symbols, two of which fail: five calls, and with a minimum
    score of 55 only the 80-scorer is returned. *)
Lemma progress_callback_once_per_task_witness :
  let out := run_fibonacci_scan Scenarios.five_symbols 55 1 true
                                Scenarios.five_completed in
  List.length (snd out) = 5%nat
  /\ map completed_count (snd out) = [1; 2; 3; 4; 5]%nat
  /\ map symbol (fst out) = ["BBL"%string].
Proof.
  cbv zeta.
  destruct (proj1 progress_callback_once_per_task Scenarios.five_symbols 55 1
              Scenarios.five_completed) as (H1 & H2 & _).
  - vm_compute.
    apply (Permutation_cons_app ["PTT"; "AOT"]%string ["CPALL"; "BBL"]%string).
    apply perm_skip.
    apply (Permutation_cons_app ["AOT"; "CPALL"]%string []).
    apply perm_swap.
  - split; [exact H1 | split; [exact H2 | vm_compute; reflexivity]].
Defined.

(** ** Multi-timeframe merge *)


Lemma zone_name_same z :
  valid_zone z -> zone_name_intraday z = zone_name_swing z.
Proof.
  destruct z as [z|]; cbn [valid_zone]; [|intros _; reflexivity].
  unfold fib_zones. cbn [In].
  intros [<-|[<-|[<-|[<-|[<-|[<-|[]]]]]]]; vm_compute; reflexivity.
Qed.







(** A whole multi-timeframe run for one symbol: three callbacks, and a
    single row built on the 6-month result, with two of its three
    periods at or above the minimum score of 55. *)
Example multi_timeframe_run :
  let out := run_multi_timeframe_scan ["PTT"%string]
               ["3mo"; "6mo"; "1y"]%string 55 1 true Scenarios.mtf_completed in
  map call_label (snd out)
  = ["PTT (1y)"; "PTT (3mo)"; "PTT (6mo)"]%string
  /\ map (fun r => (passed_tfs r, n_periods r, mtf_grade r)) (fst out)
     = [(2%nat, 3%nat, GradeBplus)]
  /\ map (fun r => fib_score (primary r)) (fst out) = [60].
Proof. vm_compute. repeat split; reflexivity. Qed.

End ScannerFacts.

(* ================================================================== *)
(** * Further properties *)
(* ================================================================== *)

Module HelperFacts.
Import PyNumFacts.
Open Scope Q_scope.

(** ** Rounding *)

Lemma py_round_comp x y n : x == y -> py_round x n = py_round y n.
Proof.
  intros H. unfold py_round.
  rewrite (round_half_even_comp (x * pow10 n) (y * pow10 n)); [reflexivity|].
  rewrite H. reflexivity.
Qed.

Lemma py_round_zero n : py_round 0 n == 0.
Proof.
  unfold py_round.
  rewrite (round_half_even_comp (0 * pow10 n) (inject_Z 0)) by ring.
  rewrite round_half_even_Z. unfold Qdiv. change (inject_Z 0) with 0. ring.
Qed.

Lemma py_round_nonpos x n : x <= 0 -> py_round x n <= 0.
Proof.
  intros H. rewrite <- (py_round_zero n). apply py_round_mono, H.
Qed.

Lemma py_round_nonneg x n : 0 <= x -> 0 <= py_round x n.
Proof.
  intros H. rewrite <- (py_round_zero n). apply py_round_mono, H.
Qed.

(** ** Sorting with [sort_before] *)

Section SortBefore.
Context {A : Type}.
Variable before : A -> A -> bool.
Variable R : A -> A -> Prop.
Hypothesis R_trans : forall x y z, R x y -> R y z -> R x z.
Hypothesis before_true : forall x y, before x y = true -> R x y.
Hypothesis before_false : forall x y, before x y = false -> R y x.

Lemma insert_before_ordered x l :
  StronglySorted R l -> StronglySorted R (insert_before before x l).
Proof.
  induction l as [|y l IH]; intros Hs; cbn.
  - repeat constructor.
  - inversion Hs as [|? ? Hs' Hall]; subst.
    destruct (before x y) eqn:E.
    + constructor; [assumption|]. constructor.
      * apply before_true, E.
      * eapply Forall_impl; [|exact Hall]. intros a Ha.
        eapply R_trans; [apply before_true, E|exact Ha].
    + constructor; [apply IH; assumption|].
      rewrite (insert_before_perm before x l).
      constructor; [apply before_false, E | assumption].
Qed.

Lemma sort_before_ordered l : StronglySorted R (sort_before before l).
Proof.
  unfold sort_before.
  enough (H : forall acc,
             StronglySorted R acc ->
             StronglySorted R
               (fold_left (fun a x => insert_before before x a) l acc))
    by (apply H; constructor).
  induction l as [|x l IH]; intros acc Hs; cbn [fold_left]; [exact Hs|].
  apply IH, insert_before_ordered, Hs.
Qed.

End SortBefore.

End HelperFacts.

Module IndicatorColumnFacts.
Import Indicators PyNumFacts HelperFacts.
Open Scope Q_scope.

(** ** Exponential averages *)



Lemma ewm_from_bounds alpha lo hi y xs :
  0 <= alpha <= 1 -> lo <= y <= hi ->
  Forall (fun x => lo <= x <= hi) xs ->
  Forall (fun v => lo <= v <= hi) (ewm_from alpha y xs).
Proof.
  intros Ha. revert y. induction xs as [|x xs IH]; intros y Hy Hx;
    cbn [ewm_from]; [constructor|].
  inversion Hx as [|? ? Hx0 Hxs]; subst.
  assert (Hy' : lo <= (1 - alpha) * y + alpha * x <= hi) by (split; nra).
  constructor; [exact Hy'|]. apply IH; assumption.
Qed.

Lemma ewm_mean_bounds alpha lo hi xs :
  0 <= alpha <= 1 ->
  Forall (fun x => lo <= x <= hi) xs ->
  Forall (fun v => lo <= v <= hi) (ewm_mean alpha xs).
Proof.
  intros Ha Hx. destruct xs as [|x xs]; cbn; [constructor|].
  inversion Hx; subst. constructor; [assumption|].
  apply ewm_from_bounds; assumption.
Qed.



(** ** ATR *)

Lemma maxQ3_ge_second a b c : b <= maxQ [a; b; c].
Proof.
  unfold maxQ. cbn [fold_left].
  qcase (Qltb a b); match goal with |- context [Qltb ?m c] => qcase (Qltb m c) end; lra.
Qed.

Lemma true_range_from_nonneg pc bars :
  Forall (fun v => 0 <= v) (true_range_from pc bars).
Proof.
  revert pc. induction bars as [|[[h l] c] bars IH]; intros pc;
    cbn [true_range_from]; constructor; [|apply IH].
  pose proof (maxQ3_ge_second (h - l) (Qabs (h - pc)) (Qabs (l - pc))).
  pose proof (Qabs_nonneg (h - pc)). lra.
Qed.

Lemma true_range_nonneg high low close :
  Forall2 Qle low high -> Forall (fun v => 0 <= v) (true_range high low close).
Proof.
  intros H. unfold true_range.
  destruct H as [|l h low high Hlh H]; [cbn; constructor|].
  destruct close as [|c close]; cbn [combine]; constructor;
    [lra|apply true_range_from_nonneg].
Qed.

Lemma with_min_periods_nth_from n s ys i v :
  nth_error
    (map (fun iy => if (n <=? S (fst iy))%nat then Fin (snd iy) else NaN)
         (combine (seq s (List.length ys)) ys)) i = Some v ->
  exists y, nth_error ys i = Some y
            /\ v = if (n <=? S (s + i))%nat then Fin y else NaN.
Proof.
  revert s i. induction ys as [|y ys IH]; intros s i; cbn [List.length seq combine map].
  - destruct i; discriminate.
  - destruct i as [|i]; cbn [nth_error fst snd].
    + intros H; injection H as <-. exists y. rewrite Nat.add_0_r. auto.
    + intros H. apply IH in H as (y' & Hy & Hv). exists y'.
      replace (s + S i)%nat with (S s + i)%nat by lia. auto.
Qed.

Lemma with_min_periods_nth n ys i v :
  nth_error (with_min_periods n ys) i = Some v ->
  exists y, nth_error ys i = Some y
            /\ v = if (n <=? S i)%nat then Fin y else NaN.
Proof. apply with_min_periods_nth_from. Qed.

Lemma period_alpha (length : nat) :
  (1 <= length)%nat -> 0 <= 1 / inject_Z (Z.of_nat length) <= 1.
Proof.
  intros H.
  assert (Hn : 1 <= inject_Z (Z.of_nat length)).
  { change 1 with (inject_Z 1). rewrite <- Zle_Qle. lia. }
  split.
  - apply Qle_shift_div_l; lra.
  - apply Qle_shift_div_r; lra.
Qed.

Lemma Forall_nonneg_bounds xs :
  Forall (fun v => 0 <= v) xs ->
  exists hi, Forall (fun v => 0 <= v <= hi) xs.
Proof.
  induction 1 as [|x xs Hx Hxs IH]; [exists 0; constructor|].
  destruct IH as [hi IH]. exists (Qmax x hi). constructor.
  - split; [exact Hx|apply Q.le_max_l].
  - eapply Forall_impl; [|exact IH]. intros a [Ha1 Ha2]. split; [exact Ha1|].
    eapply Qle_trans; [exact Ha2|apply Q.le_max_r].
Qed.

(** X15. For a period of at least one bar and bars whose low is not above
    their high, the ATR of row i is undefined exactly during the warm-up
    (i + 1 < period) and is never negative once defined. *)
Theorem atr_defined_after_warmup_and_nonneg
    (high low close : list Q) (length i : nat) (v : pyfloat) :
  (1 <= length)%nat ->
  Forall2 Qle low high ->
  nth_error (_atr high low close length) i = Some v ->
  (isna v = true <-> (S i < length)%nat)
  /\ (forall a, v = Fin a -> 0 <= a).
Proof.
  intros Hl Hlh Hv. unfold _atr in Hv.
  apply with_min_periods_nth in Hv as (y & Hy & ->).
  destruct (Forall_nonneg_bounds _ (true_range_nonneg high low close Hlh))
    as [hi Hb].
  pose proof (ewm_mean_bounds _ 0 hi _ (period_alpha length Hl) Hb) as He.
  apply nth_error_In in Hy. rewrite Forall_forall in He.
  specialize (He _ Hy). destruct He as [Hy0 _].
  destruct (length <=? S i)%nat eqn:E;
    [apply Nat.leb_le in E|apply Nat.leb_gt in E]; cbn [isna]; split.
  - split; [discriminate|lia].
  - intros a Ha. injection Ha as <-. exact Hy0.
  - split; [intros _; lia|reflexivity].
  - intros a Ha. discriminate.
Qed.

(** ** RSI *)

Lemma ewm_adjusted_from_nonneg alpha w old xs :
  0 <= alpha <= 1 -> 0 <= w -> 0 <= old ->
  Forall (fun x => 0 <= x) xs ->
  Forall (fun v => 0 <= v) (ewm_adjusted_from alpha w old xs).
Proof.
  intros Ha Hw Ho Hx. revert w old Hw Ho.
  induction Hx as [|x xs Hx0 Hx IH]; intros w old Hw Ho;
    cbn [ewm_adjusted_from]; constructor.
  - assert (0 <= old * (1 - alpha)) by (apply Qmult_le_0_compat; lra).
    apply Qle_shift_div_l; [lra|].
    assert (0 <= old * (1 - alpha) * w) by (apply Qmult_le_0_compat; lra).
    lra.
  - assert (0 <= old * (1 - alpha)) by (apply Qmult_le_0_compat; lra).
    apply IH; [|lra].
    apply Qle_shift_div_l; [lra|].
    assert (0 <= old * (1 - alpha) * w) by (apply Qmult_le_0_compat; lra).
    lra.
Qed.

Lemma ewm_adjusted_nonneg alpha xs :
  0 <= alpha <= 1 ->
  Forall (fun x => 0 <= x) xs ->
  Forall (fun v => 0 <= v) (ewm_adjusted alpha xs).
Proof.
  intros Ha Hx. destruct Hx as [|x xs Hx0 Hx]; cbn [ewm_adjusted];
    constructor; [exact Hx0|].
  apply ewm_adjusted_from_nonneg; (assumption || lra).
Qed.

Lemma with_min_periods_nonneg n ys :
  Forall (fun v => 0 <= v) ys ->
  Forall (fun v => match v with Fin a => 0 <= a | NaN => True end)
         (with_min_periods n ys).
Proof.
  intros H. apply Forall_forall. intros v Hv.
  apply In_nth_error in Hv as [i Hi].
  apply with_min_periods_nth in Hi as (y & Hy & ->).
  destruct (n <=? S i)%nat; [|exact I].
  apply nth_error_In in Hy. rewrite Forall_forall in H. apply H, Hy.
Qed.

Lemma rsi_value_range g l :
  match g with Fin a => 0 <= a | NaN => True end ->
  match l with Fin a => 0 <= a | NaN => True end ->
  match rsi_value g l with Fin r => 0 <= r <= 100 | NaN => True end.
Proof.
  destruct g as [|g], l as [|l]; cbn [rsi_value]; try tauto.
  intros Hg Hl. qcase (Qeqb l 0); [exact I|].
  assert (Hlp : 0 < l).
  { destruct (Qlt_le_dec 0 l); [assumption|]. exfalso. apply E. lra. }
  assert (Hrs : 0 <= g / l) by (apply Qle_shift_div_l; lra).
  assert (Hq : 0 < 100 / (1 + g / l) <= 100).
  { split.
    - apply Qlt_shift_div_l; lra.
    - apply Qle_shift_div_r; lra. }
  lra.
Qed.

Lemma Forall_combine_map {A B C} (P : A -> Prop) (R : B -> Prop) (S : C -> Prop)
    (f : A * B -> C) la lb :
  Forall P la -> Forall R lb ->
  (forall a b, P a -> R b -> S (f (a, b))) ->
  Forall S (map f (combine la lb)).
Proof.
  intros Ha. revert lb. induction Ha as [|a la Ha0 Ha IH]; intros lb Hb Hf;
    cbn; [constructor|].
  destruct Hb as [|b lb Hb0 Hb]; cbn; constructor; auto.
Qed.

(** X16. For a period of at least one bar every defined RSI value lies
    between 0 and 100, both included: in double precision
    [100 - 100 / (1 + rs)] reaches 100 itself once [rs] is large. *)
Theorem rsi_between_0_and_100 (series : list Q) (length : nat) :
  (1 <= length)%nat ->
  Forall (fun v => match v with Fin r => 0 <= r <= 100 | NaN => True end)
         (_rsi series length).
Proof.
  intros Hl. unfold _rsi. destruct series as [|x0 rest]; [constructor|].
  cbv zeta. constructor; [exact I|].
  pose proof (period_alpha length Hl) as Ha.
  apply (Forall_combine_map
           (fun v => match v with Fin a => 0 <= a | NaN => True end)
           (fun v => match v with Fin a => 0 <= a | NaN => True end)).
  - apply with_min_periods_nonneg, ewm_adjusted_nonneg; [exact Ha|].
    apply Forall_map, Forall_forall. intros d _. unfold clip_lower.
    qcase (Qltb d 0); lra.
  - apply with_min_periods_nonneg, ewm_adjusted_nonneg; [exact Ha|].
    apply Forall_map, Forall_forall. intros d _. unfold clip_upper.
    qcase (Qltb 0 d); lra.
  - intros g l Hg Hl'. cbn [fst snd]. apply rsi_value_range; assumption.
Qed.

Lemma diff_from_sorted prev xs :
  Sorted Qle (prev :: xs) -> Forall (fun d => 0 <= d) (diff_from prev xs).
Proof.
  revert prev. induction xs as [|x xs IH]; intros prev H; cbn [diff_from];
    [constructor|].
  inversion H as [|? ? Hs Hh]; subst. inversion Hh; subst.
  constructor; [lra|apply IH, Hs].
Qed.

Lemma ewm_adjusted_from_zero alpha w old xs :
  w == 0 -> Forall (fun x => x == 0) xs ->
  Forall (fun v => v == 0) (ewm_adjusted_from alpha w old xs).
Proof.
  intros Hw Hx. revert w old Hw.
  induction Hx as [|x xs Hx0 Hx IH]; intros w old Hw;
    cbn [ewm_adjusted_from]; constructor.
  - rewrite Hw, Hx0. unfold Qdiv. ring.
  - apply IH. rewrite Hw, Hx0. unfold Qdiv. ring.
Qed.

Lemma ewm_adjusted_zero alpha xs :
  Forall (fun x => x == 0) xs -> Forall (fun v => v == 0) (ewm_adjusted alpha xs).
Proof.
  intros H. destruct H as [|x xs Hx0 Hx]; cbn [ewm_adjusted]; constructor;
    [exact Hx0|apply ewm_adjusted_from_zero; assumption].
Qed.

Lemma with_min_periods_zero n ys :
  Forall (fun v => v == 0) ys ->
  Forall (fun v => match v with Fin a => a == 0 | NaN => True end)
         (with_min_periods n ys).
Proof.
  intros H. apply Forall_forall. intros v Hv.
  apply In_nth_error in Hv as [i Hi].
  apply with_min_periods_nth in Hi as (y & Hy & ->).
  destruct (n <=? S i)%nat; [|exact I].
  apply nth_error_In in Hy. rewrite Forall_forall in H. apply H, Hy.
Qed.

(** X17. On closes that never fall the RSI is undefined on every row: the
    average loss is zero, and the code replaces a zero average loss by
    an undefined value before dividing. *)
Theorem rsi_undefined_without_losses (series : list Q) (length : nat) :
  Sorted Qle series ->
  Forall (fun v => v = NaN) (_rsi series length).
Proof.
  intros Hs. unfold _rsi. destruct series as [|x0 rest]; [constructor|].
  cbv zeta. constructor; [reflexivity|].
  apply (Forall_combine_map
           (fun _ => True)
           (fun v => match v with Fin a => a == 0 | NaN => True end)).
  - apply Forall_forall. intros; exact I.
  - apply with_min_periods_zero, ewm_adjusted_zero.
    apply Forall_map. eapply Forall_impl; [|apply diff_from_sorted, Hs].
    intros d Hd. cbn beta in *. unfold clip_upper. qcase (Qltb 0 d); lra.
  - intros g l _ Hl. cbn [fst snd]. unfold rsi_value.
    destruct g as [|g]; [reflexivity|]. destruct l as [|l]; [reflexivity|].
    qcase (Qeqb l 0); [reflexivity|contradiction].
Qed.

(** ** Candlestick patterns *)

Lemma bull_bear_exclusive c : is_bull c = true -> is_bear c = true -> False.
Proof. unfold is_bull, is_bear. intros; qprop; lra. Qed.

(** X18. The basic candlestick detector never reports a pattern together
    with its mirror image (Hammer and Shooting Star, Bullish and
    Bearish Engulfing, Morning and Evening Star), reports at most four
    patterns, and none on fewer than three bars. *)
Theorem candlestick_mirror_patterns_exclusive (df : frame) :
  let names := map fst (detect_candlestick_patterns df) in
  ~ (In Hammer names /\ In ShootingStar names)
  /\ ~ (In BullishEngulfing names /\ In BearishEngulfing names)
  /\ ~ (In MorningStar names /\ In EveningStar names)
  /\ (List.length names <= 4)%nat
  /\ ((List.length df < 3)%nat -> names = []).
Proof.
  cbv zeta. unfold detect_candlestick_patterns.
  destruct (iloc_neg df 3) as [c1|] eqn:E3.
  2:{ cbn. repeat split; try tauto; try lia. }
  destruct (iloc_neg df 2) as [c2|]; [|cbn; repeat split; try tauto; lia].
  destruct (iloc_neg df 1) as [c3|]; [|cbn; repeat split; try tauto; lia].
  assert (Hlen : ~ (List.length df < 3)%nat).
  { unfold iloc_neg in E3. destruct (3 <=? List.length df)%nat eqn:E;
      [apply Nat.leb_le in E; lia|discriminate]. }
  pose proof (bull_bear_exclusive c2) as X2.
  pose proof (bull_bear_exclusive c1) as X1.
  pose proof (bull_bear_exclusive c3) as X3.
  destruct (is_bull c1), (is_bear c1); try (exfalso; auto; fail);
  destruct (is_bull c2), (is_bear c2); try (exfalso; auto; fail);
  destruct (is_bull c3), (is_bear c3); try (exfalso; auto; fail);
  rewrite ?andb_false_r, ?andb_true_r; cbn [andb];
  repeat match goal with
         | |- context [if ?b then _ else _] => destruct b
         end;
  cbn; (repeat split; [intuition discriminate..|lia|intros; lia]).
Qed.

(** ** Concrete columns *)


Lemma atr_defined_after_warmup_and_nonneg_witness :
  exists v,
    nth_error (_atr [11; 12; 13] [9; 10; 11] [10; 11; 12] 2) 1 = Some v
    /\ (isna v = true <-> (2 < 2)%nat)
    /\ (forall a, v = Fin a -> 0 <= a).
Proof.
  eexists. split; [vm_compute; reflexivity|].
  apply (atr_defined_after_warmup_and_nonneg
           [11; 12; 13] [9; 10; 11] [10; 11; 12] 2 1).
  - lia.
  - repeat constructor; apply Qle_bool_iff; reflexivity.
  - vm_compute; reflexivity.
Defined.

Lemma rsi_between_0_and_100_witness :
  Forall (fun v => match v with Fin r => 0 <= r <= 100 | NaN => True end)
         (_rsi [10; 11; 10.5; 12] 2).
Proof. apply rsi_between_0_and_100. lia. Defined.

Lemma rsi_undefined_without_losses_witness :
  Forall (fun v => v = NaN) (_rsi [10; 11; 11; 12] 2).
Proof.
  apply rsi_undefined_without_losses.
  repeat constructor; apply Qle_bool_iff; reflexivity.
Defined.

End IndicatorColumnFacts.

Module ScorerFacts.
Import Indicators Signals PyNumFacts SignalsFacts HelperFacts.
Open Scope Z_scope.

(** ** Signals and score *)

Lemma sumZ_app l1 l2 : sumZ (l1 ++ l2) = sumZ l1 + sumZ l2.
Proof.
  unfold sumZ. induction l1 as [|x l1 IH]; cbn [app fold_right]; lia.
Qed.

Lemma explained_step sc sigs d t st r :
  explained (mkState sc sigs) ->
  signal_points (mkSignal t st r) = d ->
  points_match_type (mkSignal t st r) ->
  explained (mkState (sc + d) (sigs ++ [mkSignal t st r])).
Proof.
  intros [Hs Hf] Hd Hm. cbn [score signals] in *. split; cbn [score signals].
  - rewrite map_app, sumZ_app. cbn [map sumZ fold_right]. lia.
  - apply Forall_app. split; [exact Hf|]. constructor; [exact Hm|constructor].
Qed.

Lemma explained_neutral sc sigs t st r :
  explained (mkState sc sigs) ->
  signal_points (mkSignal t st r) = 0 ->
  points_match_type (mkSignal t st r) ->
  explained (mkState sc (sigs ++ [mkSignal t st r])).
Proof.
  intros H Hd Hm. replace sc with (sc + 0) by lia.
  apply explained_step; assumption.
Qed.

Ltac explain_block :=
  repeat first
    [ progress unfold bind, add_score, emit, skip, ret, raise, column
    | progress cbn [fst snd score signals]
    | match goal with
      | |- context [if ?b then _ else _] => destruct b
      | |- context [match ?x with Some _ => _ | None => _ end] => destruct x
      end ];
  repeat first
    [ assumption
    | apply explained_step; [ | reflexivity | cbn; lia ]
    | apply explained_neutral; [ | reflexivity | cbn; lia ] ].

Lemma explained_ema_alignment last s :
  explained s -> explained (snd (rule_ema_alignment last s)).
Proof. destruct s as [sc sigs]. intros H. unfold rule_ema_alignment. explain_block. Qed.
Lemma explained_ema_cross last prev s :
  explained s -> explained (snd (rule_ema_cross last prev s)).
Proof. destruct s as [sc sigs]. intros H. unfold rule_ema_cross. explain_block. Qed.
Lemma explained_price_vs_ema200 last s :
  explained s -> explained (snd (rule_price_vs_ema200 last s)).
Proof. destruct s as [sc sigs]. intros H. unfold rule_price_vs_ema200. explain_block. Qed.
Lemma explained_rsi last s :
  explained s -> explained (snd (rule_rsi last s)).
Proof. destruct s as [sc sigs]. intros H. unfold rule_rsi. explain_block. Qed.
Lemma explained_macd last prev s :
  explained s -> explained (snd (rule_macd last prev s)).
Proof. destruct s as [sc sigs]. intros H. unfold rule_macd. explain_block. Qed.
Lemma explained_stochrsi last prev s :
  explained s -> explained (snd (rule_stochrsi last prev s)).
Proof. destruct s as [sc sigs]. intros H. unfold rule_stochrsi. explain_block. Qed.
Lemma explained_volume df last prev s :
  explained s -> explained (snd (rule_volume df last prev s)).
Proof. destruct s as [sc sigs]. intros H. unfold rule_volume. explain_block. Qed.
Lemma explained_bollinger last s :
  explained s -> explained (snd (rule_bollinger last s)).
Proof. destruct s as [sc sigs]. intros H. unfold rule_bollinger. explain_block. Qed.

Lemma explained_for_patterns ps s :
  explained s -> explained (snd (for_patterns ps s)).
Proof.
  revert s. induction ps as [|[name ty] ps IH]; intros s H; [exact H|].
  cbn [for_patterns]. destruct ty;
    unfold bind, add_score, emit, skip, ret; cbn [fst snd score signals];
    apply IH.
  - destruct s; apply explained_step; [exact H|reflexivity|cbn; lia].
  - destruct s; apply explained_step; [exact H|reflexivity|cbn; lia].
  - destruct s; apply explained_neutral; [exact H|reflexivity|cbn; lia].
Qed.

Lemma explained_score_rules df last prev s :
  explained s -> explained (snd (score_rules df last prev s)).
Proof.
  intros H. unfold score_rules, bind, try_pass. cbn [fst snd].
  apply explained_for_patterns, explained_bollinger, explained_volume,
    explained_stochrsi, explained_macd, explained_rsi,
    explained_price_vs_ema200, explained_ema_cross, explained_ema_alignment, H.
Qed.

Lemma explained_init : explained (mkState 50 []).
Proof. split; cbn; [reflexivity|constructor]. Qed.

Lemma calculate_signal_score_explained df :
  exists s, explained s
    /\ calculate_signal_score df
       = (clamp_score (score s), signals s, get_market_regime df).
Proof.
  unfold calculate_signal_score.
  destruct (List.length df <? 5)%nat.
  - exists (mkState 50 []). split; [apply explained_init|reflexivity].
  - destruct (iloc_neg df 1) as [last|]; [destruct (iloc_neg df 2) as [prev|]|].
    + eexists. split; [apply explained_score_rules, explained_init|reflexivity].
    + exists (mkState 50 []). split; [apply explained_init|reflexivity].
    + exists (mkState 50 []). split; [apply explained_init|reflexivity].
Qed.

(** X1. For every frame the signals returned by the daily scorer account
    for its score: the score is 50 plus the points of the rules behind
    the listed signals, clamped to [0, 100], and every signal's type
    agrees with the sign of its points (BUY positive, SELL negative,
    NEUTRAL zero). *)
Theorem signals_account_for_score (df : frame) :
  let '(score, sigs, _) := calculate_signal_score df in
  score = clamp_score (50 + sumZ (map signal_points sigs))
  /\ Forall points_match_type sigs.
Proof.
  destruct (calculate_signal_score_explained df) as (s & [Hs Hf] & E).
  rewrite E. split; [rewrite Hs; reflexivity|exact Hf].
Qed.


Lemma sumZ_nonpos_without_buy sigs :
  Forall points_match_type sigs ->
  (forall s, In s sigs -> sig_type s <> BUY) ->
  sumZ (map signal_points sigs) <= 0.
Proof.
  induction 1 as [|x l Hx Hl IH]; intros Hn; cbn [map sumZ fold_right]; [lia|].
  assert (IH' := IH (fun s Hs => Hn s (or_intror Hs))).
  assert (Hb := Hn x (or_introl eq_refl)).
  unfold points_match_type in Hx. unfold sumZ in IH'.
  destruct (sig_type x); [congruence|lia|lia].
Qed.

Lemma sumZ_nonneg_without_sell sigs :
  Forall points_match_type sigs ->
  (forall s, In s sigs -> sig_type s <> SELL) ->
  0 <= sumZ (map signal_points sigs).
Proof.
  induction 1 as [|x l Hx Hl IH]; intros Hn; cbn [map sumZ fold_right]; [lia|].
  assert (IH' := IH (fun s Hs => Hn s (or_intror Hs))).
  assert (Hb := Hn x (or_introl eq_refl)).
  unfold points_match_type in Hx. unfold sumZ in IH'.
  destruct (sig_type x); [lia|congruence|lia].
Qed.

(** X2. A score above 50 needs a BUY signal and a score below 50 a SELL
    signal: without any BUY signal the score is at most 50, without any
    SELL signal it is at least 50. *)
Theorem score_side_needs_signal (df : frame) :
  let '(score, sigs, _) := calculate_signal_score df in
  ((forall s, In s sigs -> sig_type s <> BUY) -> score <= 50)
  /\ ((forall s, In s sigs -> sig_type s <> SELL) -> 50 <= score).
Proof.
  destruct (calculate_signal_score_explained df) as (s & [Hs Hf] & E).
  rewrite E. rewrite Hs. unfold clamp_score. split; intros Hn.
  - pose proof (sumZ_nonpos_without_buy _ Hf Hn). lia.
  - pose proof (sumZ_nonneg_without_sell _ Hf Hn). lia.
Qed.

Open Scope Q_scope.

(** ** Market regime *)

Lemma reading_above_inv (c : cell) (d t : Q) :
  d <= t ->
  fgt (py_or (get c (Fin d)) (Fin d)) (Fin t) = true ->
  exists a, c = Some (Fin a) /\ t < a.
Proof.
  intros Hd. destruct c as [[|a]|]; cbn [get].
  - cbn. discriminate.
  - unfold py_or, truthy. qcase (Qeqb a 0); cbn [negb fgt flt]; intros H; qprop.
    + lra.
    + eauto.
  - unfold py_or, truthy. destruct (negb (Qeqb d 0)); cbn [fgt flt];
      intros H; qprop; lra.
Qed.

Lemma reading_below_inv (c : cell) (d t : Q) :
  t <= d ->
  flt (py_or (get c (Fin d)) (Fin d)) (Fin t) = true ->
  exists a, c = Some (Fin a) /\ a < t.
Proof.
  intros Hd. destruct c as [[|a]|]; cbn [get].
  - cbn. discriminate.
  - unfold py_or, truthy. qcase (Qeqb a 0); cbn [negb fgt flt]; intros H; qprop.
    + lra.
    + eauto.
  - unfold py_or, truthy. destruct (negb (Qeqb d 0)); cbn [fgt flt];
      intros H; qprop; lra.
Qed.

Ltac regime_cases :=
  cbn [andb];
  repeat match goal with
         | |- context [if ?b then _ else _] => destruct b
         end;
  repeat split; try tauto; intros; try congruence; eauto 6.

(** X3. The regime detector answers one of BULL_TREND, BEAR_TREND,
    TRANSITION and SIDEWAYS.  Anything but SIDEWAYS needs a last bar
    with a numeric ADX above 25 (an empty frame, a missing or undefined
    ADX give SIDEWAYS); BULL_TREND needs a numeric EMA200 below the
    close and BEAR_TREND one above it, so a frame without an EMA200
    column is never classified as a trend. *)
Theorem get_market_regime_trend_needs_readings (df : frame) :
  (get_market_regime df = BULL_TREND \/ get_market_regime df = BEAR_TREND
   \/ get_market_regime df = TRANSITION \/ get_market_regime df = SIDEWAYS)
  /\ (get_market_regime df <> SIDEWAYS ->
      exists last a, iloc_neg df 1 = Some last
                     /\ ADX last = Some (Fin a) /\ 25 < a)
  /\ (get_market_regime df = BULL_TREND ->
      exists last e, iloc_neg df 1 = Some last
                     /\ EMA200 last = Some (Fin e) /\ e < Close last)
  /\ (get_market_regime df = BEAR_TREND ->
      exists last e, iloc_neg df 1 = Some last
                     /\ EMA200 last = Some (Fin e) /\ Close last < e).
Proof.
  unfold get_market_regime.
  destruct (iloc_neg df 1) as [last|].
  2:{ repeat split; try tauto; intros; congruence. }
  destruct (fgt (py_or (get (ADX last) f0) f0) (Fin 25)) eqn:Ea.
  2:{ repeat split; try tauto; intros; congruence. }
  apply reading_above_inv in Ea as (a & Ea & Ha); [|lra].
  destruct (fgt (Fin (Close last))
              (py_or (get (EMA200 last) (Fin (Close last))) (Fin (Close last))))
    eqn:Eu.
  - unfold fgt in Eu.
    apply reading_below_inv in Eu as (e & Ee & He); [|lra].
    assert (Ed : flt (Fin (Close last))
                   (py_or (get (EMA200 last) (Fin (Close last)))
                      (Fin (Close last))) = false).
    { rewrite Ee. cbn [get]. unfold py_or, truthy.
      destruct (negb (Qeqb e 0)); cbn [flt]; qprop; lra. }
    rewrite Ed. cbn [andb].
    regime_cases.
  - cbn [andb].
    destruct (flt (Fin (Close last))
              (py_or (get (EMA200 last) (Fin (Close last))) (Fin (Close last))))
      eqn:Ed.
    + change (flt (Fin (Close last)) ?x) with (fgt x (Fin (Close last))) in Ed.
      apply reading_above_inv in Ed as (e & Ee & He); [|lra].
      regime_cases.
    + regime_cases.
Qed.

Lemma get_market_regime_trend_needs_readings_witness :
  get_market_regime Scenarios.trend_frame = BULL_TREND
  /\ exists last e,
       iloc_neg Scenarios.trend_frame 1 = Some last
       /\ EMA200 last = Some (Fin e) /\ e < Close last.
Proof.
  split; [reflexivity|].
  apply (proj1 (proj2 (proj2
           (get_market_regime_trend_needs_readings Scenarios.trend_frame)))).
  reflexivity.
Defined.

End ScorerFacts.

Module TargetFacts.
Import Indicators Signals PyNumFacts SignalsFacts HelperFacts.
Open Scope Q_scope.

Lemma iloc_neg_1_none {A} (l : list A) : iloc_neg l 1 = None <-> l = [].
Proof.
  split.
  - intros H. destruct l as [|a l]; [reflexivity|].
    destruct (CandleAnalysisFacts.iloc_neg_last (a :: l)) as [x Hx];
      [discriminate|congruence].
  - intros ->. reflexivity.
Qed.

(** X4. The target calculator fails (the IndexError of the support and
    resistance search) exactly on the empty frame; on any other frame
    it returns its levels. *)
Theorem calculate_price_targets_raises_on_empty (df : frame) (cp : Q) :
  calculate_price_targets df cp = None <-> df = [].
Proof.
  split.
  - intros H. unfold calculate_price_targets, find_support_resistance in H.
    destruct (iloc_neg (map Close df) 1) eqn:Ec.
    + destruct (iloc_neg df 1) eqn:El; [discriminate|].
      apply iloc_neg_1_none in El. exact El.
    + apply iloc_neg_1_none in Ec. destruct df; [reflexivity|discriminate].
  - intros ->. reflexivity.
Qed.

Lemma py_round_in_cents x : in_cents (py_round x 2).
Proof. eexists. unfold py_round. change (pow10 2) with 100. reflexivity. Qed.

Lemma in_cents_round x : in_cents x -> py_round x 2 == x.
Proof.
  intros [z Hz]. unfold py_round. change (pow10 2) with 100.
  rewrite (round_half_even_comp (x * 100) (inject_Z z)).
  - rewrite round_half_even_Z. rewrite Hz. reflexivity.
  - rewrite Hz. field.
Qed.

Lemma in_cents_iff x : in_cents x <-> py_round x 2 == x.
Proof.
  split; [apply in_cents_round|]. intros H.
  destruct (py_round_in_cents x) as [z Hz]. exists z. rewrite <- H. exact Hz.
Qed.

Lemma in_cents_target a b k :
  in_cents a -> in_cents b -> in_cents (a + (a - b) * inject_Z k).
Proof.
  intros [x Hx] [y Hy]. exists (x + (x - y) * k)%Z.
  rewrite Hx, Hy. unfold Z.sub.
  rewrite inject_Z_plus, inject_Z_mult, inject_Z_plus, inject_Z_opp.
  field.
Qed.

(** X5. For a current price quoted in whole cents the first two targets
    are exactly the price plus two and three times the risk
    (price - stop_loss), and the reported risk_reward, which divides the
    risk by the distance to the first target, is 0.5 whatever the
    frame. *)
Theorem risk_reward_is_one_half (df : frame) (cp : Q) (t : Targets) :
  calculate_price_targets df cp = Some t ->
  py_round cp 2 == cp ->
  risk_reward t == 0.5
  /\ nth 0 (targets t) 0 == cp + (cp - stop_loss t) * 2
  /\ nth 1 (targets t) 0 == cp + (cp - stop_loss t) * 3.
Proof.
  intros Ht Hcp. apply in_cents_iff in Hcp.
  unfold calculate_price_targets in Ht.
  destruct (find_support_resistance (map Close df) 10) as [[sup res]|];
    [|discriminate].
  destruct (iloc_neg df 1) as [last|]; [|discriminate].
  injection Ht as <-. cbn [risk_reward targets stop_loss nth].
  set (sl := py_round (_ - _ * 1.5) 2).
  assert (Hsl : in_cents sl) by apply py_round_in_cents.
  assert (H2 : py_round (cp + (cp - sl) * 2) 2 == cp + (cp - sl) * 2).
  { apply in_cents_round. apply (in_cents_target cp sl 2 Hcp Hsl). }
  assert (H3 : py_round (cp + (cp - sl) * 3) 2 == cp + (cp - sl) * 3).
  { apply in_cents_round. apply (in_cents_target cp sl 3 Hcp Hsl). }
  split; [|split; assumption].
  qcase (Qgtb (py_round (cp + (cp - sl) * 2) 2 - cp) 0).
  - rewrite (py_round_comp _ 0.5); [vm_compute; reflexivity|].
    rewrite H2. rewrite H2 in E. field. lra.
  - vm_compute; reflexivity.
Qed.

Lemma risk_reward_is_one_half_witness :
  exists t,
    calculate_price_targets Scenarios.falling_frame 100 = Some t
    /\ risk_reward t == 0.5
    /\ nth 0 (targets t) 0 == 100 + (100 - stop_loss t) * 2
    /\ nth 1 (targets t) 0 == 100 + (100 - stop_loss t) * 3.
Proof.
  eexists. split; [vm_compute; reflexivity|].
  apply (risk_reward_is_one_half Scenarios.falling_frame 100).
  - vm_compute; reflexivity.
  - vm_compute; reflexivity.
Defined.

End TargetFacts.

Module RecommendationFacts.
Import Indicators Signals PyNumFacts SignalsFacts HelperFacts.
Open Scope Q_scope.

Lemma caution_kept (x : Note) cs l :
  (List.length cs <= 1)%nat -> In x (firstn 3 ((cs ++ [x]) ++ l)).
Proof.
  destruct cs as [|c [|c' cs]]; cbn; intros H; auto; lia.
Qed.

Local Opaque firstn.

(** X6. Every recommendation keeps the score it was given, lists at most
    five reasons and three cautions, and carries levels by action: an
    entry zone, a stop-loss and two targets for BUY and ACCUMULATE, a
    stop-loss only for REDUCE and SELL, nothing for HOLD and WAIT. *)
Theorem recommendation_levels_by_action
    (df : frame) (score : Z) (sigs : list Signal) (regime : Regime) (cp : Q)
    (r : Recommendation) :
  generate_recommendation df score sigs regime cp = Some r ->
  rec_score r = score
  /\ (List.length (reasons r) <= 5)%nat
  /\ (List.length (cautions r) <= 3)%nat
  /\ match action r with
     | ActBUY | ActACCUMULATE =>
         entry_zone r <> None /\ rec_stop_loss r <> None
         /\ List.length (rec_targets r) = 2%nat
     | ActREDUCE | ActSELL =>
         entry_zone r = None /\ rec_stop_loss r <> None /\ rec_targets r = []
     | ActHOLD | ActWAIT =>
         entry_zone r = None /\ rec_stop_loss r = None /\ rec_targets r = []
     end.
Proof.
  unfold generate_recommendation.
  destruct (List.length df <? 5)%nat.
  { intros H; injection H as <-. cbn. repeat split; lia. }
  destruct (iloc_neg df 1) as [last|];
    [destruct (iloc_neg df 2) as [prev|]|];
    try (intros H; injection H as <-; cbn; repeat split; lia).
  destruct (decide (conditions last prev sigs) score regime)
    as [[[act conf] rs] cs].
  destruct act;
    repeat match goal with
           | |- context [if ?b then _ else _] => destruct b
           end;
    intros H; try discriminate; injection H as <-;
    cbn [rec_score reasons cautions action entry_zone rec_stop_loss
         rec_targets List.length];
    (split; [reflexivity|]);
    (split; [apply firstn_le_length|]);
    (split; [apply firstn_le_length|]);
    repeat split; discriminate.
Qed.


Lemma c_atr_reading last prev sigs a :
  ATR last = Some (Fin a) -> ~ a == 0 ->
  c_atr (conditions last prev sigs) = Fin a.
Proof.
  intros Ha Hn. unfold conditions. cbn [c_atr]. rewrite Ha. cbn [get].
  unfold py_or, truthy. qcase (Qeqb a 0); [contradiction|reflexivity].
Qed.

Lemma Qabs_diff_upper x y e : x - e <= y -> y <= x + e -> Qabs (y - x) <= e.
Proof. intros. apply Qabs_Qle_condition. split; lra. Qed.

(** With an ATR above 0.025 the reward of the first target is less than
    one and a half times the risk of the stop. *)
Lemma reward_below_threshold c a :
  0.025 < a -> ~ c == 0 ->
  let close := Fin c in
  let atr := Fin a in
  let sl := fround (fsub close (fmul atr (Fin 2))) 2 in
  let tp1 := fround (fadd close (fmul atr (Fin 2.5))) 2 in
  let risk_pct := fmul (fdiv (fabs (fsub close sl)) close) (Fin 100) in
  let reward_pct := fmul (fdiv (fabs (fsub tp1 close)) close) (Fin 100) in
  flt (if fgt risk_pct f0 then fdiv reward_pct risk_pct else f0) (Fin 1.5)
  = true.
Proof.
  intros Ha Hc. cbn [fround fsub fmul fadd fabs fdiv fgt flt f0].
  set (sl := py_round (c - a * 2) 2).
  set (tp := py_round (c + a * 2.5) 2).
  pose proof (py_round2_upper (c - a * 2)) as Hs1.
  pose proof (py_round2_lower (c + a * 2.5)) as Ht1.
  pose proof (py_round2_upper (c + a * 2.5)) as Ht2.
  fold sl in Hs1. fold tp in Ht1, Ht2. clearbody sl tp.
  assert (HK : 2 * a - 0.005 <= Qabs (c - sl)).
  { apply Qle_trans with (c - sl); [lra|apply Qle_Qabs]. }
  assert (HR : Qabs (tp - c) <= 2.5 * a + 0.005).
  { apply Qabs_Qle_condition. split; lra. }
  qcase (Qltb 0 (Qabs (c - sl) / c * 100)); unfold f0; cbn [flt]; qprop; [|lra].
  assert (Hcp : 0 < c).
  { destruct (Qlt_le_dec 0 c) as [|Hle]; [assumption|].
    assert (Hlt : c < 0).
    { destruct (Qeq_dec c 0); [contradiction|]. lra. }
    assert (Hinv : / c < 0).
    { setoid_replace (/ c) with (- / - c) by (field; exact Hc).
      assert (0 < / - c) by (apply Qinv_lt_0_compat; lra). lra. }
    assert (Hk0 : 0 <= Qabs (c - sl)) by apply Qabs_nonneg.
    unfold Qdiv in E. 
    assert (Qabs (c - sl) * / c <= 0).
    { setoid_replace (Qabs (c - sl) * / c) with (- (Qabs (c - sl) * - / c)) by ring.
      assert (0 <= Qabs (c - sl) * - / c) by (apply Qmult_le_0_compat; lra).
      lra. }
    lra. }
  apply Qlt_shift_div_r; [exact E|].
  assert (Hi : 0 < / c) by (apply Qinv_lt_0_compat; exact Hcp).
  unfold Qdiv.
  setoid_replace (1.5 * (Qabs (c - sl) * / c * 100))
    with ((1.5 * Qabs (c - sl)) * (/ c * 100)) by ring.
  setoid_replace (Qabs (tp - c) * / c * 100)
    with (Qabs (tp - c) * (/ c * 100)) by ring.
  apply Qmult_lt_compat_r; lra.
Qed.

Lemma decide_notes c score regime act conf rs cs :
  decide c score regime = (act, conf, rs, cs) ->
  ~ In NRiskRewardGood rs
  /\ (act = ActBUY -> cs = [])
  /\ (act = ActACCUMULATE -> cs = [NBuyInParts]).
Proof.
  unfold decide, when.
  repeat match goal with
         | |- context [if ?b then _ else _] => destruct b
         end;
    intros H; injection H as <- <- <- <-;
    (split; [cbn; intuition discriminate|]);
    split; intros; (discriminate || reflexivity).
Qed.

Lemma regime_note_plain regime : ~ In NRiskRewardGood (regime_note regime).
Proof. destruct regime; cbn; intuition discriminate. Qed.

(** X7. With a numeric ATR above 0.025 on the last bar, every BUY or
    ACCUMULATE recommendation carries the low risk/reward caution and
    never the favourable risk/reward reason: the first target is 2.5
    ATR from the close and the stop 2 ATR, a ratio of 1.25 that stays
    under the threshold of 1.5 after rounding to cents. *)
Theorem risk_reward_caution_on_every_entry
    (df : frame) (score : Z) (sigs : list Signal) (regime : Regime) (cp : Q)
    (last prev : row) (a : Q) (r : Recommendation) :
  iloc_neg df 1 = Some last ->
  iloc_neg df 2 = Some prev ->
  ATR last = Some (Fin a) ->
  0.025 < a ->
  generate_recommendation df score sigs regime cp = Some r ->
  action r = ActBUY \/ action r = ActACCUMULATE ->
  In NRiskRewardLow (cautions r) /\ ~ In NRiskRewardGood (reasons r).
Proof.
  intros H1 H2 Ha Hpos. unfold generate_recommendation.
  destruct (List.length df <? 5)%nat.
  { intros H; injection H as <-. cbn. intros [|]; discriminate. }
  rewrite H1, H2. cbv zeta.
  rewrite (c_atr_reading last prev sigs a Ha) by lra.
  change (c_close (conditions last prev sigs)) with (Fin (Close last)).
  destruct (decide (conditions last prev sigs) score regime)
    as [[[act conf] rs] cs] eqn:D.
  apply decide_notes in D as (Hrs & Hbuy & Hacc).
  assert (Hgood : forall n, ~ In NRiskRewardGood (firstn n (rs ++ regime_note regime))).
  { intros n Hin. apply IndicatorsFacts.In_firstn in Hin.
    apply in_app_or in Hin as [Hin|Hin]; [exact (Hrs Hin)|].
    exact (regime_note_plain _ Hin). }
  destruct act; try (intros H; injection H as <-; cbn; intros [|]; discriminate).
  - qcase (Qeqb (Close last) 0); [discriminate|].
    rewrite (reward_below_threshold (Close last) a Hpos E).
    intros H _. injection H as <-. cbn [cautions reasons].
    rewrite (Hbuy eq_refl). split; [apply caution_kept; cbn; lia|apply Hgood].
  - qcase (Qeqb (Close last) 0); [discriminate|].
    rewrite (reward_below_threshold (Close last) a Hpos E).
    intros H _. injection H as <-. cbn [cautions reasons].
    rewrite (Hacc eq_refl). split; [apply caution_kept; cbn; lia|apply Hgood].
Qed.

(** X8. With a positive close and a positive numeric ATR on the last bar,
    the levels of a recommendation lie on the expected side of the
    close rounded to cents: for BUY and ACCUMULATE entry low <= close <=
    entry high and stop-loss <= close <= first target <= second target;
    for REDUCE and SELL the stop-loss is at or above the close, with no
    entry zone and no targets. *)
Theorem recommendation_levels_around_close
    (df : frame) (score : Z) (sigs : list Signal) (regime : Regime) (cp : Q)
    (last prev : row) (a : Q) (r : Recommendation) :
  iloc_neg df 1 = Some last ->
  iloc_neg df 2 = Some prev ->
  ATR last = Some (Fin a) ->
  0 < a ->
  0 < Close last ->
  generate_recommendation df score sigs regime cp = Some r ->
  let c := py_round (Close last) 2 in
  match action r with
  | ActBUY | ActACCUMULATE =>
      exists lo hi sl t1 t2,
        entry_zone r = Some (Fin lo, Fin hi)
        /\ rec_stop_loss r = Some (Fin sl)
        /\ rec_targets r = [Fin t1; Fin t2]
        /\ lo <= c /\ c <= hi
        /\ sl <= c /\ c <= t1 /\ t1 <= t2
  | ActREDUCE | ActSELL =>
      exists sl, rec_stop_loss r = Some (Fin sl) /\ c <= sl
                 /\ entry_zone r = None /\ rec_targets r = []
  | ActHOLD | ActWAIT => True
  end.
Proof.
  intros H1 H2 Ha Hpos Hc. unfold generate_recommendation.
  destruct (List.length df <? 5)%nat.
  { intros H; injection H as <-. exact I. }
  rewrite H1, H2. cbv zeta.
  rewrite (c_atr_reading last prev sigs a Ha) by lra.
  change (c_close (conditions last prev sigs)) with (Fin (Close last)).
  destruct (decide (conditions last prev sigs) score regime)
    as [[[act conf] rs] cs].
  assert (Ez : Qeqb (Close last) 0 = false) by (qprop; lra).
  destruct act; rewrite ?Ez;
    repeat match goal with
           | |- context [if ?b then _ else _] => destruct b
           end;
    intros H; injection H as <-;
    cbn [action entry_zone rec_stop_loss rec_targets fround fmul fsub fadd];
    try exact I;
    try (eexists _, _, _, _, _; repeat (split; [reflexivity|]);
         repeat split; apply py_round_mono; lra);
    (eexists; split; [reflexivity|]; repeat split; apply py_round_mono; lra).
Qed.

Local Transparent firstn.

(** ** A BUY recommendation on five bars with an ATR of 2 *)

Lemma recommendation_levels_by_action_witness :
  exists r,
    generate_recommendation Scenarios.entry_frame 85 [] BULL_TREND 110 = Some r
    /\ action r = ActBUY
    /\ entry_zone r <> None /\ rec_stop_loss r <> None
    /\ List.length (rec_targets r) = 2%nat.
Proof.
  let o := eval vm_compute in
    (generate_recommendation Scenarios.entry_frame 85 [] BULL_TREND 110) in
  lazymatch o with
  | Some ?r =>
      exists r; split; [vm_compute; reflexivity|]; split; [reflexivity|];
      exact (proj2 (proj2 (proj2
               (recommendation_levels_by_action Scenarios.entry_frame 85 []
                  BULL_TREND 110 r ltac:(vm_compute; reflexivity)))))
  end.
Defined.

Lemma risk_reward_caution_on_every_entry_witness :
  exists r,
    generate_recommendation Scenarios.entry_frame 85 [] BULL_TREND 110 = Some r
    /\ In NRiskRewardLow (cautions r)
    /\ ~ In NRiskRewardGood (reasons r).
Proof.
  eexists. split; [vm_compute; reflexivity|].
  apply (risk_reward_caution_on_every_entry Scenarios.entry_frame 85 []
           BULL_TREND 110 (Scenarios.with_ATR 2 Scenarios.aligned_bar)
           (Scenarios.bar 106 108 105 107 1000) 2).
  - reflexivity.
  - reflexivity.
  - reflexivity.
  - reflexivity.
  - vm_compute; reflexivity.
  - left; reflexivity.
Defined.

Lemma recommendation_levels_around_close_witness :
  exists r,
    generate_recommendation Scenarios.entry_frame 85 [] BULL_TREND 110 = Some r
    /\ exists lo hi sl t1 t2,
         entry_zone r = Some (Fin lo, Fin hi)
         /\ rec_stop_loss r = Some (Fin sl)
         /\ rec_targets r = [Fin t1; Fin t2]
         /\ lo <= py_round 110 2 /\ py_round 110 2 <= hi
         /\ sl <= py_round 110 2 /\ py_round 110 2 <= t1 /\ t1 <= t2.
Proof.
  let o := eval vm_compute in
    (generate_recommendation Scenarios.entry_frame 85 [] BULL_TREND 110) in
  lazymatch o with
  | Some ?r =>
      exists r; split; [vm_compute; reflexivity|];
      exact (recommendation_levels_around_close Scenarios.entry_frame 85 []
               BULL_TREND 110 (Scenarios.with_ATR 2 Scenarios.aligned_bar)
               (Scenarios.bar 106 108 105 107 1000) 2 r
               eq_refl eq_refl eq_refl eq_refl eq_refl
               ltac:(vm_compute; reflexivity))
  end.
Defined.

End RecommendationFacts.

Module BacktestFacts.
Import Indicators Signals PyNumFacts HelperFacts.
Open Scope Q_scope.

(** ** The loop invariant *)

Lemma compound_snoc df ts t :
  compound df (ts ++ [t]) == compound df ts * growth df t.
Proof.
  unfold compound. induction ts as [|a ts IH]; cbn [app fold_right].
  - ring.
  - rewrite IH. ring.
Qed.

Lemma StronglySorted_snoc {A} (R : A -> A -> Prop) l x :
  StronglySorted R l -> Forall (fun a => R a x) l ->
  StronglySorted R (l ++ [x]).
Proof.
  induction 1 as [|a l Hs IH Ha]; intros Hx; cbn.
  - repeat constructor.
  - inversion Hx; subst. constructor; [apply IH; assumption|].
    apply Forall_app. split; [assumption|]. constructor; [assumption|constructor].
Qed.

Lemma close_at_pos df i :
  Forall (fun r => 0 < Close r) df -> (i < List.length df)%nat ->
  0 < close_at df i.
Proof.
  intros H Hi. unfold close_at.
  destruct (nth_error df i) as [r|] eqn:E.
  - apply nth_error_In in E. rewrite Forall_forall in H. apply H, E.
  - apply nth_error_None in E. lia.
Qed.

Lemma backtest_step_inv strategy df capital sl_pct st i :
  (2 <= i < List.length df)%nat ->
  backtest_inv df capital i st ->
  backtest_inv df capital (S i) (backtest_step strategy df sl_pct st i).
Proof.
  intros Hi [Hc Hb Ho Hn Hh He]. unfold backtest_step.
  destruct (nth_error df i) as [row|] eqn:Er;
    [|apply nth_error_None in Er; lia].
  destruct (nth_error df (i - 1)) as [prev|] eqn:Ep;
    [|apply nth_error_None in Ep; lia].
  destruct (trade_signals strategy df i row prev) as [entry_signal exit_signal].
  assert (Hw : forall P : nat -> Prop,
             Forall (fun t => (2 <= entry_bar t < exit_bar t)%nat
                              /\ (exit_bar t < i)%nat) (trades st) ->
             Forall (fun t => (2 <= entry_bar t < exit_bar t)%nat
                              /\ (exit_bar t < S i)%nat) (trades st)).
  { intros _ H. eapply Forall_impl; [|exact H]. cbn beta. intros; lia. }
  destruct (holding st) as [[entry entry_date]|] eqn:Eh.
  - destruct (Hh _ _ eq_refl) as (Hed & Hentry & Hex).
    destruct (exit_signal || Qleb (Close row) (entry * (1 - sl_pct))).
    + constructor; cbn [equity holding trades equity_curve_y].
      * rewrite length_app, Hc. cbn. lia.
      * apply Forall_app. split; [apply (Hw (fun _ => True)), Hb|].
        constructor; [cbn; lia|constructor].
      * apply StronglySorted_snoc; [exact Ho|]. exact Hex.
      * rewrite length_app. cbn [List.length]. cbn in Hn. lia.
      * intros p e H. discriminate.
      * intros Hpos. rewrite compound_snoc.
        unfold growth. cbn [exit_bar entry_bar].
        assert (Hcl : close_at df i = Close row)
          by (unfold close_at; rewrite Er; reflexivity).
        rewrite Hcl, <- Hentry.
        assert (0 < entry)
          by (rewrite Hentry; apply close_at_pos; [assumption|lia]).
        apply Qeq_trans with (equity st * (Close row / entry));
          [field; lra|].
        apply Qeq_trans
          with (capital * compound df (trades st) * (Close row / entry));
          [|ring].
        apply Qmult_comp; [exact (He Hpos)|reflexivity].
    + constructor; cbn [equity holding trades equity_curve_y].
      * rewrite length_app, Hc. cbn. lia.
      * apply (Hw (fun _ => True)), Hb.
      * exact Ho.
      * rewrite Eh. cbn in Hn. lia.
      * intros p e H. rewrite Eh in H. injection H as <- <-.
        split; [lia|]. split; assumption.
      * exact He.
  - destruct entry_signal.
    + constructor; cbn [equity holding trades equity_curve_y].
      * rewrite length_app, Hc. cbn. lia.
      * apply (Hw (fun _ => True)), Hb.
      * exact Ho.
      * cbn in Hn. lia.
      * intros p e H. injection H as <- <-. split; [lia|]. split.
        -- unfold close_at. rewrite Er. reflexivity.
        -- eapply Forall_impl; [|exact Hb]. cbn beta. intros; lia.
      * exact He.
    + constructor; cbn [equity holding trades equity_curve_y].
      * rewrite length_app, Hc. cbn. lia.
      * apply (Hw (fun _ => True)), Hb.
      * exact Ho.
      * rewrite Eh. cbn in Hn. lia.
      * intros p e H. rewrite Eh in H. discriminate.
      * exact He.
Qed.

Lemma backtest_fold_inv strategy df capital sl_pct len start st :
  (2 <= start)%nat -> (start + len <= List.length df)%nat ->
  backtest_inv df capital start st ->
  backtest_inv df capital (start + len)
    (fold_left (backtest_step strategy df sl_pct) (seq start len) st).
Proof.
  revert start st. induction len as [|len IH]; intros start st Hs Hl Hinv;
    cbn [seq fold_left].
  - rewrite Nat.add_0_r. exact Hinv.
  - replace (start + S len)%nat with (S start + len)%nat by lia.
    apply IH; [lia|lia|].
    apply backtest_step_inv; [lia|exact Hinv].
Qed.

Lemma backtest_loop_inv strategy df capital sl_pct :
  (2 <= List.length df)%nat ->
  backtest_inv df capital (List.length df)
    (backtest_loop strategy df capital sl_pct).
Proof.
  intros Hl. unfold backtest_loop.
  pose proof (backtest_fold_inv strategy df capital sl_pct
                (List.length df - 2) 2
                (mkBacktest capital None [] [capital])) as H.
  replace (2 + (List.length df - 2))%nat with (List.length df) in H by lia.
  apply H; [lia|lia|]. clear H.
  constructor; cbn [equity holding trades equity_curve_y List.length].
  - reflexivity.
  - constructor.
  - constructor.
  - lia.
  - intros; discriminate.
  - intros _. cbn. ring.
Qed.

Lemma backtest_loop_short strategy df capital sl_pct :
  (List.length df < 2)%nat ->
  backtest_loop strategy df capital sl_pct = mkBacktest capital None [] [capital].
Proof.
  intros H. unfold backtest_loop.
  replace (List.length df - 2)%nat with 0%nat by lia. reflexivity.
Qed.

Lemma run_backtest_log strategy df capital sl_pct res :
  run_backtest df strategy capital sl_pct = Some res ->
  df <> []
  /\ trade_log res = trades (backtest_loop strategy df capital sl_pct)
  /\ equity_curve res
     = equity_curve_y (backtest_loop strategy df capital sl_pct)
  /\ total_trades res = List.length (trade_log res).
Proof.
  unfold run_backtest. destruct df as [|r df]; [discriminate|].
  destruct (trades _) eqn:Et; intros H; injection H as <-;
    cbn [trade_log equity_curve total_trades]; rewrite ?Et;
    repeat split; discriminate.
Qed.

(** X9. The backtest fails only on the empty frame.  Otherwise its
    equity curve has one point for the first bar and one for each bar
    from the third on, the trade count is the length of the trade log,
    every trade enters at bar 2 or later and exits at a later bar of the
    frame, trades follow each other without overlap (a trade exits
    before the next one enters), and so there are at most
    (bars - 2) / 2 trades. *)
Theorem backtest_trades_well_formed (df : frame) (strategy : Strategy)
    (capital sl_pct : Q) :
  match run_backtest df strategy capital sl_pct with
  | None => df = []
  | Some res =>
      df <> []
      /\ total_trades res = List.length (trade_log res)
      /\ List.length (equity_curve res) = (1 + (List.length df - 2))%nat
      /\ (2 * total_trades res <= List.length df - 2)%nat
      /\ Forall (fun t => (2 <= entry_bar t < exit_bar t)%nat
                          /\ (exit_bar t < List.length df)%nat)
                (trade_log res)
      /\ StronglySorted (fun a b => (exit_bar a < entry_bar b)%nat)
                        (trade_log res)
  end.
Proof.
  destruct (run_backtest df strategy capital sl_pct) as [res|] eqn:E.
  2:{ unfold run_backtest in E. destruct df; [reflexivity|].
      destruct (trades _); discriminate. }
  apply run_backtest_log in E as (Hne & Hlog & Hcurve & Hn).
  split; [exact Hne|]. split; [exact Hn|]. rewrite Hn, Hlog, Hcurve.
  destruct (Nat.lt_ge_cases (List.length df) 2) as [Hs|Hl].
  - rewrite (backtest_loop_short _ _ _ _ Hs). cbn.
    repeat split; try constructor; lia.
  - destruct (backtest_loop_inv strategy df capital sl_pct Hl)
      as [Hc Hb Ho Hcnt _ _].
    split; [rewrite Hc; lia|]. split; [lia|]. split; assumption.
Qed.


(** ** No look-ahead *)

Lemma trade_signals_prefix strategy df k i row prev :
  (i < k)%nat ->
  trade_signals strategy (firstn k df) i row prev
  = trade_signals strategy df i row prev.
Proof.
  intros Hi. unfold trade_signals. destruct strategy; try reflexivity.
  rewrite firstn_firstn. replace (Nat.min (i + 1) k) with (i + 1)%nat by lia.
  reflexivity.
Qed.

Lemma nth_error_firstn_lt {A} (l : list A) k i :
  (i < k)%nat -> nth_error (firstn k l) i = nth_error l i.
Proof.
  revert k i. induction l as [|a l IH]; intros k i H.
  - rewrite firstn_nil. reflexivity.
  - destruct k as [|k]; [lia|]. destruct i as [|i]; cbn; [reflexivity|].
    apply IH. lia.
Qed.

Lemma backtest_step_prefix strategy df k sl_pct st i :
  (i < k)%nat ->
  backtest_step strategy (firstn k df) sl_pct st i
  = backtest_step strategy df sl_pct st i.
Proof.
  intros Hi. unfold backtest_step.
  rewrite !nth_error_firstn_lt by lia.
  destruct (nth_error df i) as [row|]; [|reflexivity].
  destruct (nth_error df (i - 1)) as [prev|]; [|reflexivity].
  rewrite trade_signals_prefix by exact Hi. reflexivity.
Qed.

Lemma backtest_fold_prefix strategy df k sl_pct l st :
  Forall (fun i => (i < k)%nat) l ->
  fold_left (backtest_step strategy (firstn k df) sl_pct) l st
  = fold_left (backtest_step strategy df sl_pct) l st.
Proof.
  intros H. revert st. induction H as [|i l Hi H IH]; intros st;
    cbn [fold_left]; [reflexivity|].
  rewrite backtest_step_prefix by exact Hi. apply IH.
Qed.

Lemma backtest_step_extends strategy df sl_pct st i :
  exists ts ys,
    trades (backtest_step strategy df sl_pct st i) = trades st ++ ts
    /\ equity_curve_y (backtest_step strategy df sl_pct st i)
       = equity_curve_y st ++ ys.
Proof.
  unfold backtest_step.
  destruct (nth_error df i) as [row|];
    [|exists [], []; rewrite !app_nil_r; auto].
  destruct (nth_error df (i - 1)) as [prev|];
    [|exists [], []; rewrite !app_nil_r; auto].
  destruct (trade_signals strategy df i row prev) as [en ex].
  destruct (holding st) as [[entry d]|].
  - destruct (ex || Qleb (Close row) (entry * (1 - sl_pct)));
      cbn [trades equity_curve_y]; eexists _, _; split;
      try reflexivity; rewrite app_nil_r; reflexivity.
  - destruct en; cbn [trades equity_curve_y]; eexists _, _; split;
      try reflexivity; rewrite app_nil_r; reflexivity.
Qed.

Lemma backtest_fold_extends strategy df sl_pct l st :
  exists ts ys,
    trades (fold_left (backtest_step strategy df sl_pct) l st) = trades st ++ ts
    /\ equity_curve_y (fold_left (backtest_step strategy df sl_pct) l st)
       = equity_curve_y st ++ ys.
Proof.
  revert st. induction l as [|i l IH]; intros st; cbn [fold_left].
  - exists [], []. rewrite !app_nil_r. auto.
  - destruct (IH (backtest_step strategy df sl_pct st i)) as (ts & ys & Ht & Hy).
    destruct (backtest_step_extends strategy df sl_pct st i)
      as (ts0 & ys0 & Ht0 & Hy0).
    exists (ts0 ++ ts), (ys0 ++ ys).
    rewrite Ht, Hy, Ht0, Hy0, !app_assoc. auto.
Qed.

Lemma backtest_loop_prefix strategy df k capital sl_pct :
  (k <= List.length df)%nat ->
  exists ts ys,
    trades (backtest_loop strategy df capital sl_pct)
    = trades (backtest_loop strategy (firstn k df) capital sl_pct) ++ ts
    /\ equity_curve_y (backtest_loop strategy df capital sl_pct)
       = equity_curve_y (backtest_loop strategy (firstn k df) capital sl_pct)
         ++ ys.
Proof.
  intros Hk. unfold backtest_loop at 2 4.
  rewrite length_firstn. replace (Nat.min k (List.length df)) with k by lia.
  rewrite backtest_fold_prefix
    by (apply Forall_forall; intros i Hi; apply in_seq in Hi; lia).
  unfold backtest_loop.
  replace (List.length df - 2)%nat
    with ((k - 2) + (List.length df - 2 - (k - 2)))%nat by lia.
  rewrite seq_app, fold_left_app.
  apply backtest_fold_extends.
Qed.

(** X11. The backtest never looks ahead: the trade log and the equity
    curve of the first k bars are prefixes of the trade log and the
    equity curve of the whole frame, for every strategy. *)
Theorem backtest_never_looks_ahead (df : frame) (k : nat)
    (strategy : Strategy) (capital sl_pct : Q) :
  (1 <= k <= List.length df)%nat ->
  exists early full later_trades later_points,
    run_backtest (firstn k df) strategy capital sl_pct = Some early
    /\ run_backtest df strategy capital sl_pct = Some full
    /\ trade_log full = trade_log early ++ later_trades
    /\ equity_curve full = equity_curve early ++ later_points.
Proof.
  intros Hk.
  destruct (run_backtest (firstn k df) strategy capital sl_pct) as [early|] eqn:E1.
  2:{ unfold run_backtest in E1. destruct df as [|r df]; [cbn in Hk; lia|].
      destruct k; [lia|]. cbn [firstn] in E1.
      destruct (trades _); discriminate. }
  destruct (run_backtest df strategy capital sl_pct) as [full|] eqn:E2.
  2:{ unfold run_backtest in E2. destruct df as [|r df]; [cbn in Hk; lia|].
      destruct (trades _); discriminate. }
  apply run_backtest_log in E1 as (_ & Hl1 & Hc1 & _).
  apply run_backtest_log in E2 as (_ & Hl2 & Hc2 & _).
  destruct (backtest_loop_prefix strategy df k capital sl_pct)
    as (ts & ys & Ht & Hy); [lia|].
  exists early, full, ts, ys. rewrite Hl1, Hl2, Hc1, Hc2. auto.
Qed.

(** ** Statistics *)

Lemma minQ_le_hd x t : minQ (x :: t) <= x.
Proof.
  unfold minQ.
  enough (H : forall m, fold_left (fun m y => if Qltb y m then y else m) t m <= m)
    by apply H.
  induction t as [|y t IH]; intros m; cbn [fold_left]; [lra|].
  qcase (Qltb y m).
  - eapply Qle_trans; [apply IH|lra].
  - apply IH.
Qed.

Lemma filter_length_le {A} (f : A -> bool) l :
  (List.length (filter f l) <= List.length l)%nat.
Proof.
  induction l as [|a l IH]; cbn; [lia|]. destruct (f a); cbn; lia.
Qed.

(** X12. With a positive capital and positive closes the reported win
    rate lies between 0 and 100 and the reported maximum drawdown is
    never positive; a backtest without trades reports 0 for total
    return, win rate and drawdown. *)
Theorem backtest_statistics_ranges (df : frame) (strategy : Strategy)
    (capital sl_pct : Q) (res : BacktestResult) :
  0 < capital ->
  Forall (fun r => 0 < Close r) df ->
  run_backtest df strategy capital sl_pct = Some res ->
  0 <= win_rate res <= 100
  /\ max_drawdown res <= 0
  /\ (trade_log res = [] ->
      total_return res == 0 /\ win_rate res == 0 /\ max_drawdown res == 0).
Proof.
  intros Hcap _ E. unfold run_backtest in E.
  destruct df as [|r0 df']; [discriminate|]. set (df := r0 :: df') in *.
  destruct (backtest_fold_extends strategy df sl_pct
              (seq 2 (List.length df - 2))
              (mkBacktest capital None [] [capital])) as (ts & ys & _ & Hy).
  fold (backtest_loop strategy df capital sl_pct) in Hy.
  cbn [equity_curve_y app] in Hy.
  destruct (trades (backtest_loop strategy df capital sl_pct)) as [|t0 tl] eqn:Et;
    injection E as <-; cbn [win_rate max_drawdown total_return trade_log].
  - pose proof (py_round_zero 2) as Hz.
    repeat split; try (intros; exact Hz); rewrite Hz; lra.
  - split; [|split; [|discriminate]].
    + pose (w := List.length (filter (fun t => Qgtb (pnl_pct t) 0) (t0 :: tl))).
      pose (n := List.length (t0 :: tl)).
      change (0 <= py_round (inject_Z (Z.of_nat w) / inject_Z (Z.of_nat n) * 100) 2
              <= 100).
      assert (Hw : (w <= n)%nat) by apply filter_length_le.
      assert (Hn : (1 <= n)%nat) by (unfold n; cbn; lia).
      clearbody w n.
      assert (Hnq : 1 <= inject_Z (Z.of_nat n))
        by (change 1 with (inject_Z 1); rewrite <- Zle_Qle; lia).
      assert (Hwq : 0 <= inject_Z (Z.of_nat w) <= inject_Z (Z.of_nat n))
        by (split; [change 0 with (inject_Z 0)|]; rewrite <- Zle_Qle; lia).
      assert (Hr : 0 <= inject_Z (Z.of_nat w) / inject_Z (Z.of_nat n) <= 1).
      { split; [apply Qle_shift_div_l|apply Qle_shift_div_r]; lra. }
      split; [apply py_round_nonneg; lra|].
      apply Qle_trans with (py_round 100 2);
        [apply py_round_mono; lra|apply Qle_bool_iff; reflexivity].
    + apply py_round_nonpos. rewrite Hy. cbn [drawdowns combine map fst snd].
      eapply Qle_trans; [apply minQ_le_hd|].
      setoid_replace ((capital - capital) / capital * 100) with 0
        by (field; lra).
      lra.
Qed.

(** ** Two trades on six bars *)


Lemma backtest_never_looks_ahead_witness :
  exists early full later_trades later_points,
    run_backtest (firstn 4 Scenarios.backtest_frame) BollingerBounce
                 100000 0.05 = Some early
    /\ run_backtest Scenarios.backtest_frame BollingerBounce 100000 0.05
       = Some full
    /\ trade_log full = trade_log early ++ later_trades
    /\ equity_curve full = equity_curve early ++ later_points.
Proof.
  apply (backtest_never_looks_ahead Scenarios.backtest_frame 4
           BollingerBounce 100000 0.05).
  cbn; lia.
Defined.

Lemma backtest_statistics_ranges_witness :
  exists res,
    run_backtest Scenarios.backtest_frame BollingerBounce 100000 0.05
    = Some res
    /\ 0 <= win_rate res <= 100
    /\ max_drawdown res <= 0
    /\ (trade_log res = [] ->
        total_return res == 0 /\ win_rate res == 0 /\ max_drawdown res == 0).
Proof.
  eexists. split; [vm_compute; reflexivity|].
  apply (backtest_statistics_ranges Scenarios.backtest_frame BollingerBounce
           100000 0.05).
  - reflexivity.
  - apply Forall_forall. intros r Hr. apply Qltb_lt.
    revert r Hr. apply forallb_forall. vm_compute; reflexivity.
  - vm_compute; reflexivity.
Defined.

End BacktestFacts.

Module PatternFacts.
Import PyNumFacts CandleAnalysis CandleAnalysisFacts HelperFacts.
Open Scope Q_scope.

(** ** The full pattern detector *)

(** The head of a list built from one optional pattern. *)
Lemma kinds_cons (b : bool) (p : Pattern) rest ks :
  ~ In (pattern p) ks ->
  NoDup (map pattern rest) /\ incl (map pattern rest) ks ->
  NoDup (map pattern ((if b then [p] else []) ++ rest))
  /\ incl (map pattern ((if b then [p] else []) ++ rest)) (pattern p :: ks).
Proof.
  intros Hn [Hd Hi]. destruct b; cbn [app map].
  - split.
    + constructor; [|exact Hd]. intros H. apply Hn, Hi, H.
    + intros x [<-|Hx]; [left; reflexivity|right; apply Hi, Hx].
  - split; [exact Hd|]. intros x Hx. right. apply Hi, Hx.
Qed.

Lemma kinds_last (b : bool) (p : Pattern) :
  NoDup (map pattern (if b then [p] else []))
  /\ incl (map pattern (if b then [p] else [])) [pattern p].
Proof.
  destruct b; cbn.
  - split; [repeat constructor; intros []|intros x Hx; exact Hx].
  - split; [constructor|intros x []].
Qed.

Ltac kinds_chain :=
  first [ apply kinds_last | eapply kinds_cons; [ | kinds_chain ] ].

(** X19. The full pattern detector returns its patterns by descending
    confidence, each kind at most once, all of them on the latest bar,
    and none on fewer than three bars. *)
Theorem detect_patterns_full_ordered (df : frame) (volume_column : bool) :
  let ps := detect_patterns_full df volume_column in
  StronglySorted (fun p q => (confidence q <= confidence p)%Z) ps
  /\ NoDup (map pattern ps)
  /\ Forall (fun p => bar_index p = (List.length df - 1)%nat) ps
  /\ ((List.length df < 3)%nat -> ps = []).
Proof.
  cbv zeta. unfold detect_patterns_full.
  destruct (List.length df <? 3)%nat eqn:El.
  { repeat split; constructor. }
  apply Nat.ltb_ge in El.
  destruct (get_candle df 0) as [c0|];
    [|repeat split; try constructor; intros; lia].
  destruct (get_candle df 1) as [c1|];
    [|repeat split; try constructor; intros; lia].
  destruct (get_candle df 2) as [c2|];
    [|repeat split; try constructor; intros; lia].
  cbv zeta.
  split; [|split; [|split]].
  - apply sort_before_ordered.
    + intros x y z Hxy Hyz. lia.
    + intros x y H. apply Z.ltb_lt in H. lia.
    + intros x y H. apply Z.ltb_ge in H. lia.
  - eapply Permutation_NoDup.
    + apply Permutation_map. symmetry. apply sort_by_confidence_perm.
    + eapply proj1. kinds_chain; cbn; intuition discriminate.
  - rewrite sort_by_confidence_perm.
    repeat (apply Forall_app; split); apply Forall_if; intros _; reflexivity.
  - intros; lia.
Qed.

Ltac kind_one H :=
  lazymatch type of H with
  | In _ (map pattern (_ ++ _)) => fail
  | In _ (map pattern (if ?b then _ else _)) =>
      let E := fresh "Hcond" in destruct b eqn:E
  | _ => idtac
  end;
  cbn [map pattern In] in H;
  first [ destruct H as [H|[]]; try discriminate H | destruct H ].

Ltac kind_cases H :=
  first [ rewrite map_app in H; apply in_app_or in H; destruct H as [H|H];
          [kind_one H | kind_cases H]
        | kind_one H ].

Ltac split_conds :=
  repeat match goal with
         | H : _ && _ = true |- _ => apply andb_prop in H; destruct H
         end;
  unfold _is_bull, _is_bear in *; qprop.

Lemma In_sorted_kinds k l :
  In k (map pattern (sort_by_confidence l)) <-> In k (map pattern l).
Proof.
  split; apply Permutation_in, Permutation_map;
    [|symmetry]; apply sort_by_confidence_perm.
Qed.

(** X20. The full pattern detector never reports a pattern together with
    its mirror image: Long Green and Long Red Candle, Hammer and
    Shooting Star, Bullish and Bearish Engulfing, Morning and Evening
    Star, Three White Soldiers and Three Black Crows, Tweezer Top and
    Tweezer Bottom. *)
Theorem pattern_mirrors_exclusive (df : frame) (volume_column : bool) :
  let kinds := map pattern (detect_patterns_full df volume_column) in
  ~ (In LongGreenCandle kinds /\ In LongRedCandle kinds)
  /\ ~ (In Hammer kinds /\ In ShootingStar kinds)
  /\ ~ (In BullishEngulfing kinds /\ In BearishEngulfing kinds)
  /\ ~ (In MorningStar kinds /\ In EveningStar kinds)
  /\ ~ (In ThreeWhiteSoldiers kinds /\ In ThreeBlackCrows kinds)
  /\ ~ (In TweezerTop kinds /\ In TweezerBottom kinds).
Proof.
  cbv zeta. unfold detect_patterns_full.
  destruct (List.length df <? 3)%nat; [cbn; tauto|].
  destruct (get_candle df 0) as [c0|]; [|cbn; tauto].
  destruct (get_candle df 1) as [c1|]; [|cbn; tauto].
  destruct (get_candle df 2) as [c2|]; [|cbn; tauto].
  cbv zeta. pose proof (body_nonneg c0) as Hb.
  repeat split; intros [H1 H2];
    apply (proj1 (In_sorted_kinds _ _)) in H1;
    apply (proj1 (In_sorted_kinds _ _)) in H2;
    kind_cases H1; kind_cases H2; split_conds; lra.
Qed.

(** X21. Inverted Hammer and Shooting Star share their wick test, so on a
    latest bar whose body is under 35 per cent of its range an Inverted
    Hammer (BUY) is always reported together with a Shooting Star
    (SELL): the two patterns contradict each other on the same bar. *)
Theorem inverted_hammer_comes_with_shooting_star
    (df : frame) (volume_column : bool) (c0 : row) :
  get_candle df 0 = Some c0 ->
  _body_pct c0 < 0.35 ->
  let ps := detect_patterns_full df volume_column in
  (exists p, In p ps /\ pattern p = InvertedHammer) ->
  (exists p, In p ps /\ pattern p = InvertedHammer /\ ptype p = BUY)
  /\ (exists q, In q ps /\ pattern q = ShootingStar /\ ptype q = SELL).
Proof.
  intros H0 Hpct. cbv zeta. unfold detect_patterns_full.
  destruct (List.length df <? 3)%nat; [intros (p & [] & _)|].
  rewrite H0.
  destruct (get_candle df 1) as [c1|]; [|intros (p & [] & _)].
  destruct (get_candle df 2) as [c2|]; [|intros (p & [] & _)].
  cbv zeta. intros (p & Hp & Hk).
  apply (in_map pattern) in Hp. rewrite Hk in Hp. clear Hk.
  apply (proj1 (In_sorted_kinds _ _)) in Hp. kind_cases Hp. split_conds.
  assert (Hs : Qgtb (_upper_wick c0) (_body c0 * 2.0)
               && Qltb (_lower_wick c0) (_body c0 * 0.5)
               && Qltb (_body_pct c0) 0.35 = true).
  { rewrite !andb_true_iff. repeat split; qprop; assumption. }
  rewrite Hs.
  split; eexists; (split; [eapply Permutation_in;
                             [symmetry; apply sort_by_confidence_perm|]|]).
  - rewrite !in_app_iff. do 4 right. left. left. reflexivity.
  - split; reflexivity.
  - rewrite !in_app_iff. do 3 right. left. left. reflexivity.
  - split; reflexivity.
Qed.

(** ** Concrete frames *)

Lemma inverted_hammer_comes_with_shooting_star_witness :
  (exists p, In p (detect_patterns_full Scenarios.inverted_hammer_frame true)
             /\ pattern p = InvertedHammer /\ ptype p = BUY)
  /\ (exists q, In q (detect_patterns_full Scenarios.inverted_hammer_frame true)
                /\ pattern q = ShootingStar /\ ptype q = SELL).
Proof.
  apply (inverted_hammer_comes_with_shooting_star
           Scenarios.inverted_hammer_frame true
           (Scenarios.bar 10 11 10 10.1 1000)).
  - reflexivity.
  - vm_compute; reflexivity.
  - vm_compute. eexists. split; [right; left; reflexivity|reflexivity].
Defined.

End PatternFacts.

Module ScanFacts.
Import Scanner PyNumFacts ScannerFacts HelperFacts.
Open Scope Q_scope.

(** ** Scan rows *)

Lemma calculate_signal_score_range df :
  (0 <= fst (fst (Signals.calculate_signal_score df)) <= 100)%Z.
Proof.
  unfold Signals.calculate_signal_score.
  destruct (List.length df <? 5)%nat; [cbn; lia|].
  destruct (iloc_neg df 1); [destruct (iloc_neg df 2)|]; cbn [fst];
    try (cbn; lia).
  apply SignalsFacts.clamp_score_range.
Qed.

Lemma zone_points_nonneg z : 0 <= zone_points z.
Proof.
  unfold zone_points. destruct z; [|lra].
  repeat match goal with |- context [if ?b then _ else _] => destruct b end; lra.
Qed.

Lemma volume_points_nonneg v : 0 <= volume_points v.
Proof.
  unfold volume_points.
  repeat match goal with |- context [if ?b then _ else _] => destruct b end; lra.
Qed.

(** The Fibonacci score is capped at 100 and cannot go below zero. *)
Lemma fib_score_range zp prox (score : Z) vp rp :
  0 <= zp -> 0 <= vp -> 0 <= rp -> (0 <= score)%Z ->
  let total := zp + py_max 0.0 prox + (inject_Z score / 100.0) * 20.0 + vp + rp in
  0 <= py_min 100.0 (py_round total 1) <= 100.
Proof.
  intros Hz Hv Hr Hs total.
  assert (Ht : 0 <= total).
  { unfold total. pose proof (py_max_ge_l 0.0 prox).
    assert (0 <= inject_Z score) by (change 0 with (inject_Z 0); rewrite <- Zle_Qle; exact Hs).
    assert (0 <= inject_Z score / 100.0 * 20.0).
    { unfold Qdiv. setoid_replace (inject_Z score * / 100.0 * 20.0)
        with (inject_Z score * 0.2) by (field). lra. }
    lra. }
  split.
  - apply py_min_glb; [lra|apply py_round_nonneg, Ht].
  - pose proof (py_min_le_l 100.0 (py_round total 1)). lra.
Qed.

Lemma intraday_signal_score_range df score sigs regime :
  _intraday_signal_score df = Some (score, sigs, regime) ->
  (0 <= score <= 100)%Z /\ regime = intraday_regime score.
Proof.
  unfold _intraday_signal_score.
  pass (List.length df <? 5)%nat.
  { intros H; injection H as <- <- <-. split; [lia|reflexivity]. }
  repeat match goal with
         | |- context [match ?x with Some _ => _ | None => _ end] => pass x
         end.
  intros H; injection H as <- <- <-.
  split; [apply SignalsFacts.clamp_score_range|reflexivity].
Qed.

Lemma risk_pct_floor x n : (1 <= n)%nat -> 0.1 <= py_round (py_max x 0.1) n.
Proof.
  intros Hn. apply Qle_trans with (py_round 0.1 n).
  - unfold py_round. pose proof (pow10_pos n) as Hp.
    apply Qle_shift_div_l; [exact Hp|].
    assert (E : 0.1 * pow10 n == inject_Z (10 ^ Z.of_nat (n - 1))).
    { unfold pow10. replace (Z.of_nat n) with (1 + Z.of_nat (n - 1))%Z by lia.
      rewrite Z.pow_add_r by lia. rewrite inject_Z_mult.
      change (inject_Z (10 ^ 1)) with 10. ring. }
    rewrite (round_half_even_comp _ _ E), round_half_even_Z. rewrite E. lra.
  - apply py_round_mono, py_max_ge_r.
Qed.

Lemma reward_ratio_nonneg tp1 current risk n :
  0 < current -> 0.1 <= risk ->
  0 <= py_round (Qabs (tp1 - current) / current * 100 / risk) n.
Proof.
  intros Hc Hr. apply py_round_nonneg.
  pose proof (Qabs_nonneg (tp1 - current)) as Ha.
  assert (Hic : 0 < / current) by (apply Qinv_lt_0_compat, Hc).
  assert (Hir : 0 < / risk) by (apply Qinv_lt_0_compat; lra).
  unfold Qdiv.
  repeat apply Qmult_le_0_compat; lra.
Qed.

(** X23. Every row a scan task returns, swing or intraday, names the
    symbol it was asked for, has a Fibonacci score in [0, 100] and the
    grade that score gives, a signal score in [0, 100], a risk of at
    least 0.1 per cent and a non-negative risk/reward. *)
Theorem scan_result_bounds (sym : string) (df : frame) (r : ScanResult) :
  _scan_one sym df = Some r \/ _scan_intraday sym df = Some r ->
  symbol r = sym
  /\ 0 <= fib_score r <= 100
  /\ grade r = grade_of (fib_score r)
  /\ (0 <= signal_score r <= 100)%Z
  /\ 0.1 <= risk_pct r
  /\ 0 <= risk_reward r.
Proof.
  intros [H|H]; revert H.
  - unfold _scan_one. cbv zeta.
    pass (List.length df <? 15)%nat.
    pass (iloc_neg df 1).
    pass (Qleb (Close r0) 0).
    pass (Qleb (maxQ (map High df) - minQ (map Low df)) 0).
    pass (swing_trend df r0).
    match goal with |- context [nearest_key ?a ?b] => pass (nearest_key a b) end.
    pass (pydiv (Close r0 - q) q).
    match goal with |- context [pydiv ?a ?b] => pass (pydiv a b) end.
    pose proof (calculate_signal_score_range df) as Hs.
    pass (Signals.calculate_signal_score df). pass p. cbn [fst] in Hs.
    intros H. injection H as <-.
    cbn [symbol fib_score grade signal_score risk_pct risk_reward].
    qprop.
    split; [reflexivity|]. split.
    { apply fib_score_range;
        [apply zone_points_nonneg | apply volume_points_nonneg | | lia].
      repeat match goal with |- context [if ?b then _ else _] => destruct b end;
        lra. }
    split; [reflexivity|]. split; [exact Hs|].
    split; [apply risk_pct_floor; lia|].
    apply reward_ratio_nonneg; [assumption|apply py_max_ge_r].
  - unfold _scan_intraday. cbv zeta.
    pass (List.length df <? 10)%nat.
    pass (iloc_neg df 1).
    pass (Qleb (Close r0) 0).
    match goal with |- context [Qltb ?a (Close r0 * 0.001)] =>
      pass (Qltb a (Close r0 * 0.001)) end.
    pass (intraday_trend df r0).
    match goal with |- context [nearest_key ?a ?b] => pass (nearest_key a b) end.
    pass (pydiv (Close r0 - q) q).
    match goal with |- context [pydiv ?a ?b] => pass (pydiv a b) end.
    pass (_intraday_signal_score df). pass p. pass p0.
    match goal with |- context [pydiv ?a ?b] => pass (pydiv a b) end.
    match goal with |- context [pydiv ?a ?b] => pass (pydiv a b) end.
    match goal with H : _intraday_signal_score df = Some _ |- _ =>
      apply intraday_signal_score_range in H as [Hs _] end.
    intros H. injection H as <-.
    cbn [symbol fib_score grade signal_score risk_pct risk_reward].
    qprop.
    split; [reflexivity|]. split.
    { apply fib_score_range;
        [apply zone_points_nonneg | apply volume_points_nonneg | | lia].
      repeat match goal with |- context [if ?b then _ else _] => destruct b end;
        lra. }
    split; [reflexivity|]. split; [exact Hs|].
    split; [apply risk_pct_floor; lia|].
    apply reward_ratio_nonneg; [assumption|apply py_max_ge_r].
Qed.

Lemma tp_candidates_side f up current um dm ratios t :
  0 < current -> 1 <= um -> dm <= 1 ->
  In t (tp_candidates f up current um dm ratios) ->
  if up then py_round current 2 <= t else t <= py_round current 2.
Proof.
  intros Hc Hu Hd Hin. unfold tp_candidates in Hin.
  apply in_flat_map in Hin as (r & _ & Hin).
  destruct up; cbn [andb negb] in Hin.
  - qcase (Qgtb (f r) (current * um)); [|destruct Hin].
    destruct Hin as [<-|[]]. apply py_round_mono. nra.
  - qcase (Qltb (f r) (current * dm)); [|destruct Hin].
    destruct Hin as [<-|[]]. apply py_round_mono. nra.
Qed.

Lemma target_pick_side (up : bool) current tps fb1 fb2 :
  (forall t, In t tps ->
     if up then py_round current 2 <= t else t <= py_round current 2) ->
  (if up then current <= fb1 /\ current <= fb2
   else fb1 <= current /\ fb2 <= current) ->
  let tp1 := match tps with t :: _ => t | [] => py_round fb1 2 end in
  let tp2 := match tps with _ :: t :: _ => t | _ => py_round fb2 2 end in
  if up then py_round current 2 <= tp1 /\ py_round current 2 <= tp2
  else tp1 <= py_round current 2 /\ tp2 <= py_round current 2.
Proof.
  intros Hin Hfb. cbv zeta.
  destruct up; destruct Hfb as [H1 H2];
    (split;
     [ destruct tps as [|t tps']; [apply py_round_mono, H1|apply (Hin t); cbn; auto]
     | destruct tps as [|t [|t' tps']];
       [apply py_round_mono, H2 | apply py_round_mono, H2
       | apply (Hin t'); cbn; auto] ]).
Qed.

(** X24. In a scan row both targets lie on the profit side of the reported
    price: at or above it when the detected trend is up, at or below it
    when the trend is down. *)
Theorem scan_targets_side_of_price (sym : string) (df : frame) (r : ScanResult) :
  _scan_one sym df = Some r \/ _scan_intraday sym df = Some r ->
  if is_uptrend r then price r <= tp1 r /\ price r <= tp2 r
  else tp1 r <= price r /\ tp2 r <= price r.
Proof.
  intros [H|H]; revert H.
  - unfold _scan_one. cbv zeta.
    pass (List.length df <? 15)%nat.
    pass (iloc_neg df 1).
    pass (Qleb (Close r0) 0).
    pass (Qleb (maxQ (map High df) - minQ (map Low df)) 0).
    pass (swing_trend df r0).
    match goal with |- context [nearest_key ?a ?b] => pass (nearest_key a b) end.
    pass (pydiv (Close r0 - q) q).
    match goal with |- context [pydiv ?a ?b] => pass (pydiv a b) end.
    pass (Signals.calculate_signal_score df). pass p.
    intros H. qprop.
    match type of H with
    | context [tp_candidates ?f ?u ?c ?um ?dm ?rs] =>
        pose proof (fun t => tp_candidates_side f u c um dm rs t) as Hside;
        set (tps := tp_candidates f u c um dm rs) in *; clearbody tps
    end.
    injection H as <-. cbn [is_uptrend price tp1 tp2].
    apply target_pick_side.
    + intros t Ht. apply Hside; [lra..|exact Ht].
    + destruct b; split; nra.
  - unfold _scan_intraday. cbv zeta.
    pass (List.length df <? 10)%nat.
    pass (iloc_neg df 1).
    pass (Qleb (Close r0) 0).
    match goal with |- context [Qltb ?a (Close r0 * 0.001)] =>
      pass (Qltb a (Close r0 * 0.001)) end.
    pass (intraday_trend df r0).
    match goal with |- context [nearest_key ?a ?b] => pass (nearest_key a b) end.
    pass (pydiv (Close r0 - q) q).
    match goal with |- context [pydiv ?a ?b] => pass (pydiv a b) end.
    pass (_intraday_signal_score df). pass p. pass p0.
    match goal with |- context [pydiv ?a ?b] => pass (pydiv a b) end.
    match goal with |- context [pydiv ?a ?b] => pass (pydiv a b) end.
    intros H. qprop.
    match type of H with
    | context [tp_candidates ?f ?u ?c ?um ?dm ?rs] =>
        pose proof (fun t => tp_candidates_side f u c um dm rs t) as Hside;
        set (tps := tp_candidates f u c um dm rs) in *; clearbody tps
    end.
    injection H as <-. cbn [is_uptrend price tp1 tp2].
    apply target_pick_side.
    + intros t Ht. apply Hside; [lra..|exact Ht].
    + destruct b; split; nra.
Qed.

(** X25. A scan task returns a row only for a positive last close, which
    the row reports rounded to cents.  The swing scan needs 15 bars and
    a swing high above the swing low; the intraday scan, whose rows are
    the ones with a VWAP, needs 10 bars, a swing range of at least 0.1
    per cent of the price over the last 40 bars and a non-zero open. *)
Theorem scan_needs_history_and_range (sym : string) (df : frame) (r : ScanResult) :
  _scan_one sym df = Some r \/ _scan_intraday sym df = Some r ->
  exists last,
    iloc_neg df 1 = Some last
    /\ 0 < Close last
    /\ price r = py_round (Close last) 2
    /\ match vwap r with
       | None =>
           (15 <= List.length df)%nat
           /\ minQ (map Low df) < maxQ (map High df)
       | Some _ =>
           (10 <= List.length df)%nat
           /\ Close last * 0.001
              <= maxQ (map High (lastn 40 df)) - minQ (map Low (lastn 40 df))
           /\ ~ Open last == 0
       end.
Proof.
  intros [H|H]; revert H.
  - unfold _scan_one. cbv zeta.
    pass (List.length df <? 15)%nat.
    pass (iloc_neg df 1).
    pass (Qleb (Close r0) 0).
    pass (Qleb (maxQ (map High df) - minQ (map Low df)) 0).
    pass (swing_trend df r0).
    match goal with |- context [nearest_key ?a ?b] => pass (nearest_key a b) end.
    pass (pydiv (Close r0 - q) q).
    match goal with |- context [pydiv ?a ?b] => pass (pydiv a b) end.
    pass (Signals.calculate_signal_score df). pass p.
    intros H. injection H as <-. cbn [price vwap]. qprop.
    exists r0. repeat split; auto; [apply Nat.ltb_ge; assumption|lra].
  - unfold _scan_intraday. cbv zeta.
    pass (List.length df <? 10)%nat.
    pass (iloc_neg df 1).
    pass (Qleb (Close r0) 0).
    match goal with |- context [Qltb ?a (Close r0 * 0.001)] =>
      pass (Qltb a (Close r0 * 0.001)) end.
    pass (intraday_trend df r0).
    match goal with |- context [nearest_key ?a ?b] => pass (nearest_key a b) end.
    pass (pydiv (Close r0 - q) q).
    match goal with |- context [pydiv ?a ?b] => pass (pydiv a b) end.
    pass (_intraday_signal_score df). pass p. pass p0.
    match goal with |- context [pydiv ?a ?b] => pass (pydiv a b) end.
    match goal with |- context [pydiv ?a ?b] => pass (pydiv a b) end.
    intros H. injection H as <-. cbn [price vwap].
    match goal with H : pydiv (Close r0 - Open r0) (Open r0) = Some _ |- _ =>
      unfold pydiv in H; destruct (Qeqb (Open r0) 0) eqn:Eo; [discriminate|] end.
    qprop.
    exists r0. repeat split; auto; [apply Nat.ltb_ge; assumption|].
    assert (El : lastn (Nat.min (List.length df) 40) df = lastn 40 df).
    { unfold lastn. f_equal. lia. }
    rewrite <- El. assumption.
Qed.

(** ** The intraday scorer *)

(** X26. The intraday scorer returns a score in [0, 100] and reads the
    regime off it: BULL_MOMENTUM exactly for a score of 65 or more,
    BEAR_MOMENTUM exactly for 35 or less, SIDEWAYS in between. *)
Theorem intraday_score_and_regime (df : frame) (score : Z)
    (sigs : list Signals.Signal) (regime : Signals.Regime) :
  _intraday_signal_score df = Some (score, sigs, regime) ->
  (0 <= score <= 100)%Z
  /\ (regime = Signals.BULL_MOMENTUM <-> (65 <= score)%Z)
  /\ (regime = Signals.BEAR_MOMENTUM <-> (score <= 35)%Z)
  /\ (regime = Signals.SIDEWAYS <-> (35 < score < 65)%Z).
Proof.
  intros H.
  assert (Hr : (0 <= score <= 100)%Z /\ regime = intraday_regime score).
  { revert H. unfold _intraday_signal_score.
    pass (List.length df <? 5)%nat.
    { intros H; injection H as <- <- <-. split; [lia|reflexivity]. }
    repeat match goal with
           | |- context [match ?x with Some _ => _ | None => _ end] => pass x
           end.
    intros H; injection H as <- <- <-.
    split; [apply SignalsFacts.clamp_score_range|reflexivity]. }
  destruct Hr as [Hs ->]. split; [exact Hs|]. unfold intraday_regime.
  destruct (65 <=? score)%Z eqn:E1; [apply Z.leb_le in E1|apply Z.leb_gt in E1];
    [|destruct (score <=? 35)%Z eqn:E2;
      [apply Z.leb_le in E2|apply Z.leb_gt in E2]];
    repeat split; intros; try discriminate; try lia; reflexivity.
Qed.

(** X27. On a frame of five bars or more the intraday scorer fails exactly
    when the frame lacks one of the columns it indexes: EMA9, EMA21,
    RSI, MACD, MACD_signal, MACD_hist, Vol_ratio, BB_upper or BB_lower
    on the last bar, MACD_hist on the bar before it.  Undefined values
    in these columns are replaced by defaults and do not fail. *)
Theorem intraday_score_raises_on_missing_column (df : frame) (last prev : row) :
  (5 <= List.length df)%nat ->
  iloc_neg df 1 = Some last ->
  iloc_neg df 2 = Some prev ->
  (_intraday_signal_score df = None
   <-> (EMA9 last = None \/ EMA21 last = None \/ RSI last = None
        \/ MACD last = None \/ MACD_signal last = None
        \/ MACD_hist last = None \/ Vol_ratio last = None
        \/ BB_upper last = None \/ BB_lower last = None
        \/ MACD_hist prev = None)).
Proof.
  intros Hl H1 H2. unfold _intraday_signal_score.
  replace (List.length df <? 5)%nat with false
    by (symmetry; apply Nat.ltb_ge; exact Hl).
  rewrite H1, H2. unfold value_or.
  destruct (EMA9 last) as [e9|]; [|tauto].
  destruct (EMA21 last) as [e21|]; [|tauto].
  destruct (RSI last) as [[|?]|]; try tauto;
  destruct (MACD last) as [[|?]|]; try tauto;
  destruct (MACD_signal last) as [[|?]|]; try tauto;
  destruct (MACD_hist last) as [[|?]|]; try tauto;
  destruct (Vol_ratio last) as [[|?]|]; try tauto;
  destruct (BB_upper last) as [[|?]|]; try tauto;
  destruct (BB_lower last) as [[|?]|]; try tauto;
  destruct (MACD_hist prev) as [[|?]|]; try tauto;
  (split; [discriminate|]; intros H; repeat destruct H as [H|H]; discriminate).
Qed.

(** ** Scan runs *)

Lemma scan_loop_collected total cb completed st :
  collected (fold_left (scan_iteration total cb) completed st)
  = collected st ++ successes completed.
Proof.
  revert st. induction completed as [|[sym out] l IH]; intros st;
    cbn [fold_left successes flat_map].
  - rewrite app_nil_r. reflexivity.
  - rewrite IH. unfold scan_iteration. cbn [fst snd].
    destruct out as [[r|]|]; cbn [collected]; fold (@successes string l);
      rewrite <- ?app_assoc; reflexivity.
Qed.

Lemma filter_filter {A} (f g : A -> bool) l :
  filter g (filter f l) = filter (fun x => f x && g x) l.
Proof.
  induction l as [|x l IH]; cbn; [reflexivity|].
  destruct (f x); cbn; [destruct (g x); rewrite IH; reflexivity|exact IH].
Qed.

(** X28. The rows of a Fibonacci scan (and of a day-trade scan, which runs
    the same loop) are exactly the returned rows that reach both
    thresholds, in descending order of Fibonacci score; tasks that
    returned nothing or raised leave no row. *)
Theorem run_fibonacci_scan_rows (symbols : list string) (min_fib_score min_rr : Q)
    (progress_callback : bool) (completed : list (string * Outcome)) :
  let rows :=
    fst (run_fibonacci_scan symbols min_fib_score min_rr progress_callback
                            completed) in
  let passes r :=
    Qgeb (fib_score r) min_fib_score && Qgeb (risk_reward r) min_rr in
  Permutation rows (filter passes (successes completed))
  /\ StronglySorted (fun a b => fib_score b <= fib_score a) rows
  /\ Forall (fun r => min_fib_score <= fib_score r /\ min_rr <= risk_reward r)
            rows.
Proof.
  cbv zeta. unfold run_fibonacci_scan. cbn [fst].
  rewrite scan_loop_collected. cbn [collected app]. rewrite filter_filter.
  assert (P : Permutation
                (sort_before (fun a b => Qgtb (fib_score a) (fib_score b))
                   (filter (fun r => Qgeb (fib_score r) min_fib_score
                                     && Qgeb (risk_reward r) min_rr)
                      (successes completed)))
                (filter (fun r => Qgeb (fib_score r) min_fib_score
                                  && Qgeb (risk_reward r) min_rr)
                   (successes completed)))
    by apply sort_before_perm.
  split; [exact P|]. split.
  - apply sort_before_ordered.
    + intros x y z Hxy Hyz. lra.
    + intros x y H. qprop. lra.
    + intros x y H. qprop. lra.
  - rewrite P. apply Forall_forall. intros r Hr.
    apply filter_In in Hr as [_ Hr]. apply andb_true_iff in Hr as [H1 H2].
    qprop. split; assumption.
Qed.

(** ** The multi-timeframe store *)

Lemma dict_get_In {V} k (d : dict V) v : dict_get k d = Some v -> In (k, v) d.
Proof.
  induction d as [|[k' v'] d IH]; cbn; [discriminate|].
  destruct (String.eqb k k') eqn:E.
  - apply String.eqb_eq in E. subst k'. intros H; injection H as ->. auto.
  - intros H. right. apply IH, H.
Qed.

Lemma dict_set_keys {V} k (v : V) d :
  incl (map fst (dict_set k v d)) (k :: map fst d).
Proof.
  induction d as [|[k' v'] d IH]; cbn.
  - intros x Hx. exact Hx.
  - destruct (String.eqb k k') eqn:E.
    + apply String.eqb_eq in E. subst k'. cbn. intros x [H|H]; cbn; auto.
    + cbn. intros x [H|H]; [cbn; auto|].
      apply IH in H. destruct H as [H|H]; cbn; auto.
Qed.

Lemma dict_set_nodup {V} k (v : V) d :
  NoDup (map fst d) -> NoDup (map fst (dict_set k v d)).
Proof.
  induction d as [|[k' v'] d IH]; cbn; intros H.
  - repeat constructor. intros [].
  - inversion H as [|? ? Hn Hd]; subst.
    destruct (String.eqb k k') eqn:E.
    + apply String.eqb_eq in E. subst k'. cbn. constructor; assumption.
    + cbn. constructor; [|apply IH, Hd].
      intros Hin. apply dict_set_keys in Hin. destruct Hin as [Hin|Hin].
      * subst k'. rewrite String.eqb_refl in E. discriminate.
      * exact (Hn Hin).
Qed.

Lemma dict_set_Forall {V} (P : string * V -> Prop) k v d :
  Forall P d -> P (k, v) -> Forall P (dict_set k v d).
Proof.
  induction d as [|[k' v'] d IH]; cbn; intros H Hp.
  - constructor; [exact Hp|constructor].
  - inversion H; subst. destruct (String.eqb k k'); constructor; auto.
Qed.

Lemma dict_set_nonempty {V} k (v : V) d : dict_set k v d <> [].
Proof. destruct d as [|[k' v'] d]; cbn; [|destruct (String.eqb k k')]; discriminate. Qed.

Lemma mtf_iteration_store total cb st fut :
  store_ok (collected st) -> carries_own_symbol fut ->
  store_ok (collected (mtf_iteration total cb st fut)).
Proof.
  intros [Hn Hf] Hs. destruct fut as [[sym p] out].
  unfold mtf_iteration, carries_own_symbol in *. cbn [fst snd] in *.
  destruct out as [[r|]|]; cbn [collected]; try (split; assumption).
  split; [apply dict_set_nodup, Hn|].
  apply dict_set_Forall; [exact Hf|]. cbn [fst snd].
  apply dict_set_Forall; [|exact Hs].
  destruct (dict_get sym (collected st)) as [d|] eqn:E; [|constructor].
  apply dict_get_In in E. rewrite Forall_forall in Hf.
  exact (Hf _ E).
Qed.

Lemma mtf_loop_store total cb completed st :
  store_ok (collected st) -> Forall carries_own_symbol completed ->
  store_ok (collected (fold_left (mtf_iteration total cb) completed st)).
Proof.
  revert st. induction completed as [|fut l IH]; intros st Hs Hc;
    cbn [fold_left]; [exact Hs|].
  inversion Hc; subst. apply IH; [apply mtf_iteration_store|]; assumption.
Qed.

Lemma merge_symbol_primary min_fib d row :
  merge_symbol min_fib d = Some row -> exists p, In (p, primary row) d.
Proof.
  unfold merge_symbol. destruct d as [|[p0 first] d']; [discriminate|].
  intros H.
  assert (Hp : primary row
               = match dict_get "6mo" ((p0, first) :: d') with
                 | Some r => r
                 | None => first
                 end) by (injection H as <-; reflexivity).
  rewrite Hp. clear H Hp.
  destruct (dict_get "6mo" ((p0, first) :: d')) as [r|] eqn:E.
  - exists "6mo"%string. apply dict_get_In, E.
  - exists p0. left. reflexivity.
Qed.

Lemma merged_symbols min_fib raw :
  store_ok raw ->
  let merged :=
    flat_map (fun kv => match merge_symbol min_fib (snd kv) with
                        | Some row => [row]
                        | None => []
                        end) raw in
  NoDup (map (fun row => symbol (primary row)) merged)
  /\ incl (map (fun row => symbol (primary row)) merged) (map fst raw).
Proof.
  intros [Hn Hf]. cbv zeta. induction raw as [|[k d] raw IH].
  - cbn. split; [constructor|intros x []].
  - inversion Hn as [|? ? Hk Hn']; subst. inversion Hf as [|? ? Hd Hf']; subst.
    destruct (IH Hn' Hf') as [IHn IHi]. cbn [flat_map snd map fst].
    destruct (merge_symbol min_fib d) as [row|] eqn:E.
    + cbn [app map].
      apply merge_symbol_primary in E as [p Hp].
      rewrite Forall_forall in Hd. specialize (Hd _ Hp). cbn [fst snd] in Hd.
      rewrite Hd. split.
      * constructor; [|exact IHn]. intros Hin. apply IHi in Hin. exact (Hk Hin).
      * intros x [Hx|Hx]; [left; exact Hx|right; apply IHi, Hx].
    + cbn [app]. split; [exact IHn|]. intros x Hx. right. apply IHi, Hx.
Qed.

Lemma NoDup_map_filter {A B} (g : A -> B) (f : A -> bool) l :
  NoDup (map g l) -> NoDup (map g (filter f l)).
Proof.
  induction l as [|x l IH]; cbn; intros H; [constructor|].
  inversion H as [|? ? Hx Hl]; subst.
  destruct (f x); [|apply IH, Hl]. cbn. constructor; [|apply IH, Hl].
  intros Hin. apply Hx. apply in_map_iff in Hin as (y & Hy & Hin).
  apply filter_In in Hin as [Hin _]. apply in_map_iff. eauto.
Qed.

(** X29. When every task's row names the symbol it was submitted for, the
    multi-timeframe scan returns at most one row per symbol, ordered by
    the number of passed timeframes and then by multi-timeframe score,
    both descending, and every row reaches the score and risk/reward
    thresholds. *)
Theorem run_multi_timeframe_scan_rows (symbols periods : list string)
    (min_fib_score min_rr : Q) (progress_callback : bool)
    (completed : list ((string * string) * Outcome)) :
  Forall carries_own_symbol completed ->
  let rows :=
    fst (run_multi_timeframe_scan symbols periods min_fib_score min_rr
                                  progress_callback completed) in
  NoDup (map (fun row => symbol (primary row)) rows)
  /\ StronglySorted
       (fun a b => (passed_tfs b < passed_tfs a)%nat
                   \/ (passed_tfs a = passed_tfs b
                       /\ mtf_score b <= mtf_score a)) rows
  /\ Forall (fun row => min_fib_score <= mtf_score row
                        /\ min_rr <= risk_reward (primary row)) rows.
Proof.
  intros Hc. cbv zeta. unfold run_multi_timeframe_scan. cbn [fst].
  set (st := fold_left _ completed _).
  assert (Hs : store_ok (collected st)).
  { apply mtf_loop_store; [|exact Hc]. split; constructor. }
  destruct (merged_symbols min_fib_score _ Hs) as [Hn _].
  set (merged := flat_map _ (collected st)) in *.
  rewrite filter_filter.
  set (rows := filter _ merged).
  pose proof (sort_before_perm
                (fun a b => (passed_tfs b <? passed_tfs a)%nat
                            || ((passed_tfs a =? passed_tfs b)%nat
                                && Qgtb (mtf_score a) (mtf_score b))) rows) as P.
  split; [|split].
  - apply (Permutation_NoDup (l := map (fun row => symbol (primary row)) rows)).
    + apply Permutation_map. symmetry. exact P.
    + apply NoDup_map_filter, Hn.
  - apply sort_before_ordered.
    + intros x y z [H1|[H1 H1']] [H2|[H2 H2']]; try (left; lia).
      right. split; [lia|lra].
    + intros x y H. apply orb_true_iff in H as [H|H].
      * apply Nat.ltb_lt in H. left. exact H.
      * apply andb_true_iff in H as [H H']. apply Nat.eqb_eq in H. qprop.
        right. split; [exact H|lra].
    + intros x y H. apply orb_false_iff in H as [H H'].
      apply Nat.ltb_ge in H. apply andb_false_iff in H'.
      destruct (Nat.eq_dec (passed_tfs x) (passed_tfs y)) as [e|n].
      * destruct H' as [H'|H']; [apply Nat.eqb_neq in H'; contradiction|].
        qprop. right. split; [symmetry; exact e|exact H'].
      * left. lia.
  - rewrite P. apply Forall_forall. intros r Hr. unfold rows in Hr.
    apply filter_In in Hr as [_ Hr]. apply andb_true_iff in Hr as [H1 H2].
    qprop. split; assumption.
Qed.

(** ** Concrete scans *)

Lemma scan_result_bounds_witness :
  exists r,
    _scan_one "PTT" Scenarios.slow_rise_frame = Some r
    /\ symbol r = "PTT"%string
    /\ 0 <= fib_score r <= 100
    /\ grade r = grade_of (fib_score r)
    /\ (0 <= signal_score r <= 100)%Z
    /\ 0.1 <= risk_pct r
    /\ 0 <= risk_reward r.
Proof.
  eexists. split; [vm_compute; reflexivity|].
  apply (scan_result_bounds "PTT" Scenarios.slow_rise_frame).
  left. vm_compute; reflexivity.
Defined.

Lemma scan_targets_side_of_price_witness :
  exists r,
    _scan_intraday "PTT" Scenarios.intraday_frame = Some r
    /\ (if is_uptrend r then price r <= tp1 r /\ price r <= tp2 r
        else tp1 r <= price r /\ tp2 r <= price r).
Proof.
  eexists. split; [vm_compute; reflexivity|].
  apply (scan_targets_side_of_price "PTT" Scenarios.intraday_frame).
  right. vm_compute; reflexivity.
Defined.

Lemma scan_needs_history_and_range_witness :
  exists r last,
    _scan_one "PTT" Scenarios.slow_rise_frame = Some r
    /\ iloc_neg Scenarios.slow_rise_frame 1 = Some last
    /\ 0 < Close last
    /\ price r = py_round (Close last) 2.
Proof.
  assert (E : exists r, _scan_one "PTT" Scenarios.slow_rise_frame = Some r)
    by (eexists; vm_compute; reflexivity).
  destruct E as [r E].
  destruct (scan_needs_history_and_range "PTT" Scenarios.slow_rise_frame r
              (or_introl E)) as (last & Hl & Hc & Hp & _).
  exists r, last. auto.
Defined.

Lemma intraday_score_and_regime_witness :
  exists score sigs regime,
    _intraday_signal_score Scenarios.intraday_frame
    = Some (score, sigs, regime)
    /\ (0 <= score <= 100)%Z
    /\ (regime = Signals.BULL_MOMENTUM <-> (65 <= score)%Z)
    /\ (regime = Signals.BEAR_MOMENTUM <-> (score <= 35)%Z)
    /\ (regime = Signals.SIDEWAYS <-> (35 < score < 65)%Z).
Proof.
  let o := eval vm_compute in
    (_intraday_signal_score Scenarios.intraday_frame) in
  lazymatch o with
  | Some (?sc, ?sg, ?rg) =>
      exists sc, sg, rg; split; [vm_compute; reflexivity|];
      exact (intraday_score_and_regime Scenarios.intraday_frame sc sg rg
               ltac:(vm_compute; reflexivity))
  end.
Defined.

(** The daily frame of [buy_frame] has no volume ratio and no Bollinger
    bands: the intraday scorer fails on it. *)
Lemma intraday_score_raises_on_missing_column_witness :
  _intraday_signal_score Scenarios.buy_frame = None.
Proof.
  apply (intraday_score_raises_on_missing_column Scenarios.buy_frame
           Scenarios.aligned_bar (Scenarios.bar 106 108 105 107 1000)).
  - cbn; lia.
  - reflexivity.
  - reflexivity.
  - do 6 right. left. reflexivity.
Defined.

Lemma run_multi_timeframe_scan_rows_witness :
  let rows :=
    fst (run_multi_timeframe_scan ["PTT"%string]
           ["3mo"%string; "6mo"%string; "1y"%string] 50 1 true
           Scenarios.mtf_completed) in
  NoDup (map (fun row => symbol (primary row)) rows)
  /\ StronglySorted
       (fun a b => (passed_tfs b < passed_tfs a)%nat
                   \/ (passed_tfs a = passed_tfs b
                       /\ mtf_score b <= mtf_score a)) rows
  /\ Forall (fun row => 50 <= mtf_score row
                        /\ 1 <= risk_reward (primary row)) rows.
Proof.
  apply (run_multi_timeframe_scan_rows ["PTT"%string]
           ["3mo"%string; "6mo"%string; "1y"%string] 50 1 true
           Scenarios.mtf_completed).
  repeat constructor.
Defined.

End ScanFacts.

Module DataFetcherFacts.
Import DataFetcher.

(** X30. For a clock whose minute is below 60 the market is reported open
    exactly on Monday to Friday between 10:00 and 12:30 or between
    14:30 and 17:00, bounds included: in minutes of the day, 600 to 750
    or 870 to 1020. *)
Theorem market_hours_in_minutes (now : Clock) :
  (minute now < 60)%nat ->
  let t := (60 * hour now + minute now)%nat in
  is_market_open now = true
  <-> (weekday now < 5)%nat
      /\ ((600 <= t <= 750)%nat \/ (870 <= t <= 1020)%nat).
Proof.
  intros Hm t. unfold is_market_open, pair_leb. cbn [fst snd].
  destruct (Nat.leb_spec 5 (weekday now)) as [Hw|Hw].
  - split; [discriminate|lia].
  - cbv zeta. rewrite orb_true_iff, !andb_true_iff, !orb_true_iff,
      !andb_true_iff, !Nat.ltb_lt, !Nat.eqb_eq, !Nat.leb_le.
    unfold t. lia.
Qed.

Lemma market_hours_in_minutes_witness :
  is_market_open (mkClock 2 12 30) = true
  /\ is_market_open (mkClock 2 12 31) = false
  /\ is_market_open (mkClock 5 11 0) = false.
Proof.
  split; [|split].
  - apply (market_hours_in_minutes (mkClock 2 12 30)); cbn; lia.
  - destruct (is_market_open (mkClock 2 12 31)) eqn:E; [|reflexivity].
    apply (market_hours_in_minutes (mkClock 2 12 31)) in E; cbn in *; lia.
  - reflexivity.
Defined.

End DataFetcherFacts.

(* ================================================================== *)
(** * Properties in double precision *)
(* ================================================================== *)

Module DoubleFacts.
Import Double.
Local Open Scope float_scope.

Ltac sf_cases :=
  repeat match goal with
         | s : bool |- _ => destruct s
         end;
  cbn in *;
  repeat match goal with
         | H : context [Pos.compare_cont Eq ?a ?b] |- _ =>
             change (Pos.compare_cont Eq a b) with (Pos.compare a b) in H
         | |- context [Pos.compare_cont Eq ?a ?b] =>
             change (Pos.compare_cont Eq a b) with (Pos.compare a b)
         end;
  repeat match goal with
         | H : context [Z.compare ?a ?b] |- _ =>
             destruct (Z.compare_spec a b); cbn in *
         | |- context [Z.compare ?a ?b] =>
             destruct (Z.compare_spec a b); cbn in *
         | H : context [Pos.compare ?a ?b] |- _ =>
             destruct (Pos.compare_spec a b); cbn in *
         | |- context [Pos.compare ?a ?b] =>
             destruct (Pos.compare_spec a b); cbn in *
         end;
  try discriminate; try reflexivity; try congruence; try lia.

Lemma SFcompare_antisym a b c :
  SFcompare a b = Some c -> SFcompare b a = Some (CompOpp c).
Proof.
  destruct a, b; cbn; intros H; try discriminate;
    try (injection H as <-); sf_cases.
Qed.

Lemma SFcompare_refl a : SFcompare a a = None \/ SFcompare a a = Some Eq.
Proof. destruct a; cbn; auto; right; sf_cases. Qed.

Lemma SFcompare_trans a b c x :
  SFcompare a b = Some x -> SFcompare b c = Some x -> SFcompare a c = Some x.
Proof.
  destruct a, b, c; cbn; intros H1 H2; try discriminate;
    injection H1 as <-; sf_cases.
Qed.

Lemma SFcompare_eq_l a b c x :
  SFcompare a b = Some Eq -> SFcompare b c = Some x -> SFcompare a c = Some x.
Proof.
  destruct a, b, c; cbn; intros H1 H2; try discriminate;
    injection H2 as <-; sf_cases.
Qed.

Lemma SFcompare_eq_r a b c x :
  SFcompare a b = Some x -> SFcompare b c = Some Eq -> SFcompare a c = Some x.
Proof.
  destruct a, b, c; cbn; intros H1 H2; try discriminate;
    injection H1 as <-; sf_cases.
Qed.

Lemma SFcompare_some a b :
  SFcompare a a <> None -> SFcompare b b <> None -> SFcompare a b <> None.
Proof. destruct a, b; cbn; congruence. Qed.

Lemma SFcompare_some_l a b x : SFcompare a b = Some x -> SFcompare a a <> None.
Proof. destruct a, b; cbn; congruence. Qed.

Lemma SFcompare_some_r a b x : SFcompare a b = Some x -> SFcompare b b <> None.
Proof. destruct a, b; cbn; congruence. Qed.

Lemma leb_cmp x y :
  (x <=? y) = match spec_compare x y with Some (Lt | Eq) => true | _ => false end.
Proof. rewrite FloatAxioms.leb_spec. reflexivity. Qed.

Lemma ltb_cmp x y :
  (x <? y) = match spec_compare x y with Some Lt => true | _ => false end.
Proof. rewrite FloatAxioms.ltb_spec. reflexivity. Qed.

Lemma eqb_cmp x y :
  (x =? y) = match spec_compare x y with Some Eq => true | _ => false end.
Proof. rewrite FloatAxioms.eqb_spec. reflexivity. Qed.

Lemma is_num_cmp x : is_num x = true <-> spec_compare x x <> None.
Proof.
  unfold is_num. rewrite eqb_cmp. unfold spec_compare.
  destruct (SFcompare_refl (Prim2SF x)) as [-> | ->]; split; congruence.
Qed.

Lemma cmp_total x y :
  is_num x = true -> is_num y = true -> exists c, spec_compare x y = Some c.
Proof.
  rewrite !is_num_cmp. intros Hx Hy.
  pose proof (SFcompare_some _ _ Hx Hy) as H. unfold spec_compare in *.
  destruct (SFcompare (Prim2SF x) (Prim2SF y)) as [c|]; [eauto | contradiction].
Qed.

(** Unfold every comparison in sight to a case of [spec_compare]. *)
Ltac to_cmp :=
  rewrite ?leb_cmp, ?ltb_cmp, ?eqb_cmp in *.

Lemma leb_is_num x y : (x <=? y) = true -> is_num x = true /\ is_num y = true.
Proof.
  rewrite leb_cmp, !is_num_cmp. unfold spec_compare.
  destruct (SFcompare (Prim2SF x) (Prim2SF y)) as [c|] eqn:E; [|discriminate].
  intros _. split; [eapply SFcompare_some_l | eapply SFcompare_some_r]; exact E.
Qed.

Lemma ltb_is_num x y : (x <? y) = true -> is_num x = true /\ is_num y = true.
Proof.
  rewrite ltb_cmp, !is_num_cmp. unfold spec_compare.
  destruct (SFcompare (Prim2SF x) (Prim2SF y)) as [c|] eqn:E; [|discriminate].
  intros _. split; [eapply SFcompare_some_l | eapply SFcompare_some_r]; exact E.
Qed.

Lemma leb_refl x : is_num x = true -> (x <=? x) = true.
Proof.
  rewrite is_num_cmp, leb_cmp. unfold spec_compare.
  destruct (SFcompare_refl (Prim2SF x)) as [-> | ->]; congruence.
Qed.

Lemma ltb_irrefl x : (x <? x) = false.
Proof.
  rewrite ltb_cmp. unfold spec_compare.
  destruct (SFcompare_refl (Prim2SF x)) as [-> | ->]; reflexivity.
Qed.

Lemma ltb_leb x y : (x <? y) = true -> (x <=? y) = true.
Proof. to_cmp. destruct (spec_compare x y) as [[]|]; congruence. Qed.

Lemma cmp_antisym x y c : spec_compare x y = Some c -> spec_compare y x = Some (CompOpp c).
Proof. apply SFcompare_antisym. Qed.

(** Numbers are totally ordered. *)
Lemma ltb_false_leb x y :
  is_num x = true -> is_num y = true -> (y <? x) = false -> (x <=? y) = true.
Proof.
  intros Hx Hy. destruct (cmp_total x y Hx Hy) as [c E].
  to_cmp. rewrite E, (cmp_antisym _ _ _ E). destruct c; cbn; congruence.
Qed.

Lemma leb_false_ltb x y :
  is_num x = true -> is_num y = true -> (x <=? y) = false -> (y <? x) = true.
Proof.
  intros Hx Hy. destruct (cmp_total x y Hx Hy) as [c E].
  to_cmp. rewrite E, (cmp_antisym _ _ _ E). destruct c; cbn; congruence.
Qed.

Lemma leb_ltb_false x y : (x <=? y) = true -> (y <? x) = false.
Proof.
  to_cmp. destruct (spec_compare x y) as [c|] eqn:E; [|discriminate].
  rewrite (cmp_antisym _ _ _ E). destruct c; cbn; congruence.
Qed.

Lemma leb_trans x y z : (x <=? y) = true -> (y <=? z) = true -> (x <=? z) = true.
Proof.
  to_cmp. unfold spec_compare.
  destruct (SFcompare (Prim2SF x) (Prim2SF y)) as [[]|] eqn:E1; try discriminate;
    destruct (SFcompare (Prim2SF y) (Prim2SF z)) as [[]|] eqn:E2; try discriminate;
    intros _ _.
  - rewrite (SFcompare_trans _ _ _ _ E1 E2). reflexivity.
  - rewrite (SFcompare_eq_l _ _ _ _ E1 E2). reflexivity.
  - rewrite (SFcompare_eq_r _ _ _ _ E1 E2). reflexivity.
  - rewrite (SFcompare_trans _ _ _ _ E1 E2). reflexivity.
Qed.

Lemma ltb_leb_trans x y z : (x <? y) = true -> (y <=? z) = true -> (x <? z) = true.
Proof.
  to_cmp. unfold spec_compare.
  destruct (SFcompare (Prim2SF x) (Prim2SF y)) as [[]|] eqn:E1; try discriminate;
    destruct (SFcompare (Prim2SF y) (Prim2SF z)) as [[]|] eqn:E2; try discriminate;
    intros _ _.
  - rewrite (SFcompare_eq_r _ _ _ _ E1 E2). reflexivity.
  - rewrite (SFcompare_trans _ _ _ _ E1 E2). reflexivity.
Qed.

Lemma leb_ltb_trans x y z : (x <=? y) = true -> (y <? z) = true -> (x <? z) = true.
Proof.
  to_cmp. unfold spec_compare.
  destruct (SFcompare (Prim2SF x) (Prim2SF y)) as [[]|] eqn:E1; try discriminate;
    destruct (SFcompare (Prim2SF y) (Prim2SF z)) as [[]|] eqn:E2; try discriminate;
    intros _ _.
  - rewrite (SFcompare_eq_l _ _ _ _ E1 E2). reflexivity.
  - rewrite (SFcompare_trans _ _ _ _ E1 E2). reflexivity.
Qed.

Lemma leb_antisym x y : (x <=? y) = true -> (y <=? x) = true -> (x =? y) = true.
Proof.
  to_cmp. destruct (spec_compare x y) as [c|] eqn:E; [|discriminate].
  rewrite (cmp_antisym _ _ _ E). destruct c; cbn; congruence.
Qed.

Lemma eqb_leb x y : (x =? y) = true -> (x <=? y) = true /\ (y <=? x) = true.
Proof.
  to_cmp. destruct (spec_compare x y) as [c|] eqn:E; [|discriminate].
  rewrite (cmp_antisym _ _ _ E). destruct c; cbn; auto; discriminate.
Qed.


Lemma ltb_negb_leb x y :
  is_num x = true -> is_num y = true -> (x <? y) = negb (y <=? x).
Proof.
  intros Hx Hy. destruct (y <=? x) eqn:E; cbn.
  - apply leb_ltb_false, E.
  - apply leb_false_ltb; assumption.
Qed.

(** Saturate the context with what follows from the comparisons in it. *)
Ltac order_facts :=
  repeat match goal with
         | H : (?x <=? ?y) = true |- _ =>
             lazymatch goal with
             | _ : is_num x = true |- _ => fail
             | _ => pose proof (proj1 (leb_is_num _ _ H))
             end
         | H : (?x <=? ?y) = true |- _ =>
             lazymatch goal with
             | _ : is_num y = true |- _ => fail
             | _ => pose proof (proj2 (leb_is_num _ _ H))
             end
         | H : (?x <=? ?y) = false, Hx : is_num ?x = true,
           Hy : is_num ?y = true |- _ =>
             lazymatch goal with
             | _ : (y <=? x) = true |- _ => fail
             | _ => pose proof (ltb_leb _ _ (leb_false_ltb _ _ Hx Hy H))
             end
         | H1 : (?x <=? ?y) = true, H2 : (?y <=? ?z) = true |- _ =>
             lazymatch goal with
             | _ : (x <=? z) = true |- _ => fail
             | _ => pose proof (leb_trans _ _ _ H1 H2)
             end
         end.

Ltac order :=
  order_facts;
  solve [ assumption
        | reflexivity
        | match goal with
          | H1 : ?t = true, H2 : ?t = false |- _ =>
              exfalso; rewrite H1 in H2; discriminate H2
          end ].

(** Python's [min] and [max] of two numbers. *)
Lemma py_min_cases a b : py_min a b = a \/ py_min a b = b.
Proof. unfold py_min. destruct (b <? a); auto. Qed.

Lemma py_max_cases a b : py_max a b = a \/ py_max a b = b.
Proof. unfold py_max. destruct (a <? b); auto. Qed.

Lemma py_min_leb_l a b : is_num a = true -> is_num b = true -> (py_min a b <=? a) = true.
Proof.
  intros Ha Hb. unfold py_min. destruct (b <? a) eqn:E.
  - apply ltb_leb, E.
  - apply leb_refl, Ha.
Qed.

Lemma py_min_leb_r a b : is_num a = true -> is_num b = true -> (py_min a b <=? b) = true.
Proof.
  intros Ha Hb. unfold py_min. destruct (b <? a) eqn:E.
  - apply leb_refl, Hb.
  - apply ltb_false_leb; assumption.
Qed.

Lemma py_max_geb_l a b : is_num a = true -> is_num b = true -> (a <=? py_max a b) = true.
Proof.
  intros Ha Hb. unfold py_max. destruct (a <? b) eqn:E.
  - apply ltb_leb, E.
  - apply leb_refl, Ha.
Qed.

Lemma py_max_geb_r a b : is_num a = true -> is_num b = true -> (b <=? py_max a b) = true.
Proof.
  intros Ha Hb. unfold py_max. destruct (a <? b) eqn:E.
  - apply leb_refl, Hb.
  - apply ltb_false_leb; assumption.
Qed.

End DoubleFacts.

Module IndicatorsDoubleFacts.
Import Double DoubleFacts DoubleNumpy IndicatorsDouble PyNumFacts.
Local Open Scope float_scope.

(** ** Clustering *)

Lemma chained_not_nil th g : chained th g -> g <> [].
Proof. intros H; inversion H; subst; [discriminate | now destruct g0]. Qed.

Lemma chained_hd_snoc th g a : chained th g -> hd 0 (g ++ [a]) = hd 0 g.
Proof.
  intros H. apply chained_not_nil in H.
  destruct g; [contradiction | reflexivity].
Qed.

Lemma clustering_grow th gs g lv :
  clustering th (gs ++ [g]) -> near (last g 0) lv th = true ->
  clustering th (gs ++ [g ++ [lv]]).
Proof.
  intros H Hn. inversion H as [g0 Hc E | gs0 g0 g' Hcl Hc Hf E].
  - change [g0] with ([] ++ [g0]) in E.
    apply app_inj_tail in E as [<- ->].
    cbn. apply clustering_one. apply chained_snoc; assumption.
  - apply app_inj_tail in E as [<- ->].
    apply clustering_snoc; [assumption | apply chained_snoc; assumption |].
    rewrite (chained_hd_snoc th g lv Hc). assumption.
Qed.

Lemma cluster_loop_groups th rest :
  forall gs g clustered,
    clustered = map np_mean gs ->
    clustering th (gs ++ [g]) ->
    exists gs' g',
      fold_left (cluster_step th) rest (clustered, g) = (map np_mean gs', g')
      /\ clustering th (gs' ++ [g'])
      /\ concat (gs' ++ [g']) = concat (gs ++ [g]) ++ rest.
Proof.
  induction rest as [|lv rest IH]; intros gs g clustered -> Hcl.
  - exists gs, g. cbn. rewrite app_nil_r. auto.
  - cbn [fold_left]. unfold cluster_step at 2.
    destruct (near (last g 0) lv th) eqn:En.
    + destruct (IH gs (g ++ [lv]) (map np_mean gs) eq_refl
                  (clustering_grow th gs g lv Hcl En)) as (gs' & g' & F & C & K).
      exists gs', g'. repeat split; auto.
      rewrite K, !concat_app. cbn. rewrite !app_nil_r, <- !app_assoc. reflexivity.
    + assert (Hcl' : clustering th ((gs ++ [g]) ++ [[lv]])).
      { apply clustering_snoc; [assumption | apply chained_one | exact En]. }
      destruct (IH (gs ++ [g]) [lv] (map np_mean gs ++ [np_mean g])
                  ltac:(rewrite map_app; reflexivity) Hcl') as (gs' & g' & F & C & K).
      exists gs', g'. repeat split; auto.
      rewrite K, !concat_app. cbn. rewrite !app_nil_r, <- !app_assoc. reflexivity.
Qed.

(** The clusters returned are the averages of a clustering of the
    levels, in order. *)
Lemma cluster_levels_groups levels th :
  levels <> [] ->
  exists gs, cluster_levels levels th = map np_mean gs
             /\ clustering th gs /\ concat gs = levels.
Proof.
  destruct levels as [|lv0 rest]; [contradiction|]. intros _.
  unfold cluster_levels.
  destruct (cluster_loop_groups th rest [] [lv0] [] eq_refl
              (clustering_one th [lv0] (chained_one th lv0))) as (gs' & g' & F & C & K).
  rewrite F. exists (gs' ++ [g']). rewrite map_app. cbn. auto.
Qed.

(** ** Distinct sorted levels *)

Lemma insert_uniq_among x l : incl (insert_uniq x l) (x :: l).
Proof.
  induction l as [|y l IH]; cbn; [apply incl_refl|].
  destruct (x <? y); [apply incl_refl|].
  destruct (x =? y); [apply incl_tl, incl_refl|].
  intros a [<-|Ha]; [right; left; reflexivity|].
  apply IH in Ha as [<-|Ha]; [left | right; right]; auto.
Qed.

Lemma ltb_trans x y z : (x <? y) = true -> (y <? z) = true -> (x <? z) = true.
Proof. intros H1 H2. eapply ltb_leb_trans; [exact H1 | apply ltb_leb, H2]. Qed.

Lemma not_ltb_not_eqb x y :
  is_num x = true -> is_num y = true ->
  (x <? y) = false -> (x =? y) = false -> (y <? x) = true.
Proof.
  intros Hx Hy H1 H2. apply leb_false_ltb; [assumption | assumption|].
  destruct (x <=? y) eqn:E; [|reflexivity].
  pose proof (ltb_false_leb y x Hy Hx H1) as E'.
  rewrite (leb_antisym _ _ E E') in H2. discriminate H2.
Qed.

Lemma insert_uniq_ascending x l :
  is_num x = true -> Forall (fun y => is_num y = true) l ->
  StronglySorted (fun a b => (a <? b) = true) l ->
  StronglySorted (fun a b => (a <? b) = true) (insert_uniq x l).
Proof.
  intros Hx. induction l as [|y l IH]; intros Hn Hs; cbn.
  - repeat constructor.
  - inversion Hs as [|? ? Hs' Hall]; subst.
    inversion Hn as [|? ? Hy Hn']; subst.
    destruct (x <? y) eqn:E1.
    + constructor; [assumption|]. constructor; [assumption|].
      eapply Forall_impl; [|exact Hall]. intros a Ha. cbv beta in Ha.
      eapply ltb_trans; eassumption.
    + destruct (x =? y) eqn:E2; [assumption|].
      constructor; [apply IH; assumption|].
      apply Forall_forall. intros a Ha.
      apply insert_uniq_among in Ha as [<-|Ha].
      * apply not_ltb_not_eqb; assumption.
      * rewrite Forall_forall in Hall. apply Hall, Ha.
Qed.

Lemma sorted_set_among xs : incl (sorted_set xs) xs.
Proof.
  induction xs as [|x xs IH]; cbn; [apply incl_refl|].
  intros a Ha. apply insert_uniq_among in Ha as [<-|Ha]; [left | right]; auto.
Qed.

Lemma sorted_set_ascending xs :
  Forall (fun y => is_num y = true) xs ->
  StronglySorted (fun a b => (a <? b) = true) (sorted_set xs).
Proof.
  induction 1 as [|x xs Hx Hxs IH]; cbn; [constructor|].
  apply insert_uniq_ascending; [assumption | | assumption].
  apply Forall_forall. intros a Ha. apply sorted_set_among in Ha.
  rewrite Forall_forall in Hxs. apply Hxs, Ha.
Qed.

(** ** Sorting by a key *)

Section SortedByKey.
Variable key : float -> float.
Let le_key (a b : float) : Prop := (key a <=? key b) = true.
Let before (x y : float) : bool := key x <? key y.
Let numbered (l : list float) : Prop := Forall (fun x => is_num (key x) = true) l.

Lemma insert_before_by_key x l :
  is_num (key x) = true -> numbered l ->
  StronglySorted le_key l -> StronglySorted le_key (insert_before before x l).
Proof.
  intros Hx. induction l as [|y l IH]; intros Hn Hs; cbn [insert_before].
  - repeat constructor.
  - inversion Hs as [|? ? Hs' Hall]; subst.
    inversion Hn as [|? ? Hy Hn']; subst.
    destruct (before x y) eqn:E; unfold before in E.
    + constructor; [assumption|]. constructor.
      * apply ltb_leb, E.
      * eapply Forall_impl; [|exact Hall]. unfold le_key. intros a Ha.
        eapply leb_trans; [apply ltb_leb, E | exact Ha].
    + constructor; [apply IH; assumption|].
      rewrite (insert_before_perm before x l).
      constructor; [|assumption].
      apply ltb_false_leb; assumption.
Qed.

Lemma sorted_by_key xs :
  numbered xs -> StronglySorted le_key (sorted_by key xs).
Proof.
  unfold sorted_by, sort_before. fold before.
  enough (H : forall acc,
             numbered xs -> numbered acc ->
             StronglySorted le_key acc ->
             StronglySorted le_key
               (fold_left (fun a x => insert_before before x a) xs acc))
    by (intros Hn; apply H; [assumption | constructor | constructor]).
  induction xs as [|x xs IH]; intros acc Hn Ha Hs; cbn [fold_left]; [exact Hs|].
  inversion Hn as [|? ? Hx Hn']; subst.
  apply IH; [assumption | | apply insert_before_by_key; assumption].
  unfold numbered. rewrite (insert_before_perm before x acc).
  constructor; assumption.
Qed.

Lemma sorted_by_permutation xs : Permutation (sorted_by key xs) xs.
Proof. apply sort_before_perm. Qed.

End SortedByKey.

(** ** Support and resistance *)

Lemma extremum_levels_num closes cmp order :
  Forall (fun c => is_num c = true) closes ->
  Forall (fun c => is_num c = true)
         (map (fun i => nth i closes 0) (argrelextrema closes cmp order)).
Proof.
  intros H. apply Forall_forall. intros c Hc.
  apply in_map_iff in Hc as (i & <- & Hi).
  unfold argrelextrema in Hi. apply filter_In in Hi as [Hi _].
  apply in_seq in Hi. rewrite Forall_forall in H. apply H, nth_In. lia.
Qed.

Lemma nearest_levels_built closes order current cmp keep :
  Forall (fun c => is_num c = true) closes ->
  nearest_levels closes order current cmp keep
    (firstn 7
       (sorted_by (fun x => abs (x - current))
          (filter keep
             (cluster_levels
                (sorted_set (map (fun i => nth i closes 0)
                                 (argrelextrema closes cmp order))) 0.01)))).
Proof.
  intros Hn. unfold nearest_levels.
  pose proof (sorted_set_ascending _ (extremum_levels_num closes cmp order Hn))
    as Hsorted.
  set (levels := sorted_set _) in *.
  destruct levels as [|lv0 rest] eqn:E.
  - exists [], []. cbn. repeat split; auto; try constructor. congruence.
  - destruct (cluster_levels_groups (lv0 :: rest) 0.01 ltac:(discriminate))
      as (gs & G & C & K).
    rewrite G.
    exists gs, (sorted_by (fun x => abs (x - current)) (filter keep (map np_mean gs))).
    repeat split; auto.
    + apply sorted_by_permutation.
    + intros Hd. apply (sorted_by_key (fun x => abs (x - current))).
      eapply Permutation_Forall; [apply sorted_by_permutation | exact Hd].
Qed.

Lemma firstn_among {A} (x : A) n l : In x (firstn n l) -> In x l.
Proof.
  revert l. induction n as [|n IH]; intros [|a l]; cbn; try tauto.
  intros [->|H]; [left; reflexivity | right; apply IH, H].
Qed.

Lemma firstn_sorted_kept (key : float -> float) (keep : float -> bool) l :
  Forall (fun x => keep x = true) (firstn 7 (sorted_by key (filter keep l))).
Proof.
  apply Forall_forall. intros x Hx.
  apply firstn_among in Hx.
  apply (Permutation_in _ (sorted_by_permutation key _)) in Hx.
  apply filter_In in Hx as [_ Hk]. exact Hk.
Qed.

(** C9 (as amended). On a non-empty series of numbers the function
    returns two lists of at most seven levels each; for a window below 1
    both are empty.  Otherwise each is built from the distinct closes at
    the local extrema, in ascending order: a level joins the current
    cluster when the test
    [abs(lv - prev) / max(prev, 1e-9) <= 0.01], evaluated in double
    precision, holds for the level before it, and every cluster is
    replaced by its average.  Of these averages the supports keep those
    below [current * 1.02] and the resistances those above
    [current * 0.98] (one-sided tests), sorted by distance to the
    current price. *)
Theorem find_support_resistance_levels (closes : list float) (window : Z)
    (current : float) :
  iloc_neg closes 1 = Some current ->
  Forall (fun c => is_num c = true) closes ->
  exists supports resistances,
    find_support_resistance closes window = Some (supports, resistances)
    /\ (List.length supports <= 7)%nat
    /\ (List.length resistances <= 7)%nat
    /\ Forall (fun s => (s <? current * 1.02) = true) supports
    /\ Forall (fun r => (current * 0.98 <? r) = true) resistances
    /\ ((window < 1)%Z -> supports = [] /\ resistances = [])
    /\ ((1 <= window)%Z ->
        nearest_levels closes (Z.to_nat window) current less_equal
          (fun s => s <? current * 1.02) supports
        /\ nearest_levels closes (Z.to_nat window) current greater_equal
             (fun r => current * 0.98 <? r) resistances).
Proof.
  intros Hc Hn. unfold find_support_resistance. rewrite Hc.
  destruct (window <? 1)%Z eqn:Ew.
  - apply Z.ltb_lt in Ew. exists [], [].
    repeat split; auto; try constructor; cbn; try lia.
  - apply Z.ltb_ge in Ew. eexists _, _. split; [reflexivity|].
    split; [apply firstn_le_length|].
    split; [apply firstn_le_length|].
    split; [apply (firstn_sorted_kept _ (fun s => s <? current * 1.02))|].
    split; [apply (firstn_sorted_kept _ (fun r => current * 0.98 <? r))|].
    split; [intros; lia|].
    intros _. split; apply nearest_levels_built, Hn.
Qed.


Lemma find_support_resistance_levels_witness :
  exists supports resistances,
    find_support_resistance DoubleScenarios.two_dips 2
    = Some (supports, resistances)
    /\ (List.length supports <= 7)%nat
    /\ (List.length resistances <= 7)%nat
    /\ Forall (fun s => (s <? 31.5 * 1.02) = true) supports
    /\ Forall (fun r => (31.5 * 0.98 <? r) = true) resistances
    /\ ((2 < 1)%Z -> supports = [] /\ resistances = [])
    /\ ((1 <= 2)%Z ->
        nearest_levels DoubleScenarios.two_dips (Z.to_nat 2) 31.5 less_equal
          (fun s => s <? 31.5 * 1.02) supports
        /\ nearest_levels DoubleScenarios.two_dips (Z.to_nat 2) 31.5
             greater_equal (fun r => 31.5 * 0.98 <? r) resistances).
Proof.
  apply (find_support_resistance_levels DoubleScenarios.two_dips 2 31.5).
  - reflexivity.
  - repeat constructor.
Defined.

(** Dips to 30.00 and 30.30 are 1% apart, but the quotient computed
    for them is 0.010000000000000024: they stay two supports. *)
Example dips_one_percent_apart :
  near 30.00 30.30 0.01 = false
  /\ find_support_resistance DoubleScenarios.two_dips 2
     = Some ([30.30; 30.00], [31.5; 32]).
Proof. split; vm_compute; reflexivity. Qed.

(** On closes rising from 50 to 100 the one support is 50 on doubles
    too. *)
Example far_support_on_doubles :
  find_support_resistance DoubleScenarios.rising_closes 10
  = Some ([50], [100]).
Proof. vm_compute; reflexivity. Qed.

Example window_below_one :
  find_support_resistance DoubleScenarios.two_dips 0 = Some ([], [])
  /\ find_support_resistance [] 0 = None.
Proof. split; reflexivity. Qed.

End IndicatorsDoubleFacts.

Module CandleAnalysisDoubleFacts.
Import Double DoubleFacts DoubleNumpy CandleAnalysisDouble.
Local Open Scope float_scope.

(** C8. Twenty bars closing at 10.1 have no variance, but the analyzer
    does not return the empty result: the mean of the twenty closes
    comes out as 10.099999999999998, the standard deviation as
    1.8e-15 instead of 0 (whichever way the sum is taken), the guard
    [std == 0] does not fire, and the result is a COMPRESSED regime. *)
Theorem analyze_bell_curve_misses_flat_series :
  Forall (fun c => c = 10.1) DoubleScenarios.flat_closes
  /\ List.length DoubleScenarios.flat_closes = 20%nat
  /\ std_with seq_sum DoubleScenarios.flat_closes = 1.8225036628030615e-15
  /\ exists s,
       analyze_bell_curve DoubleScenarios.flat_closes 60 = Stats s
       /\ bc_current s = 10.1
       /\ bc_mean s = 10.099999999999998
       /\ bc_std s = 1.8225036628030615e-15
       /\ bc_regime s = COMPRESSED.
Proof.
  split; [repeat constructor|].
  split; [reflexivity|].
  split; [vm_compute; reflexivity|].
  eexists. split; [vm_compute; reflexivity|].
  repeat split.
Qed.

(** A flat series whose sum is exact does give the empty result. *)
Example analyze_bell_curve_flat_at_10 :
  analyze_bell_curve (repeat 10 20) 60 = Empty.
Proof. vm_compute; reflexivity. Qed.

Lemma dropna_app xs ys : dropna (xs ++ ys) = dropna xs ++ dropna ys.
Proof. apply filter_app. Qed.

Lemma lastn_app {A} (k : nat) (xs ys : list A) :
  (k <= List.length ys)%nat -> lastn k (xs ++ ys) = lastn k ys.
Proof.
  intros H. unfold lastn. rewrite length_app.
  replace (List.length xs + List.length ys - k)%nat
    with (List.length xs + (List.length ys - k))%nat by lia.
  rewrite skipn_app, skipn_all2 by lia.
  replace (List.length xs + (List.length ys - k) - List.length xs)%nat
    with (List.length ys - k)%nat by lia.
  reflexivity.
Qed.

(** X22. The mean-reversion analysis reads the trailing window only:
    when the frame holds at least 20 bars and the window is at least 1
    and at most the number of closes that are numbers, older bars put
    in front of the frame change none of the modelled entries
    (current, mean, std, z-score, regime, reversion probability,
    direction and window), nor whether the analysis is empty. *)
Theorem analyze_bell_curve_uses_trailing_window
    (older close_column : list float) (window : Z) :
  (20 <= List.length close_column)%nat ->
  (0 < window <= Z.of_nat (List.length (dropna close_column)))%Z ->
  analyze_bell_curve (older ++ close_column) window
  = analyze_bell_curve close_column window.
Proof.
  intros Hlen [Hw0 Hw]. unfold analyze_bell_curve.
  assert (E1 : (List.length (older ++ close_column) <? 20)%nat = false)
    by (apply Nat.ltb_ge; rewrite length_app; lia).
  assert (E2 : (List.length close_column <? 20)%nat = false)
    by (apply Nat.ltb_ge; lia).
  rewrite E1, E2, dropna_app, length_app.
  rewrite !Z.min_l by lia.
  unfold iloc_tail. replace (0 <? window)%Z with true by (symmetry; apply Z.ltb_lt; lia).
  rewrite lastn_app by lia. reflexivity.
Qed.

Lemma analyze_bell_curve_uses_trailing_window_witness :
  analyze_bell_curve ([1; 2; 3] ++ DoubleScenarios.flat_closes) 20
  = analyze_bell_curve DoubleScenarios.flat_closes 20.
Proof.
  apply (analyze_bell_curve_uses_trailing_window
           [1; 2; 3] DoubleScenarios.flat_closes 20).
  - vm_compute. lia.
  - vm_compute. split; [reflexivity | discriminate].
Defined.

End CandleAnalysisDoubleFacts.

Module ScannerDoubleFacts.
Import Double DoubleFacts ScannerDouble.
Local Open Scope float_scope.

Lemma fib_zones_ratios : fib_zones = combine fib_ratios (tl fib_ratios).
Proof. reflexivity. Qed.

Lemma in_zone_between f c z :
  is_num (f (fst z)) = true -> is_num (f (snd z)) = true ->
  in_zone f c z = between (f (fst z)) c (f (snd z)).
Proof.
  intros Ha Hb. unfold in_zone, between, py_min, py_max.
  set (a := f (fst z)) in *. set (b := f (snd z)) in *.
  rewrite (ltb_negb_leb b a Hb Ha), (ltb_negb_leb a b Ha Hb).
  destruct (a <=? b) eqn:Eab; destruct (b <=? a) eqn:Eba; cbn [negb];
    destruct (a <=? c) eqn:Eac; destruct (c <=? a) eqn:Eca;
    destruct (b <=? c) eqn:Ebc; destruct (c <=? b) eqn:Ecb;
    cbn; try reflexivity; order.
Qed.

(** A price between the first and the last of a run of levels lies
    between two neighbours of the run. *)
Lemma between_neighbours (c : float) (l : list float) :
  forall a b,
    Forall (fun x => is_num x = true) (a :: l) ->
    l <> [] -> last l a = b ->
    between a c b = true ->
    exists i x y,
      nth_error (a :: l) i = Some x /\ nth_error (a :: l) (S i) = Some y
      /\ between x c y = true.
Proof.
  induction l as [|y l IH]; intros a b Hn Hne Hl Hb; [contradiction|].
  destruct (between a c y) eqn:E.
  - exists 0%nat, a, y. auto.
  - destruct l as [|y' l].
    + cbn in Hl. subst b. congruence.
    + inversion Hn as [|? ? Ha Hn']; subst.
      destruct (IH y (last (y' :: l) y) Hn' ltac:(discriminate) eq_refl)
        as (i & x & z & Hx & Hz & Hxz).
      * change (last (y :: y' :: l) a) with (last (y' :: l) a) in Hb.
        assert (Hlast : last (y' :: l) a = last (y' :: l) y)
          by (clear; revert y'; induction l as [|w l IHl]; intros y';
              [reflexivity | apply (IHl w)]).
        rewrite Hlast in Hb. set (b := last (y' :: l) y) in *.
        inversion Hn' as [|? ? Hy _]; subst.
        clearbody b. clear IH Hn Hn' Hlast Hne.
        unfold between in *.
        destruct (a <=? c) eqn:Eac; destruct (c <=? b) eqn:Ecb;
          destruct (b <=? c) eqn:Ebc; destruct (c <=? a) eqn:Eca;
          cbn in Hb; try discriminate Hb;
          destruct (y <=? c) eqn:Eyc; destruct (c <=? y) eqn:Ecy;
          cbn in E |- *; try discriminate E; try reflexivity;
          order.
      * exists (S i), x, z. auto.
Qed.

Lemma find_first {A} (p : A -> bool) (l : list A) z :
  find p l = Some z ->
  exists i, nth_error l i = Some z /\ p z = true
            /\ forall j z', nth_error l j = Some z' -> p z' = true -> (i <= j)%nat.
Proof.
  induction l as [|x l IH]; cbn; [discriminate|].
  destruct (p x) eqn:E.
  - intros H. injection H as <-. exists 0%nat. repeat split; auto. intros; lia.
  - intros H. destruct (IH H) as (i & Hi & Hp & Hmin).
    exists (S i). repeat split; auto.
    intros [|j] z' Hj Hz; cbn in Hj.
    + injection Hj as <-. congruence.
    + specialize (Hmin j z' Hj Hz). lia.
Qed.

Lemma find_nowhere {A} (p : A -> bool) (l : list A) :
  find p l = None -> forall z, In z l -> p z = false.
Proof. intros H z Hz. apply (find_none p l H z Hz). Qed.

(** Two zones that hold the same price meet in it. *)
Lemma zones_meet (up : bool) (a b a' b' c : float) :
  let R x y := (if up then x <=? y else y <=? x) = true in
  R a b -> R a' b' -> R b a' ->
  between a c b = true -> between a' c b' = true ->
  (c =? b) = true /\ (c =? a') = true.
Proof.
  cbv zeta. unfold between. intros Hab Hab' Hba' H1 H2.
  apply orb_true_iff in H1. apply orb_true_iff in H2.
  rewrite !andb_true_iff in H1, H2.
  destruct up; destruct H1 as [[? ?]|[? ?]]; destruct H2 as [[? ?]|[? ?]];
    split; apply leb_antisym; order_facts; assumption.
Qed.

Lemma StronglySorted_nth {A} (R : A -> A -> Prop) (l : list A) :
  StronglySorted R l ->
  forall i j x y, (i < j)%nat ->
    nth_error l i = Some x -> nth_error l j = Some y -> R x y.
Proof.
  induction 1 as [|a l Hs IH Hall]; intros i j x y Hij Hi Hj.
  - destruct i; discriminate.
  - destruct j as [|j]; [lia|]. destruct i as [|i]; cbn in Hi, Hj.
    + injection Hi as <-. rewrite Forall_forall in Hall.
      apply Hall. eapply nth_error_In, Hj.
    + apply (IH i j); [lia | assumption | assumption].
Qed.

(** The zones are the pairs of neighbouring ratios. *)
Lemma fib_zones_nth i z :
  nth_error fib_zones i = Some z ->
  nth_error fib_ratios i = Some (fst z)
  /\ nth_error fib_ratios (S i) = Some (snd z).
Proof.
  unfold fib_zones, fib_ratios.
  do 6 (destruct i as [|i]; [intros H; injection H as <-; split; reflexivity|]).
  destruct i; discriminate.
Qed.

Lemma fib_ratios_zone i a b :
  nth_error fib_ratios i = Some a -> nth_error fib_ratios (S i) = Some b ->
  nth_error fib_zones i = Some (a, b).
Proof.
  unfold fib_zones, fib_ratios.
  do 6 (destruct i as [|i];
        [intros H1 H2; injection H1 as <-; injection H2 as <-; reflexivity|]).
  destruct i as [|i]; [discriminate|]. destruct i; discriminate.
Qed.

Lemma level_is_num (f : float -> float) i r :
  Forall (fun r => is_num (f r) = true) fib_ratios ->
  nth_error fib_ratios i = Some r -> is_num (f r) = true.
Proof.
  intros H Hi. rewrite Forall_forall in H. eapply H, nth_error_In, Hi.
Qed.

(** X31. The levels being numbers, the zone scan that both [_scan_one]
    and [_scan_intraday] run answers the lowest-numbered zone whose
    computed bounds hold the price, and no zone when none does.  A price
    between the computed 0% and 100% levels is in a zone.  With the
    levels in the order of the scan, two zones that hold the same price
    meet in it: the price equals the upper computed bound of the lower
    zone and the lower computed bound of the higher one, and the scan
    answers the lower zone. *)
Theorem fib_zone_lowest_containing (up : bool) (low high c : float) :
  let f := swing_fp low high up in
  Forall (fun r => is_num (f r) = true) fib_ratios ->
  match locate_zone f c with
  | Some z =>
      exists i,
        nth_error fib_zones i = Some z
        /\ in_zone f c z = true
        /\ forall j z',
             nth_error fib_zones j = Some z' -> in_zone f c z' = true ->
             (i <= j)%nat
  | None => forall z, In z fib_zones -> in_zone f c z = false
  end
  /\ (between (f 0.0) c (f 1.0) = true -> locate_zone f c <> None)
  /\ (ordered up (map f fib_ratios) ->
      forall i j zi zj,
        (i < j)%nat ->
        nth_error fib_zones i = Some zi -> nth_error fib_zones j = Some zj ->
        in_zone f c zi = true -> in_zone f c zj = true ->
        (c =? f (snd zi)) = true /\ (c =? f (fst zj)) = true).
Proof.
  intros f Hnum. split; [|split].
  - destruct (locate_zone f c) as [z|] eqn:E.
    + apply find_first, E.
    + apply find_nowhere, E.
  - intros Hb E.
    destruct (between_neighbours c (map f (tl fib_ratios)) (f 0.0) (f 1.0))
      as (i & x & y & Hx & Hy & Hxy).
    + change (f 0.0 :: map f (tl fib_ratios)) with (map f fib_ratios).
      apply Forall_map. exact Hnum.
    + discriminate.
    + reflexivity.
    + exact Hb.
    + change (f 0.0 :: map f (tl fib_ratios)) with (map f fib_ratios) in Hx, Hy.
      rewrite nth_error_map in Hx, Hy.
      destruct (nth_error fib_ratios i) as [a|] eqn:Ha; [|discriminate].
      destruct (nth_error fib_ratios (S i)) as [b|] eqn:Hb'; [|discriminate].
      cbn [option_map] in Hx, Hy. injection Hx as <-. injection Hy as <-.
      pose proof (fib_ratios_zone i a b Ha Hb') as Hz.
      pose proof (find_nowhere _ _ E (a, b) (nth_error_In _ _ Hz)) as Hf.
      rewrite in_zone_between in Hf
        by (cbn [fst snd]; eapply level_is_num; eassumption).
      cbn [fst snd] in Hf. rewrite Hxy in Hf. discriminate Hf.
  - intros Hord i j zi zj Hij Hi Hj Hzi Hzj.
    destruct (fib_zones_nth i zi Hi) as [Hia Hib].
    destruct (fib_zones_nth j zj Hj) as [Hja Hjb].
    rewrite in_zone_between in Hzi, Hzj
      by (eapply level_is_num; eassumption).
    assert (R : forall m n x y, (m < n)%nat ->
                nth_error fib_ratios m = Some x ->
                nth_error fib_ratios n = Some y ->
                (if up then f x <=? f y else f y <=? f x) = true).
    { intros m n x y Hmn Hm Hn.
      apply (StronglySorted_nth _ _ Hord m n (f x) (f y) Hmn);
        rewrite nth_error_map; [rewrite Hm | rewrite Hn]; reflexivity. }
    apply (zones_meet up (f (fst zi)) (f (snd zi)) (f (fst zj)) (f (snd zj)) c);
      try assumption.
    + apply (R i (S i)); [lia | assumption | assumption].
    + apply (R j (S j)); [lia | assumption | assumption].
    + destruct (Nat.eq_dec (S i) j) as [<-|Hne].
      * assert (snd zi = fst zj) as -> by congruence.
        assert (Hn : is_num (f (fst zj)) = true)
          by (eapply level_is_num; eassumption).
        destruct up; apply leb_refl, Hn.
      * apply (R (S i) j); [lia | assumption | assumption].
Qed.

(** C2. A swing from 1.01 to 3.02 in an uptrend, with the close at the
    swing high: the 100% level [fp(1.0)] comes out as
    3.0199999999999996, below the close, so none of the six zones holds
    a price that lies between the swing low and the swing high, and the
    scan leaves its zone undetermined. *)
Theorem swing_high_in_no_zone :
  let f := swing_fp 1.01 3.02 true in
  (1.01 <? 3.02) = true
  /\ ((1.01 <=? 3.02) && (3.02 <=? 3.02)) = true
  /\ f 1.0 = 3.0199999999999996
  /\ locate_zone f 3.02 = None
  /\ forall z, In z fib_zones -> in_zone f 3.02 z = false.
Proof.
  cbv zeta. split; [vm_compute; reflexivity|].
  split; [vm_compute; reflexivity|].
  split; [vm_compute; reflexivity|].
  split; [vm_compute; reflexivity|].
  apply find_nowhere. vm_compute; reflexivity.
Qed.

(** A swing from 5 to 15 in an uptrend: the 23.6% line is 7.36, but the
    level computed for it is 7.3599999999999994, so a close of 7.36 is
    found in the second zone and not in the first. *)
Example close_on_a_line :
  let f := swing_fp 5 15 true in
  f 0.236 = 7.3599999999999994
  /\ locate_zone f 7.36 = Some (0.236, 0.382)
  /\ in_zone f 7.36 (0.0, 0.236) = false.
Proof. cbv zeta. repeat split; vm_compute; reflexivity. Qed.

(** A close equal to a computed level is in both zones next to it, and
    the scan answers the lower one. *)
Example close_on_a_computed_level :
  let f := swing_fp 5 15 true in
  locate_zone f (f 0.236) = Some (0.0, 0.236)
  /\ in_zone f (f 0.236) (0.236, 0.382) = true.
Proof. cbv zeta. split; vm_compute; reflexivity. Qed.

Lemma fib_zone_lowest_containing_witness :
  let f := swing_fp 10 20 true in
  match locate_zone f 12.36 with
  | Some z =>
      exists i,
        nth_error fib_zones i = Some z
        /\ in_zone f 12.36 z = true
        /\ forall j z',
             nth_error fib_zones j = Some z' -> in_zone f 12.36 z' = true ->
             (i <= j)%nat
  | None => forall z, In z fib_zones -> in_zone f 12.36 z = false
  end
  /\ (between (f 0.0) 12.36 (f 1.0) = true -> locate_zone f 12.36 <> None)
  /\ (ordered true (map f fib_ratios) ->
      forall i j zi zj,
        (i < j)%nat ->
        nth_error fib_zones i = Some zi -> nth_error fib_zones j = Some zj ->
        in_zone f 12.36 zi = true -> in_zone f 12.36 zj = true ->
        (12.36 =? f (snd zi)) = true /\ (12.36 =? f (fst zj)) = true).
Proof.
  apply (fib_zone_lowest_containing true 10 20 12.36).
  repeat constructor.
Defined.

End ScannerDoubleFacts.
